(** * Email Threat Intelligence: the threat scoring engine

    A shallow embedding of the client-side analysis engine
    ([extension/services/analyzer-service.js], the DNS service and the
    threat-intelligence service) and the properties of its scoring
    pipeline.

    Conventions of the embedding.
    - JavaScript strings are [string]s, one character per code unit;
      [length] is [String.length].  Every table and pattern of the
      engine is ASCII, and case is folded on ASCII letters.
    - JavaScript numbers that the engine manipulates are integers
      (scores, lengths, counts); scores are [Z], list lengths are [nat].
      The one floating-point expression, the weighted sum, is computed
      on integers and compared with its binary64 evaluation.
    - The network and the URL parser of the browser are parameters of
      the functions that call them.
    - A property that may be missing from an object ([undefined]) is an
      [option]; the helpers of [Module JS] give the JavaScript meaning of
      truthiness and of comparisons against [undefined].
    - A function that can throw returns a [result]; [try]/[catch] is a
      [match] on it. *)

From Stdlib Require Import ZArith List String Ascii Bool Lia.
From Stdlib Require Import Numbers.DecimalString.
From Stdlib Require Import Floats Uint63.
From Stdlib Require Import Sorting.Sorted Sorting.Permutation.
Import ListNotations.

Open Scope string_scope.
Open Scope Z_scope.

(** ** JavaScript primitives used by the engine *)

Module JS.

(** [x] as a condition, for a possibly missing boolean property. *)
Definition truthy (x : option bool) : bool :=
  match x with Some b => b | None => false end.

(** [x === false]. *)
Definition is_false (x : option bool) : bool :=
  match x with Some false => true | _ => false end.

(** [x < n] and [x > n]; a comparison with [undefined] is [false]. *)
Definition lt (x : option Z) (n : Z) : bool :=
  match x with Some v => v <? n | None => false end.

Definition gt (x : option Z) (n : Z) : bool :=
  match x with Some v => n <? v | None => false end.

(** [String.prototype.includes]. *)
Fixpoint includes (s sub : string) : bool :=
  prefix sub s ||
  match s with
  | EmptyString => false
  | String _ s' => includes s' sub
  end.

Definition startsWith (s p : string) : bool := prefix p s.

(** [String.prototype.endsWith]. *)
Definition endsWith (s suf : string) : bool :=
  (length suf <=? length s)%nat &&
  (substring (length s - length suf) (length suf) s =? suf)%string.

Definition lower_ascii (c : ascii) : ascii :=
  let n := nat_of_ascii c in
  if ((65 <=? n) && (n <=? 90))%nat then ascii_of_nat (n + 32) else c.

(** [String.prototype.toLowerCase]. *)
Fixpoint toLowerCase (s : string) : string :=
  match s with
  | EmptyString => EmptyString
  | String c s' => String (lower_ascii c) (toLowerCase s')
  end.

(** [s.split(sep)] for a one-character separator: always at least one
    piece. *)
Fixpoint split_aux (sep : ascii) (cur : string) (s : string) : list string :=
  match s with
  | EmptyString => [cur]
  | String c s' =>
      if Ascii.eqb c sep then cur :: split_aux sep EmptyString s'
      else split_aux sep (cur ++ String c EmptyString) s'
  end.

Definition split (sep : ascii) (s : string) : list string :=
  split_aux sep EmptyString s.

(** [Array.prototype.join]. *)
Fixpoint join (sep : string) (l : list string) : string :=
  match l with
  | [] => EmptyString
  | [x] => x
  | x :: rest => x ++ sep ++ join sep rest
  end.

(** [Array.prototype.includes] on an array of strings. *)
Definition mem (x : string) (l : list string) : bool :=
  existsb (String.eqb x) l.

(** [Array.prototype.find]. *)
Definition find {A} (p : A -> bool) (l : list A) : option A := List.find p l.

(** The decimal text of a non-negative integer, as in a template
    literal. *)
Definition show_nat (n : nat) : string :=
  NilEmpty.string_of_uint (Nat.to_uint n).

(** [Math.round(n / 10)] for an integer [n]: JavaScript rounds halves
    towards plus infinity. *)
Definition round_tenths (n : Z) : Z := (n + 5) / 10.

End JS.

(** A computation that may throw. *)
Inductive result (A : Type) : Type :=
| Ok (a : A)
| Throw (message : string).
Arguments Ok {A} a.
Arguments Throw {A} message.

(** ** Data model *)

(** The metadata object built by the parser; the engine also accepts an
    absent one ([emailData.metadata || {}]), so every property may be
    [undefined]. *)
Record Metadata := {
  hasAttachments : option bool;
  attachmentCount : option Z;
  urlCount : option Z;
  bodyLength : option Z;
  senderNamePresent : option bool;
  senderNameMatchesDomain : option bool;
  hasImages : option Z;
  recipientCount : option Z;
  isBcc : option bool;
  isReply : option bool;
  isForward : option bool;
  isSpamFolder : option bool
}.

(** The object literal [{}]. *)
Definition emptyMetadata : Metadata :=
  {| hasAttachments := None; attachmentCount := None; urlCount := None;
     bodyLength := None; senderNamePresent := None;
     senderNameMatchesDomain := None; hasImages := None;
     recipientCount := None; isBcc := None; isReply := None;
     isForward := None; isSpamFolder := None |}.

Definition orEmpty (m : option Metadata) : Metadata :=
  match m with Some md => md | None => emptyMetadata end.

Module Attachment.
Record t := { name : string; size : string; extension : string }.
End Attachment.

Module AttachmentResult.
Record t := {
  name : string;
  extension : string;
  dangerous : bool;
  riskScore : Z;
  flags : list string
}.
End AttachmentResult.

Module AttachmentAnalysis.
Record t := {
  attachments : list AttachmentResult.t;
  dangerousCount : nat
}.
End AttachmentAnalysis.

Module DomainInfo.
Record t := {
  age : string;
  registrar : option string;
  country : option string;
  blacklisted : option bool;
  suspicious : bool
}.
End DomainInfo.

Module MX.
Record t := { exchange : option string; priority : Z }.
End MX.

Module SenderResult.
Record t := {
  email : option string;
  domain : option string;
  spf : string;
  dkim : string;
  dmarc : string;
  mxRecords : option (list MX.t);
  domainInfo : option DomainInfo.t;
  reputation : string;
  senderRisks : list string
}.
End SenderResult.

Module UrlResult.
Record t := {
  url : string;
  resolvedUrl : option string;
  dangerous : bool;
  riskScore : Z;
  flags : list string;
  redirects : option string
}.
End UrlResult.

Module UrlAnalysis.
Record t := {
  urls : list UrlResult.t;
  dangerousUrls : list string;
  dangerousCount : nat
}.
End UrlAnalysis.

Module ContentResult.
Record t := {
  phishingScore : Z;
  socialEngineering : string;
  impersonation : bool;
  shortBodyWithLinks : bool;
  flags : list string
}.
End ContentResult.

Module Analysis.
Record t := {
  senderAnalysis : SenderResult.t;
  urlAnalysis : UrlAnalysis.t;
  contentAnalysis : ContentResult.t;
  attachmentAnalysis : AttachmentAnalysis.t;
  metadata : option Metadata
}.
End Analysis.

Module ThreatScore.
Record t := {
  score : Z;
  level : string;
  recommendation : string;
  reasons : list string
}.
End ThreatScore.

(** ** Attachment risk classifier *)

Definition dangerousExts : list string :=
  ["exe"; "bat"; "cmd"; "scr"; "vbs"; "js"; "jar"; "msi"; "ps1"; "psm1";
   "com"; "cpl"; "reg"; "hta"; "lnk"; "pif"; "msc"; "apk"; "sh"].

Definition suspiciousExts : list string :=
  ["zip"; "rar"; "7z"; "tar"; "gz"; "doc"; "docx"; "docm"; "xls"; "xlsx";
   "xlsm"; "ppt"; "pptx"; "pptm"; "pdf"; "iso"; "img"].

Definition macroExts : list string := ["docm"; "xlsm"; "pptm"].

(** The running state of [checkAttachment]: the three locals the
    function mutates. *)
Record AttState := {
  st_dangerous : bool;
  st_riskScore : Z;
  st_flags : list string
}.

Definition att_extension_step (ext : string) (s : AttState) : AttState :=
  if JS.mem ext dangerousExts then
    {| st_dangerous := true; st_riskScore := 90;
       st_flags := st_flags s ++ ["Dangerous file type: ." ++ ext] |}
  else if JS.mem ext suspiciousExts then
    {| st_dangerous := st_dangerous s; st_riskScore := 30;
       st_flags := st_flags s ++ ["Requires caution: ." ++ ext] |}
  else s.

Definition att_macro_step (ext : string) (s : AttState) : AttState :=
  if JS.mem ext macroExts then
    {| st_dangerous := true; st_riskScore := Z.max (st_riskScore s) 80;
       st_flags := st_flags s ++ ["Macro-enabled Office document"] |}
  else s.

Definition att_double_step (name : string) (s : AttState) : AttState :=
  if (2 <? List.length (JS.split "." name))%nat then
    {| st_dangerous := true; st_riskScore := st_riskScore s + 40;
       st_flags := st_flags s ++ ["Double extension detected"] |}
  else s.

Definition checkAttachment (attachment : Attachment.t) : AttachmentResult.t :=
  let ext := JS.toLowerCase (Attachment.extension attachment) in
  let s0 := {| st_dangerous := false; st_riskScore := 0; st_flags := [] |} in
  let s1 := att_extension_step ext s0 in
  let s2 := att_macro_step ext s1 in
  let s3 := att_double_step (Attachment.name attachment) s2 in
  {| AttachmentResult.name := Attachment.name attachment;
     AttachmentResult.extension := ext;
     AttachmentResult.dangerous := st_dangerous s3;
     AttachmentResult.riskScore := st_riskScore s3;
     AttachmentResult.flags := st_flags s3 |}.

Definition analyzeAttachments (attachments : list Attachment.t)
  : AttachmentAnalysis.t :=
  match attachments with
  | [] => {| AttachmentAnalysis.attachments := [];
             AttachmentAnalysis.dangerousCount := 0 |}
  | _ =>
      let results := map checkAttachment attachments in
      {| AttachmentAnalysis.attachments := results;
         AttachmentAnalysis.dangerousCount :=
           List.length (filter AttachmentResult.dangerous results) |}
  end.

(** The parser's [getFileExtension]: the text after the last dot, in
    lower case, or the empty string when the name has no dot. *)
Definition getFileExtension (filename : string) : string :=
  let parts := JS.split "." filename in
  if (1 <? List.length parts)%nat
  then JS.toLowerCase (last parts EmptyString)
  else EmptyString.

(** ** Threat score aggregator *)

Section Aggregator.

Variable analysis : Analysis.t.

Let sender := Analysis.senderAnalysis analysis.
Let content := Analysis.contentAnalysis analysis.
Let urlA := Analysis.urlAnalysis analysis.
Let attA := Analysis.attachmentAnalysis analysis.
Let md := orEmpty (Analysis.metadata analysis).

Definition senderScore : Z :=
  let s := 0 in
  let s := if negb (SenderResult.spf sender =? "pass")%string then s + 40 else s in
  let s := if negb (SenderResult.dmarc sender =? "pass")%string then s + 40 else s in
  let s := match SenderResult.domainInfo sender with
           | Some di => if DomainInfo.suspicious di then s + 20 else s
           | None => s
           end in
  s.

Definition contentScore : Z := ContentResult.phishingScore content.

Definition urlScore : Z :=
  if (0 <? UrlAnalysis.dangerousCount urlA)%nat then 80 else 0.

Definition attachmentScore : Z :=
  if (0 <? AttachmentAnalysis.dangerousCount attA)%nat then 90 else 0.

Definition combinedScore : Z :=
  let c := 0 in
  let c := if ContentResult.impersonation content && (30 <? senderScore)
           then c + 50 else c in
  let c := if (0 <? UrlAnalysis.dangerousCount urlA)%nat then
             let c := c + 40 in
             let c := if ContentResult.shortBodyWithLinks content
                      then c + 20 else c in
             let c := if JS.truthy (isSpamFolder md) then c + 20 else c in
             c
           else c in
  c.

(** The weighted total.  The weights are 0.2, 0.5, 0.4, 0.4 and 0.2.
    Every component score except the content score is one of a few
    multiples of ten, for which the floating-point product with 0.2 or
    0.4 rounds to the exact integer; the content score times 0.5 is
    exact.  The floating-point sum is therefore the exact rational
    [n / 10] with [n] as below, and [Math.round] is applied to it. *)
Definition weightedTotal : Z :=
  JS.round_tenths
    (senderScore * 2 + contentScore * 5 + urlScore * 4
     + attachmentScore * 4 + combinedScore * 2).

Definition flooredTotal : Z :=
  let totalScore := weightedTotal in
  let totalScore :=
    if (ContentResult.socialEngineering content =? "High")%string
    then Z.max totalScore 45
    else if (ContentResult.socialEngineering content =? "Moderate")%string
    then Z.max totalScore 30
    else totalScore in
  let totalScore :=
    if ContentResult.impersonation content
    then Z.max totalScore 60 else totalScore in
  let totalScore :=
    if JS.truthy (isSpamFolder md)
    then Z.max totalScore 40 else totalScore in
  let totalScore :=
    if (0 <? UrlAnalysis.dangerousCount urlA)%nat
       && (ContentResult.shortBodyWithLinks content
           || JS.truthy (isSpamFolder md))
    then Z.max totalScore 75 else totalScore in
  Z.min 100 (Z.max 0 totalScore).

(** [reasons.push(x)] under a condition. *)
Definition push_if (c : bool) (x : string) (reasons : list string)
  : list string :=
  if c then reasons ++ [x] else reasons.

Definition collectReasons : list string :=
  let reasons := [] in
  let reasons := push_if (20 <? senderScore)
                   "Sender authentication failed" reasons in
  let reasons := push_if (30 <? contentScore)
                   "Phishing patterns detected" reasons in
  let reasons := push_if (0 <? urlScore)
                   (JS.show_nat (UrlAnalysis.dangerousCount urlA)
                    ++ " dangerous URL(s)") reasons in
  let reasons := push_if (0 <? attachmentScore)
                   (JS.show_nat (AttachmentAnalysis.dangerousCount attA)
                    ++ " dangerous attachment(s)") reasons in
  let reasons := push_if (ContentResult.impersonation content)
                   "Impersonation attempt detected" reasons in
  let reasons := push_if (ContentResult.shortBodyWithLinks content)
                   "Short email body with embedded links" reasons in
  let reasons := push_if (JS.truthy (isSpamFolder md))
                   "Email is in Spam folder" reasons in
  reasons.

Definition calculateThreatScore : ThreatScore.t :=
  let totalScore := flooredTotal in
  let reasons := collectReasons in
  let '(level, recommendation) :=
    if 61 <=? totalScore then
      ("DANGEROUS", "DELETE IMMEDIATELY - Do not interact with this email")
    else if 31 <=? totalScore then
      ("SUSPICIOUS", "EXERCISE CAUTION - Verify sender before taking action")
    else
      ("SAFE", "Email appears safe - Standard caution advised") in
  {| ThreatScore.score := totalScore;
     ThreatScore.level := level;
     ThreatScore.recommendation := recommendation;
     ThreatScore.reasons := firstn 5 reasons |}.

End Aggregator.

(** ** The weighted sum in binary64 *)

Definition float_of_Z (z : Z) : float := PrimFloat.of_uint63 (Uint63.of_Z z).

(** [Math.floor] on a non-negative double below 2^53, as an integer. *)
Definition floor_binary64 (x : float) : Z :=
  if PrimFloat.ltb x 1%float then 0
  else
    let '(f, e) := PrimFloat.frshiftexp x in
    let m := Uint63.to_Z (PrimFloat.normfr_mantissa f) in
    let e := Uint63.to_Z e - FloatOps.shift in
    Z.shiftr m (53 - e).

(** [Math.round] on such a double: the nearest integer, halves up. *)
Definition Math_round (x : float) : Z := floor_binary64 (x + 0.5)%float.

(** The doubles that the literals [0.2] and [0.4] denote. *)
Definition weight_02 : float := 0x1.999999999999ap-3%float.
Definition weight_04 : float := 0x1.999999999999ap-2%float.

(** The argument of [Math.round] in [calculateThreatScore], evaluated
    in binary64 from left to right. *)
Definition weightedSum_binary64 (s c u a k : Z) : float :=
  (float_of_Z s * weight_02 + float_of_Z c * 0.5 + float_of_Z u * weight_04
   + float_of_Z a * weight_04 + float_of_Z k * weight_02)%float.

(** The values the component scores can take. *)
Definition senderScores : list Z := [0; 20; 40; 60; 80; 100].
Definition contentScores : list Z := map Z.of_nat (seq 0 101).
Definition urlScores : list Z := [0; 80].
Definition attachmentScores : list Z := [0; 90].
Definition combinedScores : list Z := [0; 40; 50; 60; 80; 90; 110; 130].

Definition rounding_agrees (s c u a k : Z) : bool :=
  Math_round (weightedSum_binary64 s c u a k)
  =? JS.round_tenths (s * 2 + c * 5 + u * 4 + a * 4 + k * 2).


(** ** Regular expressions

    The engine's patterns are JavaScript regular expressions without
    back-references or look-around; they are embedded as syntax trees
    and run by Brzozowski derivatives. *)

Module Regex.

Inductive t : Type :=
| Void                          (* matches nothing *)
| Eps                           (* the empty string *)
| Class (p : ascii -> bool)     (* one character satisfying [p] *)
| Cat (a b : t)
| Alt (a b : t)
| Star (a : t).

(** The strings a pattern matches as a whole. *)
Inductive lang : t -> string -> Prop :=
| lang_eps : lang Eps EmptyString
| lang_class p c : p c = true -> lang (Class p) (String c EmptyString)
| lang_cat a b s1 s2 : lang a s1 -> lang b s2 -> lang (Cat a b) (s1 ++ s2)
| lang_alt_l a b s : lang a s -> lang (Alt a b) s
| lang_alt_r a b s : lang b s -> lang (Alt a b) s
| lang_star_nil a : lang (Star a) EmptyString
| lang_star_cons a s1 s2 :
    lang a s1 -> lang (Star a) s2 -> lang (Star a) (s1 ++ s2).

Fixpoint nullable (r : t) : bool :=
  match r with
  | Void => false
  | Eps => true
  | Class _ => false
  | Cat a b => nullable a && nullable b
  | Alt a b => nullable a || nullable b
  | Star _ => true
  end.

(** Constructors that drop dead branches, to keep derivatives small. *)
Definition alt' (a b : t) : t :=
  match a, b with
  | Void, _ => b
  | _, Void => a
  | _, _ => Alt a b
  end.

Definition cat' (a b : t) : t :=
  match a with
  | Void => Void
  | Eps => b
  | _ => Cat a b
  end.

Fixpoint deriv (c : ascii) (r : t) : t :=
  match r with
  | Void => Void
  | Eps => Void
  | Class p => if p c then Eps else Void
  | Cat a b =>
      if nullable a then alt' (cat' (deriv c a) b) (deriv c b)
      else cat' (deriv c a) b
  | Alt a b => alt' (deriv c a) (deriv c b)
  | Star a => cat' (deriv c a) (Star a)
  end.

(** The whole string matches the pattern. *)
Fixpoint matches (r : t) (s : string) : bool :=
  match s with
  | EmptyString => nullable r
  | String c s' => matches (deriv c r) s'
  end.

(** *** Pattern syntax *)

Definition any : t := Class (fun _ => true).

(** [.]: any character but a line terminator. *)
Definition dot : t :=
  Class (fun c => negb (Ascii.eqb c "010" || Ascii.eqb c "013")).

Definition chr (c : ascii) : t := Class (Ascii.eqb c).

(** A character under the [i] flag. *)
Definition chr_i (c : ascii) : t :=
  Class (fun x => Ascii.eqb (JS.lower_ascii x) (JS.lower_ascii c)).

Definition not_chr (c : ascii) : t := Class (fun x => negb (Ascii.eqb x c)).

Definition is_digit (c : ascii) : bool :=
  let n := nat_of_ascii c in ((48 <=? n) && (n <=? 57))%nat.

Definition is_letter (c : ascii) : bool :=
  let n := nat_of_ascii c in
  (((65 <=? n) && (n <=? 90)) || ((97 <=? n) && (n <=? 122)))%nat.

(** [\d] *)
Definition digit : t := Class is_digit.

(** [[a-zA-Z]] *)
Definition letter : t := Class is_letter.

(** [[^\x00-\x7F]] *)
Definition non_ascii : t := Class (fun c => (127 <? nat_of_ascii c)%nat).

Fixpoint lit (s : string) : t :=
  match s with
  | EmptyString => Eps
  | String c s' => Cat (chr c) (lit s')
  end.

Fixpoint lit_i (s : string) : t :=
  match s with
  | EmptyString => Eps
  | String c s' => Cat (chr_i c) (lit_i s')
  end.

(** [a|b|c...] *)
Fixpoint alts (l : list t) : t :=
  match l with
  | [] => Void
  | [r] => r
  | r :: rest => Alt r (alts rest)
  end.

(** [r?] *)
Definition opt (r : t) : t := Alt r Eps.

(** [r+] *)
Definition plus (r : t) : t := Cat r (Star r).

Fixpoint power (n : nat) (r : t) : t :=
  match n with
  | O => Eps
  | S n' => Cat r (power n' r)
  end.

(** [r{lo,hi}] *)
Definition between (lo hi : nat) (r : t) : t :=
  Cat (power lo r) (power (hi - lo) (opt r)).

(** [r{n,}] *)
Definition at_least (n : nat) (r : t) : t := Cat (power n r) (Star r).

(** [RegExp.prototype.test] for a pattern without anchors and without
    the [g] flag: some substring matches. *)
Definition test (r : t) (s : string) : bool :=
  matches (Cat (Star any) (Cat r (Star any))) s.

(** [test] for a pattern that ends in [$]: some suffix matches. *)
Definition test_to_end (r : t) (s : string) : bool :=
  matches (Cat (Star any) r) s.

End Regex.

(** ** DNS over HTTPS *)

Module DnsRecord.
Record t := { data : option string; priority : option Z }.
End DnsRecord.

(** What a DNS-over-HTTPS request can come to. *)
Inductive DohOutcome : Type :=
| NetworkError                                  (* [fetch] rejects *)
| HttpError                                     (* [response.ok] is false *)
| BadJson                                       (* [response.json()] rejects *)
| Json (answer : option (list DnsRecord.t)).    (* the body; [Answer] may be missing *)

Definition lookup_failed (o : DohOutcome) : bool :=
  match o with Json _ => false | _ => true end.

(** A value in a template literal; [null] prints as [null]. *)
Definition show_nullable (s : option string) : string :=
  match s with Some x => x | None => "null" end.

Definition doh_url (domain type : string) : string :=
  "https://cloudflare-dns.com/dns-query?name=" ++ domain ++ "&type=" ++ type.

(** [[^;]+] from the first position after a [p=] where it matches. *)
Fixpoint take_until_semicolon (s : string) : string :=
  match s with
  | EmptyString => EmptyString
  | String c s' =>
      if Ascii.eqb c ";" then EmptyString
      else String c (take_until_semicolon s')
  end.

(** [s.match(/p=([^;]+)/)]: the first capture group of the leftmost
    match, if any. *)
Fixpoint match_policy (s : string) : option string :=
  match s with
  | EmptyString => None
  | String c s' =>
      if prefix "p=" s then
        match take_until_semicolon (substring 2 (length s - 2) s) with
        | EmptyString => match_policy s'
        | p => Some p
        end
      else match_policy s'
  end.

(** Stable insertion of a record by ascending priority, as
    [Array.prototype.sort] with [(a, b) => a.priority - b.priority]. *)
Fixpoint insert_by_priority (x : MX.t) (l : list MX.t) : list MX.t :=
  match l with
  | [] => [x]
  | y :: rest =>
      if MX.priority y <=? MX.priority x
      then y :: insert_by_priority x rest
      else x :: l
  end.

Definition sort_by_priority (l : list MX.t) : list MX.t :=
  fold_left (fun acc x => insert_by_priority x acc) l [].

(** [r.data] of a record that has one. *)
Definition record_text (r : DnsRecord.t) : string :=
  match DnsRecord.data r with Some d => d | None => EmptyString end.

Section DNSService.

(** The network: the outcome of a GET on a DNS-over-HTTPS URL. *)
Variable fetch : string -> DohOutcome.

Definition resolve (domain : option string) (type : string)
  : list DnsRecord.t :=
  match fetch (doh_url (show_nullable domain) type) with
  | Json (Some answer) => answer
  | Json None => []
  | NetworkError | HttpError | BadJson => []
  end.

Definition has_text (needle : string) (r : DnsRecord.t) : bool :=
  match DnsRecord.data r with
  | Some d => negb (d =? "")%string && JS.includes d needle
  | None => false
  end.

Definition checkSPF (domain : option string) : string :=
  let records := resolve domain "TXT" in
  match JS.find (has_text "v=spf1") records with
  | None => "fail"
  | Some spfRecord =>
      let spfData := record_text spfRecord in
      if JS.includes spfData "~all" || JS.includes spfData "-all"
      then "pass"
      else "neutral"
  end.

Definition checkDMARC (domain : option string) : string :=
  let dmarcDomain := "_dmarc." ++ show_nullable domain in
  let records := resolve (Some dmarcDomain) "TXT" in
  match JS.find (has_text "v=DMARC1") records with
  | None => "fail"
  | Some dmarcRecord =>
      let dmarcData := record_text dmarcRecord in
      let policy := match match_policy dmarcData with
                    | Some p => p | None => "none" end in
      if (policy =? "reject")%string || (policy =? "quarantine")%string
      then "pass"
      else "neutral"
  end.

Definition getMXRecords (domain : option string) : list MX.t :=
  let records := resolve domain "MX" in
  sort_by_priority
    (map (fun r => {| MX.exchange := DnsRecord.data r;
                      MX.priority := match DnsRecord.priority r with
                                     | Some p => p | None => 0 end |})
         records).

End DNSService.

(** A pattern as the engine uses it with [test]: anywhere in the
    subject, or up to its end for a pattern closed by [$]. *)
Inductive Pattern : Type :=
| Anywhere (r : Regex.t)
| AtEnd (r : Regex.t).

Definition pattern_test (p : Pattern) (s : string) : bool :=
  match p with
  | Anywhere r => Regex.test r s
  | AtEnd r => Regex.test_to_end r s
  end.

(** ** Helpers *)

Definition is_line_terminator (c : ascii) : bool :=
  Ascii.eqb c "010" || Ascii.eqb c "013".

Fixpoint no_line_terminator (s : string) : bool :=
  match s with
  | EmptyString => true
  | String c s' => negb (is_line_terminator c) && no_line_terminator s'
  end.

(** [email.match(/@(.+)$/)]: the first capture group of the leftmost
    match, that is, what follows the first [@] whose remainder is not
    empty and runs to the end of the string on one line. *)
Fixpoint match_after_at (email : string) : option string :=
  match email with
  | EmptyString => None
  | String c rest =>
      if Ascii.eqb c "@" && negb (rest =? "")%string && no_line_terminator rest
      then Some rest
      else match_after_at rest
  end.

(** [Helpers.extractDomain]; [None] is [null]. *)
Definition extractDomain (email : string) : option string :=
  if (email =? "")%string then None
  else match match_after_at email with
       | Some d => Some (JS.toLowerCase d)
       | None => None
       end.

(** ** Threat intelligence service (pattern based) *)

Definition suspiciousTLDs : list string :=
  [".tk"; ".ml"; ".ga"; ".cf"; ".gq"; ".top"; ".xyz"; ".club"; ".work";
   ".info"; ".click"; ".country"].

(** [CONSTANTS.PATTERNS.SHORT_URL] *)
Definition SHORT_URL : Pattern :=
  Anywhere (Regex.alts [Regex.lit_i "bit.ly"; Regex.lit_i "tinyurl";
                        Regex.lit_i "goo.gl"; Regex.lit_i "ow.ly";
                        Regex.lit_i "t.co"; Regex.lit_i "short.link"]).

Definition dangerousPatterns : list Pattern :=
  [ SHORT_URL;
    Anywhere (Regex.lit_i "bit.do");
    Anywhere (Regex.lit_i "tny.im");
    Anywhere (Regex.Cat (Regex.lit_i "goo.gl/")
                (Regex.at_least 6 (Regex.not_chr "/")));
    Anywhere (Regex.Cat
                (Regex.power 3 (Regex.Cat (Regex.between 1 3 Regex.digit)
                                  (Regex.chr ".")))
                (Regex.between 1 3 Regex.digit)) ]
  ++ map (fun tld => AtEnd (Regex.lit_i tld)) suspiciousTLDs.

Module ThreatCheck.
Record t := { safe : bool; reason : option string }.
End ThreatCheck.

Definition checkURL (url : string) : ThreatCheck.t :=
  if existsb (fun p => pattern_test p url) dangerousPatterns
  then {| ThreatCheck.safe := false;
          ThreatCheck.reason := Some "Suspicious URL pattern detected" |}
  else {| ThreatCheck.safe := true; ThreatCheck.reason := None |}.

Module DomainCheck.
Record t := { suspicious : bool; reasons : list string }.
End DomainCheck.

(** [[c1 && 'r1', ...].filter(Boolean)] *)
Definition labelled (l : list (bool * string)) : list string :=
  map snd (filter fst l).

Definition checkDomain (domain : string) : DomainCheck.t :=
  let isSuspicious := existsb (JS.endsWith domain) suspiciousTLDs in
  let isShort := (length domain <? 5)%nat in
  let subdomains := JS.split "." domain in
  let tooManySubdomains := (4 <? List.length subdomains)%nat in
  let lowered := JS.toLowerCase domain in
  let suspiciousNamePatterns :=
    ["-secure"; "-login"; "-verify"; "-account"; "update-"; "support-"] in
  let hasSuspiciousName :=
    existsb (JS.includes lowered) suspiciousNamePatterns in
  {| DomainCheck.suspicious :=
       isSuspicious || isShort || tooManySubdomains || hasSuspiciousName;
     DomainCheck.reasons :=
       labelled [ (isSuspicious, "Suspicious TLD");
                  (isShort, "Very short domain");
                  (tooManySubdomains, "Too many subdomains");
                  (hasSuspiciousName,
                   "Suspicious domain naming (e.g. login/secure)") ] |}.

(** [s] between double quotes. *)
Definition quoted (s : string) : string :=
  String (ascii_of_nat 34) (s ++ String (ascii_of_nat 34) EmptyString).

Definition tldCountryMap : list (string * string) :=
  [ ("us", "United States"); ("uk", "United Kingdom"); ("de", "Germany");
    ("fr", "France"); ("es", "Spain"); ("it", "Italy");
    ("nl", "Netherlands"); ("be", "Belgium"); ("se", "Sweden");
    ("no", "Norway"); ("dk", "Denmark"); ("fi", "Finland");
    ("pl", "Poland"); ("ru", "Russia"); ("br", "Brazil"); ("ca", "Canada");
    ("au", "Australia"); ("nz", "New Zealand"); ("in", "India");
    ("jp", "Japan"); ("cn", "China"); ("kr", "South Korea");
    ("mx", "Mexico"); ("ch", "Switzerland"); ("at", "Austria");
    ("ie", "Ireland"); ("pt", "Portugal"); ("tr", "Türkiye");
    ("za", "South Africa"); ("sg", "Singapore"); ("hk", "Hong Kong");
    ("tw", "Taiwan");
    ("ai", "Anguilla (" ++ quoted ".ai" ++ " hosting)");
    ("io", "British Indian Ocean Territory (" ++ quoted ".io" ++ " hosting)");
    ("com", "Generic (US-based services often use .com)");
    ("net", "Generic (US-based services often use .net)");
    ("org", "Generic (US-based services often use .org)") ].

Fixpoint assoc (k : string) (l : list (string * string)) : option string :=
  match l with
  | [] => None
  | (k', v) :: rest => if (k =? k')%string then Some v else assoc k rest
  end.

Definition majorProviders : list string :=
  ["gmail.com"; "googlemail.com"; "outlook.com"; "hotmail.com"; "live.com";
   "yahoo.com"; "icloud.com"].

(** [/\d{4}|temp|test|fake/i] *)
Definition newDomainPatterns : Pattern :=
  Anywhere (Regex.alts [Regex.power 4 Regex.digit; Regex.lit_i "temp";
                        Regex.lit_i "test"; Regex.lit_i "fake"]).

(** [/(free|bonus|promo|deal|giveaway)/i] *)
Definition marketingPatterns : Pattern :=
  Anywhere (Regex.alts [Regex.lit_i "free"; Regex.lit_i "bonus";
                        Regex.lit_i "promo"; Regex.lit_i "deal";
                        Regex.lit_i "giveaway"]).

(** [getDomainInfo]; on [null] the call [domain.toLowerCase()] throws
    and the function's own handler answers. *)
Definition getDomainInfo (domain : option string) : DomainInfo.t :=
  match domain with
  | None =>
      {| DomainInfo.age := "Unknown"; DomainInfo.registrar := None;
         DomainInfo.country := None; DomainInfo.blacklisted := None;
         DomainInfo.suspicious := false |}
  | Some domain =>
      let isLikelyNew := pattern_test newDomainPatterns domain in
      let hasAggressiveBranding := pattern_test marketingPatterns domain in
      let parts := JS.split "." (JS.toLowerCase domain) in
      let tld := last parts EmptyString in
      let country := match assoc tld tldCountryMap with
                     | Some c => c | None => "Unknown" end in
      let loweredDomain := JS.toLowerCase domain in
      if JS.mem loweredDomain majorProviders then
        {| DomainInfo.age := "Established provider (age not checked locally)";
           DomainInfo.registrar :=
             Some "Major email provider (local analysis only)";
           DomainInfo.country := Some country;
           DomainInfo.blacklisted := Some false;
           DomainInfo.suspicious := false |}
      else
        {| DomainInfo.age := if isLikelyNew then "Likely new domain"
                             else "Not available (local analysis only)";
           DomainInfo.registrar := Some "Not available (local analysis only)";
           DomainInfo.country := Some country;
           DomainInfo.blacklisted := Some false;
           DomainInfo.suspicious := isLikelyNew || hasAggressiveBranding |}
  end.

(** ** URL risk analyzer *)

(** The parts of a parsed URL that the engine reads. *)
Module URL.
Record t := {
  protocol : string;
  hostname : string;
  pathname : string;
  search : string
}.
End URL.

Module Structure.
Record t := { suspicious : bool; reasons : list string }.
End Structure.

(** [/\d{1,3}\.\d{1,3}\.\d{1,3}\.\d{1,3}/] *)
Definition ipPattern : Pattern :=
  let octet := Regex.between 1 3 Regex.digit in
  let dot := Regex.chr "." in
  Anywhere (Regex.Cat octet (Regex.Cat dot (Regex.Cat octet (Regex.Cat dot
             (Regex.Cat octet (Regex.Cat dot octet)))))).

Definition urlKeywords : list string :=
  ["login"; "verify"; "account"; "secure"; "banking"; "paypal";
   "reset-password"; "password-reset"; "update-account"; "secure-login";
   "giftcard"; "crypto"; "bitcoin"; "wallet"; "invoice";
   "payment-confirmation"].

(** [s.replace(/[^a-zA-Z]/g, '')] *)
Fixpoint lettersOnlyOf (s : string) : string :=
  match s with
  | EmptyString => EmptyString
  | String c s' =>
      if Regex.is_letter c then String c (lettersOnlyOf s')
      else lettersOnlyOf s'
  end.

Fixpoint all_letters (s : string) : bool :=
  match s with
  | EmptyString => true
  | String c s' => Regex.is_letter c && all_letters s'
  end.

Definition longRandomPathFlag : string := "Very long randomized URL path".

(** A structural test: when [c] holds, [suspicious] is set and the
    reason is pushed. *)
Definition flag_if (c : bool) (reason : string) (s : Structure.t)
  : Structure.t :=
  if c then {| Structure.suspicious := true;
               Structure.reasons := Structure.reasons s ++ [reason] |}
  else s.

(** The body of [checkUrlStructure] once [new URL(url)] has succeeded. *)
Definition structureOf (url : string) (urlObj : URL.t) : Structure.t :=
  let hostname := URL.hostname urlObj in
  let path := URL.pathname urlObj in
  let query := URL.search urlObj in
  let s := {| Structure.suspicious := false; Structure.reasons := [] |} in
  let s := flag_if (pattern_test ipPattern hostname) "URL uses IP address" s in
  let s := flag_if (existsb (JS.endsWith hostname) suspiciousTLDs)
             "Suspicious TLD" s in
  let s := flag_if (JS.startsWith hostname "xn--"
                    || JS.includes hostname ".xn--")
             "Punycode domain (possible homograph attack)" s in
  let s := flag_if (4 <? List.length (JS.split "." hostname))%nat
             "Too many subdomains" s in
  let combined := JS.toLowerCase (hostname ++ path ++ query) in
  let foundKeywords :=
    filter (fun k => JS.includes (JS.toLowerCase combined) k) urlKeywords in
  let s := flag_if (0 <? List.length foundKeywords)%nat
             ("Suspicious keywords: " ++ JS.join ", " foundKeywords) s in
  let s := flag_if (JS.includes url "@") "URL contains @ symbol" s in
  let s := flag_if (URL.protocol urlObj =? "http:")%string
             "Not using HTTPS" s in
  let pathAndQuery := path ++ query in
  let s :=
    if (80 <? length pathAndQuery)%nat then
      let lettersOnly := lettersOnlyOf pathAndQuery in
      flag_if ((40 <? length lettersOnly)%nat
               && Regex.test (Regex.at_least 30 Regex.letter) lettersOnly)
        longRandomPathFlag s
    else s in
  s.

Definition unableToAnalyze (url : string) : UrlResult.t :=
  {| UrlResult.url := url;
     UrlResult.resolvedUrl := None;
     UrlResult.dangerous := false;
     UrlResult.riskScore := 0;
     UrlResult.flags := ["Unable to analyze"];
     UrlResult.redirects := None |}.

(** The locals [riskScore] and [flags] of [analyzeUrl]. *)
Definition bump (c : bool) (points : Z) (new_flags : list string)
  (acc : Z * list string) : Z * list string :=
  if c then (fst acc + points, (snd acc ++ new_flags)%list) else acc.

Section UrlAnalyzer.

(** [new URL(s)]: the parsed URL, or the [TypeError] it throws. *)
Variable parseURL : string -> result URL.t.

(** The HEAD request of [expandURL]: the final [response.url], or
    [None] when the request fails. *)
Variable fetchHead : string -> option string.

Definition expandURL (shortUrl : string) : string :=
  match fetchHead shortUrl with
  | Some u => if (u =? "")%string then shortUrl else u
  | None => shortUrl
  end.

Definition checkHomoglyphs (url : string) : bool :=
  match parseURL url with
  | Ok urlObj => pattern_test (Anywhere Regex.non_ascii) (URL.hostname urlObj)
  | Throw _ => false
  end.

Definition checkUrlStructure (url : string) : Structure.t :=
  match parseURL url with
  | Ok urlObj => structureOf url urlObj
  | Throw _ => {| Structure.suspicious := false; Structure.reasons := [] |}
  end.

(** The resolved URL and the redirect note after the best-effort
    expansion of a short link. *)
Definition resolveShortLink (url : string) : string * option string :=
  if pattern_test SHORT_URL url then
    let expanded := expandURL url in
    if negb (expanded =? "")%string && negb (expanded =? url)%string
    then (expanded, Some (url ++ " → " ++ expanded))
    else (url, None)
  else (url, None).

(** The [try] block of [analyzeUrl]. *)
Definition analyzeUrl_try (url : string) : result UrlResult.t :=
  let '(finalUrl, redirects) := resolveShortLink url in
  match parseURL finalUrl with
  | Throw message => Throw message
  | Ok urlObj =>
      let homoglyph := checkHomoglyphs finalUrl in
      let structure := checkUrlStructure finalUrl in
      let threatCheck := checkURL finalUrl in
      let domainCheck := checkDomain (URL.hostname urlObj) in
      let acc := (0, []) in
      let acc := bump homoglyph 40 ["Homoglyph attack detected"] acc in
      let acc := bump (Structure.suspicious structure) 30
                   (Structure.reasons structure) acc in
      let acc := bump (negb (ThreatCheck.safe threatCheck)) 50
                   [match ThreatCheck.reason threatCheck with
                    | Some r => if (r =? "")%string
                                then "Flagged as suspicious" else r
                    | None => "Flagged as suspicious"
                    end] acc in
      let acc := bump (DomainCheck.suspicious domainCheck) 20
                   (DomainCheck.reasons domainCheck) acc in
      Ok {| UrlResult.url := url;
            UrlResult.resolvedUrl := Some finalUrl;
            UrlResult.dangerous := 50 <=? fst acc;
            UrlResult.riskScore := fst acc;
            UrlResult.flags := snd acc;
            UrlResult.redirects := redirects |}
  end.

Definition analyzeUrl (url : string) : UrlResult.t :=
  match analyzeUrl_try url with
  | Ok r => r
  | Throw _ => unableToAnalyze url
  end.

(** [analyzeUrls]: at most the first ten URLs are analysed.
    [analyzeUrl] never rejects, so the handler around the batch is never
    entered. *)
Definition analyzeUrls (urls : list string) : UrlAnalysis.t :=
  match urls with
  | [] => {| UrlAnalysis.urls := []; UrlAnalysis.dangerousUrls := [];
             UrlAnalysis.dangerousCount := 0 |}
  | _ =>
      let urlResults := map analyzeUrl (firstn 10 urls) in
      let dangerousUrls :=
        map UrlResult.url (filter UrlResult.dangerous urlResults) in
      {| UrlAnalysis.urls := urlResults;
         UrlAnalysis.dangerousUrls := dangerousUrls;
         UrlAnalysis.dangerousCount := List.length dangerousUrls |}
  end.

End UrlAnalyzer.

(** ** Content pattern analyzer *)

Module EmailData.
Record t := {
  sender : string;
  subject : string;
  body : string;
  urls : option (list string);
  attachments : option (list Attachment.t);
  metadata : option Metadata
}.
End EmailData.

Module ContentPattern.
Record t := { regex : Pattern; weight : Z; flag : string }.
End ContentPattern.

Definition words (l : list string) : Regex.t :=
  Regex.alts (map Regex.lit_i l).

Definition contentPatterns : list ContentPattern.t :=
  let row r w f := {| ContentPattern.regex := Anywhere r;
                      ContentPattern.weight := w;
                      ContentPattern.flag := f |} in
  [ row (words ["urgent"; "immediately"; "act now"; "limited time"])
      15 "Urgency manipulation";
    row (words ["verify your account"; "confirm your identity"])
      20 "Account verification phishing";
    row (words ["suspended"; "locked"; "restricted"; "terminated"])
      18 "Fear-based manipulation";
    row (words ["click here"; "click below"]) 10 "Action pressure";
    row (words ["congratulations"; "you've won"; "prize"; "lottery"])
      15 "Prize scam";
    row (words ["password"; "credential"; "authentication"])
      20 "Credential harvesting";
    row (words ["bank"; "credit card"; "payment"; "billing"])
      15 "Financial information request";
    row (Regex.Cat (Regex.lit_i "dear ") (words ["customer"; "user"; "member"]))
      10 "Generic greeting";
    row (Regex.alts
           [ Regex.lit_i "invoice"; Regex.lit_i "payment due";
             Regex.Cat (Regex.lit_i "outstanding ")
               (words ["invoice"; "balance"]);
             Regex.lit_i "past due" ])
      15 "Invoice or payment pressure";
    row (words ["bitcoin"; "crypto"; "usdt"; "ethereum"; "wallet"])
      20 "Cryptocurrency-related request";
    row (words ["gift card"; "itunes card"; "google play card"; "steam card"])
      20 "Gift card scam indicators";
    row (words ["wire transfer"; "swift"; "iban"; "routing number"])
      20 "Wire transfer request";
    row (Regex.Cat (words ["unusual"; "suspicious"])
           (Regex.Cat (Regex.lit_i " ")
              (Regex.alts
                 [ Regex.Cat (Regex.lit_i "sign")
                     (Regex.Cat
                        (Regex.opt (Regex.Class
                                      (fun c => Ascii.eqb c "-"
                                                || Ascii.eqb c " ")))
                        (Regex.lit_i "in"));
                   Regex.lit_i "login" ])))
      18 "Unusual login security alert";
    row (Regex.Cat (words ["mailbox"; "storage"])
           (Regex.Cat (Regex.Star Regex.dot)
              (words ["full"; "almost full"; "quota"])))
      15 "Mailbox quota phishing" ].

Definition brands : list string :=
  ["paypal"; "amazon"; "apple"; "microsoft"; "google"; "bank"; "netflix";
   "facebook"; "instagram"; "whatsapp"; "uber"; "dhl"; "fedex"].

(** The message of the [TypeError] raised by [null.includes(...)]. *)
Definition nullIncludesMessage : string :=
  "Cannot read properties of null (reading 'includes')".

(** The locals [phishingScore] and [flags] of [analyzeContent]. *)
Definition scanPatterns (text : string) : Z * list string :=
  fold_left
    (fun acc p =>
       bump (pattern_test (ContentPattern.regex p) text)
         (ContentPattern.weight p) [ContentPattern.flag p] acc)
    contentPatterns (0, []).

(** [mentionedBrand && !senderDomain.includes(mentionedBrand)]: with a
    brand in the text, [includes] is called on the sender domain, and
    throws when the domain is [null]. *)
Definition impersonationTest (mentionedBrand senderDomain : option string)
  : result bool :=
  match mentionedBrand with
  | None => Ok false
  | Some brand =>
      match senderDomain with
      | None => Throw nullIncludesMessage
      | Some d => Ok (negb (JS.includes d brand))
      end
  end.

(** The additions to [phishingScore] and [flags] that come from the
    metadata. *)
Definition metadataSignals (metadata : Metadata) (acc : Z * list string)
  : Z * list string :=
  let acc := bump (JS.truthy (hasAttachments metadata)
                   && JS.gt (attachmentCount metadata) 3)
               5 ["Multiple attachments (unusual)"] acc in
  let acc := bump (JS.gt (urlCount metadata) 5)
               10 ["Many embedded links (suspicious)"] acc in
  let acc := bump (JS.lt (bodyLength metadata) 80
                   && JS.gt (urlCount metadata) 0)
               15 ["Very short body with links (suspicious)"] acc in
  let acc := bump (JS.is_false (isReply metadata)
                   && JS.is_false (isForward metadata)
                   && JS.gt (recipientCount metadata) 10)
               5 ["Sent to many recipients"] acc in
  let acc := bump (JS.gt (hasImages metadata) 5)
               5 ["Many images in email"] acc in
  acc.

(** The floor for a short body with links, and the object returned. *)
Definition contentResult (shortBodyWithLinks impersonation : bool)
  (acc : Z * list string) : ContentResult.t :=
  let phishingScore :=
    if shortBodyWithLinks && (fst acc <? 40) then 40 else fst acc in
  {| ContentResult.phishingScore := Z.min 100 phishingScore;
     ContentResult.socialEngineering :=
       if 40 <=? phishingScore then "High"
       else if 20 <=? phishingScore then "Moderate"
       else "Low";
     ContentResult.impersonation := impersonation;
     ContentResult.shortBodyWithLinks := shortBodyWithLinks;
     ContentResult.flags := snd acc |}.

Definition analyzeContent (emailData : EmailData.t) : result ContentResult.t :=
  let text := JS.toLowerCase
                (EmailData.subject emailData ++ " " ++ EmailData.body emailData) in
  let metadata := orEmpty (EmailData.metadata emailData) in
  let shortBodyWithLinks :=
    JS.lt (bodyLength metadata) 80 && JS.gt (urlCount metadata) 0 in
  let acc := scanPatterns text in
  let mentionedBrand := JS.find (fun brand => JS.includes text brand) brands in
  let senderDomain := extractDomain (EmailData.sender emailData) in
  match impersonationTest mentionedBrand senderDomain with
  | Throw message => Throw message
  | Ok impersonation =>
      let acc := bump impersonation 30
                   ["Impersonation: Mentions "
                    ++ match mentionedBrand with
                       | Some b => b | None => EmptyString end] acc in
      let acc := metadataSignals metadata acc in
      Ok (contentResult shortBodyWithLinks impersonation acc)
  end.

(** ** Sender analysis *)

Definition calculateSenderReputation (spf dmarc : string)
  (domainInfo : DomainInfo.t) : string :=
  let score := 0 in
  let score := if (spf =? "pass")%string then score + 33 else score in
  let score := if (dmarc =? "pass")%string then score + 33 else score in
  let score := if negb (DomainInfo.suspicious domainInfo)
               then score + 34 else score in
  if 66 <=? score then "Good"
  else if 33 <=? score then "Moderate"
  else "Poor".

Module Verdict.
Record t := {
  threatScore : Z;
  threatLevel : string;
  recommendation : string;
  reasons : list string;
  senderAnalysis : option SenderResult.t;
  urlAnalysis : option UrlAnalysis.t;
  contentAnalysis : option ContentResult.t;
  attachmentAnalysis : option AttachmentAnalysis.t;
  domainInfo : option DomainInfo.t;
  emailMetadata : option Metadata;
  error : option string
}.
End Verdict.

(** The answer of [analyzeEmail]'s own handler. *)
Definition analysisFailed (message : string) : Verdict.t :=
  {| Verdict.threatScore := 50;
     Verdict.threatLevel := "SUSPICIOUS";
     Verdict.recommendation := "Analysis incomplete - exercise caution";
     Verdict.reasons := ["Analysis error: " ++ message];
     Verdict.senderAnalysis := None;
     Verdict.urlAnalysis := None;
     Verdict.contentAnalysis := None;
     Verdict.attachmentAnalysis := None;
     Verdict.domainInfo := None;
     Verdict.emailMetadata := None;
     Verdict.error := Some message |}.

Section Engine.

Variable fetch : string -> DohOutcome.
Variable parseURL : string -> result URL.t.
Variable fetchHead : string -> option string.

(** [analyzeSender].  The three lookups and [getDomainInfo] recover
    from their own failures, so the handlers around them (the [error]
    statuses, the [unknown] reputation) are never entered. *)
Definition analyzeSender (emailData : EmailData.t) : SenderResult.t :=
  let sender := EmailData.sender emailData in
  let domain := extractDomain sender in
  let metadata := orEmpty (EmailData.metadata emailData) in
  let spf := checkSPF fetch domain in
  let dmarc := checkDMARC fetch domain in
  let mxRecords := getMXRecords fetch domain in
  let domainInfo := getDomainInfo domain in
  let senderRisks := [] in
  let senderRisks :=
    push_if (negb (JS.truthy (senderNamePresent metadata)))
      "No sender display name" senderRisks in
  let senderRisks :=
    push_if (JS.truthy (senderNamePresent metadata)
             && negb (JS.truthy (senderNameMatchesDomain metadata)))
      "Sender name does not match domain" senderRisks in
  let senderRisks :=
    push_if (JS.truthy (isBcc metadata))
      "Email was BCC'd (unusual)" senderRisks in
  {| SenderResult.email := Some sender;
     SenderResult.domain := domain;
     SenderResult.spf := spf;
     SenderResult.dkim := "not_checked";
     SenderResult.dmarc := dmarc;
     SenderResult.mxRecords := Some mxRecords;
     SenderResult.domainInfo := Some domainInfo;
     SenderResult.reputation :=
       calculateSenderReputation spf dmarc domainInfo;
     SenderResult.senderRisks := senderRisks |}.

(** ** The entry point *)

(** The object handed to [calculateThreatScore] once the four analyses
    have answered. *)
Definition aggregatorInput (emailData : EmailData.t)
  (contentAnalysis : ContentResult.t) : Analysis.t :=
  {| Analysis.senderAnalysis := analyzeSender emailData;
     Analysis.urlAnalysis :=
       analyzeUrls parseURL fetchHead
         (match EmailData.urls emailData with Some l => l | None => [] end);
     Analysis.contentAnalysis := contentAnalysis;
     Analysis.attachmentAnalysis :=
       analyzeAttachments
         (match EmailData.attachments emailData with
          | Some l => l | None => [] end);
     Analysis.metadata := Some (orEmpty (EmailData.metadata emailData)) |}.

(** [analyzeEmail]: the four analyses are awaited together; of the
    four only the content analysis can reject, and then the handler
    answers. *)
Definition analyzeEmail (emailData : EmailData.t) : Verdict.t :=
  match analyzeContent emailData with
  | Throw message => analysisFailed message
  | Ok contentAnalysis =>
      let analysis := aggregatorInput emailData contentAnalysis in
      let threatScore := calculateThreatScore analysis in
      {| Verdict.threatScore := ThreatScore.score threatScore;
         Verdict.threatLevel := ThreatScore.level threatScore;
         Verdict.recommendation := ThreatScore.recommendation threatScore;
         Verdict.reasons := ThreatScore.reasons threatScore;
         Verdict.senderAnalysis := Some (Analysis.senderAnalysis analysis);
         Verdict.urlAnalysis := Some (Analysis.urlAnalysis analysis);
         Verdict.contentAnalysis := Some contentAnalysis;
         Verdict.attachmentAnalysis :=
           Some (Analysis.attachmentAnalysis analysis);
         Verdict.domainInfo :=
           SenderResult.domainInfo (Analysis.senderAnalysis analysis);
         Verdict.emailMetadata := EmailData.metadata emailData;
         Verdict.error := None |}
  end.

End Engine.

(** ** Single-signal updates of the aggregator's input *)

Definition set_isSpamFolder (v : option bool) (a : Analysis.t) : Analysis.t :=
  let m := orEmpty (Analysis.metadata a) in
  {| Analysis.senderAnalysis := Analysis.senderAnalysis a;
     Analysis.urlAnalysis := Analysis.urlAnalysis a;
     Analysis.contentAnalysis := Analysis.contentAnalysis a;
     Analysis.attachmentAnalysis := Analysis.attachmentAnalysis a;
     Analysis.metadata :=
       Some {| hasAttachments := hasAttachments m;
               attachmentCount := attachmentCount m;
               urlCount := urlCount m;
               bodyLength := bodyLength m;
               senderNamePresent := senderNamePresent m;
               senderNameMatchesDomain := senderNameMatchesDomain m;
               hasImages := hasImages m;
               recipientCount := recipientCount m;
               isBcc := isBcc m;
               isReply := isReply m;
               isForward := isForward m;
               isSpamFolder := v |} |}.

Definition set_dangerousUrlCount (n : nat) (a : Analysis.t) : Analysis.t :=
  {| Analysis.senderAnalysis := Analysis.senderAnalysis a;
     Analysis.urlAnalysis :=
       {| UrlAnalysis.urls := UrlAnalysis.urls (Analysis.urlAnalysis a);
          UrlAnalysis.dangerousUrls :=
            UrlAnalysis.dangerousUrls (Analysis.urlAnalysis a);
          UrlAnalysis.dangerousCount := n |};
     Analysis.contentAnalysis := Analysis.contentAnalysis a;
     Analysis.attachmentAnalysis := Analysis.attachmentAnalysis a;
     Analysis.metadata := Analysis.metadata a |}.

Definition set_attachmentAnalysis (r : AttachmentAnalysis.t) (a : Analysis.t)
  : Analysis.t :=
  {| Analysis.senderAnalysis := Analysis.senderAnalysis a;
     Analysis.urlAnalysis := Analysis.urlAnalysis a;
     Analysis.contentAnalysis := Analysis.contentAnalysis a;
     Analysis.attachmentAnalysis := r;
     Analysis.metadata := Analysis.metadata a |}.

(** The reason table in the words of the specification: the seven
    reasons in priority order, each with its triggering condition on the
    aggregator's input. *)
Definition priorityReasons (a : Analysis.t) : list (bool * string) :=
  let s := Analysis.senderAnalysis a in
  let c := Analysis.contentAnalysis a in
  let nu := UrlAnalysis.dangerousCount (Analysis.urlAnalysis a) in
  let na := AttachmentAnalysis.dangerousCount (Analysis.attachmentAnalysis a) in
  [ (negb (SenderResult.spf s =? "pass")%string
     || negb (SenderResult.dmarc s =? "pass")%string,
     "Sender authentication failed");
    (30 <? ContentResult.phishingScore c, "Phishing patterns detected");
    ((0 <? nu)%nat, JS.show_nat nu ++ " dangerous URL(s)");
    ((0 <? na)%nat, JS.show_nat na ++ " dangerous attachment(s)");
    (ContentResult.impersonation c, "Impersonation attempt detected");
    (ContentResult.shortBodyWithLinks c, "Short email body with embedded links");
    (JS.truthy (isSpamFolder (orEmpty (Analysis.metadata a))),
     "Email is in Spam folder") ].

Definition triggered (t : list (bool * string)) : list string :=
  map snd (filter fst t).

(** ** Sample inputs *)

Definition sample_sender : SenderResult.t :=
  {| SenderResult.email := Some "alice@example.com";
     SenderResult.domain := Some "example.com";
     SenderResult.spf := "pass";
     SenderResult.dkim := "not_checked";
     SenderResult.dmarc := "pass";
     SenderResult.mxRecords := Some [];
     SenderResult.domainInfo := None;
     SenderResult.reputation := "Good";
     SenderResult.senderRisks := [] |}.

(** A short message with one dangerous link, outside the spam folder. *)
Definition sample_analysis : Analysis.t :=
  {| Analysis.senderAnalysis := sample_sender;
     Analysis.urlAnalysis :=
       {| UrlAnalysis.urls := [];
          UrlAnalysis.dangerousUrls := ["http://192.168.0.1/login"];
          UrlAnalysis.dangerousCount := 1 |};
     Analysis.contentAnalysis :=
       {| ContentResult.phishingScore := 40;
          ContentResult.socialEngineering := "High";
          ContentResult.impersonation := false;
          ContentResult.shortBodyWithLinks := true;
          ContentResult.flags := ["Very short body with links (suspicious)"] |};
     Analysis.attachmentAnalysis :=
       {| AttachmentAnalysis.attachments := [];
          AttachmentAnalysis.dangerousCount := 0 |};
     Analysis.metadata := None |}.

(** Failed SPF and DMARC and nothing else. *)
Definition sample_unauthenticated : Analysis.t :=
  {| Analysis.senderAnalysis :=
       {| SenderResult.email := Some "alice@example.com";
          SenderResult.domain := Some "example.com";
          SenderResult.spf := "fail";
          SenderResult.dkim := "not_checked";
          SenderResult.dmarc := "fail";
          SenderResult.mxRecords := Some [];
          SenderResult.domainInfo := None;
          SenderResult.reputation := "Poor";
          SenderResult.senderRisks := [] |};
     Analysis.urlAnalysis :=
       {| UrlAnalysis.urls := []; UrlAnalysis.dangerousUrls := [];
          UrlAnalysis.dangerousCount := 0 |};
     Analysis.contentAnalysis :=
       {| ContentResult.phishingScore := 0;
          ContentResult.socialEngineering := "Low";
          ContentResult.impersonation := false;
          ContentResult.shortBodyWithLinks := false;
          ContentResult.flags := [] |};
     Analysis.attachmentAnalysis :=
       {| AttachmentAnalysis.attachments := [];
          AttachmentAnalysis.dangerousCount := 0 |};
     Analysis.metadata := None |}.

Definition invoice_pdf_exe (size : string) : Attachment.t :=
  {| Attachment.name := "invoice.pdf.exe";
     Attachment.size := size;
     Attachment.extension := "exe" |}.

(** A 35-letter path padded with digits to 81 characters. *)
Definition sample_long_path : string :=
  "/abcdefghijklmnopqrstuvwxyzabcdefghi"
  ++ "012345678901234567890123456789012345678901234".

Definition sample_long_url : string :=
  "https://example.com" ++ sample_long_path.

Definition sample_long_urlObj : URL.t :=
  {| URL.protocol := "https:"; URL.hostname := "example.com";
     URL.pathname := sample_long_path; URL.search := EmptyString |}.

(** A URL parser that knows [sample_long_url] only. *)
Definition sample_parseURL (s : string) : result URL.t :=
  if (s =? sample_long_url)%string then Ok sample_long_urlObj
  else Throw "Invalid URL".

(** A resolver that is down, and one that serves an SPF record with a
    soft-fail policy. *)
Definition sample_fetch_down (_ : string) : DohOutcome := NetworkError.

Definition sample_fetch_spf (_ : string) : DohOutcome :=
  Json (Some [ {| DnsRecord.data := Some "google-site-verification=abc";
                  DnsRecord.priority := None |};
               {| DnsRecord.data := Some "v=spf1 include:_spf.example.com ~all";
                  DnsRecord.priority := None |} ]).

(** A network on which every HEAD request fails. *)
Definition sample_fetchHead (_ : string) : option string := None.

(** A message that mentions PayPal, from the given sender. *)
Definition sample_email (sender : string) : EmailData.t :=
  {| EmailData.sender := sender;
     EmailData.subject := "Your PayPal account";
     EmailData.body := "Please review the attached statement.";
     EmailData.urls := None;
     EmailData.attachments := None;
     EmailData.metadata := None |}.

(** A message without an [@] in the sender that mentions a brand. *)
Definition sample_no_domain_email : EmailData.t :=
  sample_email "billing-team".

(* ================================================================== *)
(** * The rest of the engine's files *)
(* ================================================================== *)

(** ** Helpers and validators *)

(** [\s], and what [trim] removes: white space and line terminators
    (tab, line feed, vertical tab, form feed, carriage return, space,
    no-break space). *)
Definition is_space (c : ascii) : bool :=
  let n := nat_of_ascii c in
  (((9 <=? n) && (n <=? 13)) || (n =? 32) || (n =? 160))%nat.

Fixpoint trimStart (s : string) : string :=
  match s with
  | EmptyString => EmptyString
  | String c s' => if is_space c then trimStart s' else s
  end.

Fixpoint trimEnd (s : string) : string :=
  match s with
  | EmptyString => EmptyString
  | String c s' =>
      match trimEnd s' with
      | EmptyString => if is_space c then EmptyString else String c EmptyString
      | t => String c t
      end
  end.

(** [String.prototype.trim] *)
Definition trim (s : string) : string := trimEnd (trimStart s).

(** [[^\s@]] *)
Definition mailChar : Regex.t :=
  Regex.Class (fun c => negb (is_space c || Ascii.eqb c "@")).

(** [/^[^\s@]+@[^\s@]+\.[^\s@]+$/] *)
Definition simpleEmailPattern : Regex.t :=
  Regex.Cat (Regex.plus mailChar)
    (Regex.Cat (Regex.chr "@")
       (Regex.Cat (Regex.plus mailChar)
          (Regex.Cat (Regex.chr ".") (Regex.plus mailChar)))).

(** [Helpers.isValidEmail] on a string. *)
Definition isValidEmail (email : string) : bool :=
  if (email =? "")%string then false
  else Regex.matches simpleEmailPattern (trim email).


Module ThreatLevel.
Record t := { value : Z; label : string; color : string; range : Z * Z }.
End ThreatLevel.

(** [CONSTANTS.THREAT_LEVELS], in the order of [Object.entries]. *)
Definition LEVEL_SAFE : ThreatLevel.t :=
  {| ThreatLevel.value := 0; ThreatLevel.label := "SAFE";
     ThreatLevel.color := "#10b981"; ThreatLevel.range := (0, 30) |}.
Definition LEVEL_SUSPICIOUS : ThreatLevel.t :=
  {| ThreatLevel.value := 1; ThreatLevel.label := "SUSPICIOUS";
     ThreatLevel.color := "#f59e0b"; ThreatLevel.range := (31, 60) |}.
Definition LEVEL_DANGEROUS : ThreatLevel.t :=
  {| ThreatLevel.value := 2; ThreatLevel.label := "DANGEROUS";
     ThreatLevel.color := "#ef4444"; ThreatLevel.range := (61, 100) |}.
Definition THREAT_LEVELS : list ThreatLevel.t :=
  [LEVEL_SAFE; LEVEL_SUSPICIOUS; LEVEL_DANGEROUS].

(** [Helpers.getThreatLevel] on an integer score. *)
Definition getThreatLevel (score : Z) : ThreatLevel.t :=
  match
    JS.find (fun level =>
               let '(min, max) := ThreatLevel.range level in
               (min <=? score) && (score <=? max)) THREAT_LEVELS
  with
  | Some level => level
  | None => LEVEL_SAFE
  end.

(** [Helpers.truncate]; [substring] takes a negative length as 0. *)
Definition truncate (text : string) (maxLength : Z) : string :=
  if (text =? "")%string || (Z.of_nat (length text) <=? maxLength) then text
  else substring 0 (Z.to_nat maxLength) text ++ "...".

(** [Helpers.retry].  [fn k] is the outcome of the call number [k] of
    the retried function; the result comes with the delays slept, in
    order.  [retries] counts the attempts left after the current one. *)
Fixpoint retry_from {A : Type} (retries : nat) (fn : nat -> result A)
  (k : nat) (delay : Z) : result A * list Z :=
  match fn k with
  | Ok a => (Ok a, [])
  | Throw message =>
      match retries with
      | O => (Throw message, [])
      | S retries' =>
          let '(r, slept) := retry_from retries' fn (S k) (delay * 2) in
          (r, delay :: slept)
      end
  end.

Definition retry {A : Type} (fn : nat -> result A) (attempts delay : Z)
  : result A * list Z :=
  retry_from (Z.to_nat (attempts - 1)) fn 0 delay.

(** The parser's [doesNameMatchDomain]; its [extractDomain] is
    [match_after_at], without the change of case. *)
Definition doesNameMatchDomain (name email : string) : bool :=
  if (name =? "")%string || (email =? "")%string then false
  else
    match match_after_at email with
    | None => false
    | Some domain =>
        let nameLower := JS.toLowerCase name in
        let domainLower := JS.toLowerCase domain in
        if (domainLower =? "gmail.com")%string
           || (domainLower =? "outlook.com")%string
           || (domainLower =? "yahoo.com")%string
           || (domainLower =? "hotmail.com")%string
        then true
        else JS.includes nameLower domainLower
             || JS.includes domainLower nameLower
    end.

(** ** The basic URL analysis *)

Definition basicKeywords : list string :=
  ["login"; "verify"; "account"; "secure"; "banking"; "paypal"; "password"].

(** [analyzeUrlBasic], with the URL parser as a parameter. *)
Definition analyzeUrlBasic (parseURL : string -> result URL.t) (url : string)
  : UrlResult.t :=
  match parseURL url with
  | Throw _ => unableToAnalyze url
  | Ok urlObj =>
      let acc := (0, []) in
      let acc := bump (existsb (JS.endsWith (URL.hostname urlObj)) suspiciousTLDs)
                   20 ["Suspicious TLD"] acc in
      let acc := bump (pattern_test ipPattern (URL.hostname urlObj))
                   30 ["URL uses IP address"] acc in
      let acc := bump (URL.protocol urlObj =? "http:")%string
                   15 ["Not using HTTPS"] acc in
      let combined :=
        JS.toLowerCase (URL.hostname urlObj ++ URL.pathname urlObj
                        ++ URL.search urlObj) in
      let foundKeywords :=
        filter (fun k => JS.includes combined k) basicKeywords in
      let acc := bump (0 <? List.length foundKeywords)%nat
                   10 ["Suspicious keywords: " ++ JS.join ", " foundKeywords]
                   acc in
      {| UrlResult.url := url;
         UrlResult.resolvedUrl := Some url;
         UrlResult.dangerous := 40 <=? fst acc;
         UrlResult.riskScore := fst acc;
         UrlResult.flags := snd acc;
         UrlResult.redirects := None |}
  end.

(** ** Reverse DNS *)

(** [ip.split('.').reverse().join('.')] *)
Definition reversedIP (ip : string) : string :=
  JS.join "." (rev (JS.split "." ip)).

(** [reverseDNS]: [records[0]?.data || null]. *)
Definition reverseDNS (fetch : string -> DohOutcome) (ip : string)
  : option string :=
  match resolve fetch (Some (reversedIP ip ++ ".in-addr.arpa")) "PTR" with
  | r :: _ =>
      match DnsRecord.data r with
      | Some d => if (d =? "")%string then None else Some d
      | None => None
      end
  | [] => None
  end.

(** ** The history kept by the content script *)

Module HistoryEntry.
Record t := {
  id : string;
  timestamp : Z;
  sender : string;
  subject : string;
  threatScore : Z;
  threatLevel : string;
  platform : string
}.
End HistoryEntry.


(** ** The cache manager *)

Module CacheEntry.
Record t (A : Type) := { data : A; expiresAt : Z; createdAt : Z }.
Arguments data {A} _.
Arguments expiresAt {A} _.
Arguments createdAt {A} _.
End CacheEntry.

(** The cache object: its keys in insertion order, each with its
    entry.  Every key holds a colon, so none is an array index and
    [for ... in] visits them in this order. *)
Definition Cache (A : Type) : Type := list (string * CacheEntry.t A).

Definition generateKey (type identifier : string) : string :=
  type ++ ":" ++ identifier.

(** [cache[key]] *)
Fixpoint obj_get {V : Type} (key : string) (o : list (string * V)) : option V :=
  match o with
  | [] => None
  | (k, v) :: rest => if (k =? key)%string then Some v else obj_get key rest
  end.

(** [cache[key] = v] *)
Fixpoint obj_set {V : Type} (key : string) (v : V) (o : list (string * V))
  : list (string * V) :=
  match o with
  | [] => [(key, v)]
  | (k, w) :: rest =>
      if (k =? key)%string then (k, v) :: rest
      else (k, w) :: obj_set key v rest
  end.

(** [delete cache[key]] *)
Fixpoint obj_delete {V : Type} (key : string) (o : list (string * V))
  : list (string * V) :=
  match o with
  | [] => []
  | (k, w) :: rest =>
      if (k =? key)%string then obj_delete key rest
      else (k, w) :: obj_delete key rest
  end.

(** The time to live per type, in milliseconds (type names that are
    members of [Object.prototype] aside). *)
Definition ttlMap : list (string * Z) :=
  [ ("domain", 24 * 60 * 60 * 1000); ("ip", 12 * 60 * 60 * 1000);
    ("url", 6 * 60 * 60 * 1000); ("email", 1 * 60 * 60 * 1000) ].

Definition ttlOf (type : string) (ttl : option Z) : Z :=
  let byType := match obj_get type ttlMap with
                | Some t => t
                | None => 60 * 60 * 1000
                end in
  match ttl with
  | Some t => if t =? 0 then byType else t
  | None => byType
  end.

Record CacheStats := { total : Z; active : Z; expired : Z }.

Section CacheManager.

Variable A : Type.

(** [result[this.storageKey] || {}] *)
Definition stored (storage : option (Cache A)) : Cache A :=
  match storage with Some c => c | None => [] end.

Definition cache_get (now : Z) (storage : option (Cache A))
  (type identifier : string) : option A :=
  match obj_get (generateKey type identifier) (stored storage) with
  | None => None
  | Some cached =>
      if CacheEntry.expiresAt cached <? now then None
      else Some (CacheEntry.data cached)
  end.

(** [set]: the storage after the call; the clock is read twice. *)
Definition cache_set (now now' : Z) (storage : option (Cache A))
  (type identifier : string) (data : A) (ttl : option Z)
  : option (Cache A) :=
  Some (obj_set (generateKey type identifier)
          {| CacheEntry.data := data;
             CacheEntry.expiresAt := now + ttlOf type ttl;
             CacheEntry.createdAt := now' |}
          (stored storage)).

Definition cache_clear (storage : option (Cache A))
  (type identifier : string) : option (Cache A) :=
  Some (obj_delete (generateKey type identifier) (stored storage)).

Definition cache_clearAll : option (Cache A) := Some [].

(** [cleanup]: the storage after the call and the number of entries
    removed; the storage is written only when something was removed. *)
Definition cache_cleanup (now : Z) (storage : option (Cache A))
  : option (Cache A) * nat :=
  let cache := stored storage in
  let kept :=
    filter (fun e => negb (CacheEntry.expiresAt (snd e) <? now)) cache in
  let cleaned := (List.length cache - List.length kept)%nat in
  if (0 <? cleaned)%nat then (Some kept, cleaned) else (storage, 0%nat).

(** The counters of [getStats] ([byType] is left out). *)
Definition cache_getStats (now : Z) (storage : option (Cache A))
  : CacheStats :=
  fold_left
    (fun stats e =>
       let stats := {| total := total stats + 1; active := active stats;
                       expired := expired stats |} in
       if CacheEntry.expiresAt (snd e) <? now
       then {| total := total stats; active := active stats;
               expired := expired stats + 1 |}
       else {| total := total stats; active := active stats + 1;
               expired := expired stats |})
    (stored storage)
    {| total := 0; active := 0; expired := 0 |}.

End CacheManager.

(** ** Statements and sample inputs for the further properties *)

(** The flag of a structural result agrees with its reasons. *)
Definition flag_consistent (s : Structure.t) : Prop :=
  Structure.suspicious s = true <-> Structure.reasons s <> [].

(** The four checks that [analyzeUrl] adds up, on a parsed URL. *)
Definition homoglyphHit (urlObj : URL.t) : bool :=
  pattern_test (Anywhere Regex.non_ascii) (URL.hostname urlObj).
Definition structureHit (finalUrl : string) (urlObj : URL.t) : bool :=
  Structure.suspicious (structureOf finalUrl urlObj).
Definition patternHit (finalUrl : string) : bool :=
  negb (ThreatCheck.safe (checkURL finalUrl)).
Definition reputationHit (urlObj : URL.t) : bool :=
  DomainCheck.suspicious (checkDomain (URL.hostname urlObj)).


(** A parser that knows one URL on a free top-level domain. *)
Definition sample_tk_url : string := "https://prize.example.tk/claim".

Definition sample_parseURL_tk (s : string) : result URL.t :=
  if (s =? sample_tk_url)%string
  then Ok {| URL.protocol := "https:"; URL.hostname := "prize.example.tk";
             URL.pathname := "/claim"; URL.search := EmptyString |}
  else Throw "Invalid URL".




(** The four tests of [analyzeUrlBasic], on a parsed URL. *)
Definition basicTld (urlObj : URL.t) : bool :=
  existsb (JS.endsWith (URL.hostname urlObj)) suspiciousTLDs.
Definition basicIp (urlObj : URL.t) : bool :=
  pattern_test ipPattern (URL.hostname urlObj).
Definition basicHttp (urlObj : URL.t) : bool :=
  (URL.protocol urlObj =? "http:")%string.
Definition basicKeyword (urlObj : URL.t) : bool :=
  (0 <? List.length
          (filter (fun k =>
                     JS.includes
                       (JS.toLowerCase (URL.hostname urlObj
                                        ++ URL.pathname urlObj
                                        ++ URL.search urlObj)) k)
             basicKeywords))%nat.

(** [/p=([^;]+)/] *)
Definition policyPattern : Regex.t :=
  Regex.Cat (Regex.lit "p=") (Regex.plus (Regex.not_chr ";")).

(** The record that [getMXRecords] builds from an answer. *)
Definition mxOf (r : DnsRecord.t) : MX.t :=
  {| MX.exchange := DnsRecord.data r;
     MX.priority := match DnsRecord.priority r with
                    | Some p => p | None => 0 end |}.

Definition priority_le (a b : MX.t) : Prop := MX.priority a <= MX.priority b.

Definition has_priority (p : Z) (r : MX.t) : bool := MX.priority r =? p.

(** A resolver that serves a DMARC record whose sub-domain policy
    comes before the domain policy. *)
Definition sample_fetch_dmarc (_ : string) : DohOutcome :=
  Json (Some [ {| DnsRecord.data := Some "v=DMARC1; sp=reject; p=none";
                  DnsRecord.priority := None |} ]).

(** Every character of [s] satisfies [p]. *)
Fixpoint every_char (p : ascii -> bool) (s : string) : bool :=
  match s with
  | EmptyString => true
  | String c s' => p c && every_char p s'
  end.

(** What [[^\s@]] accepts. *)
Definition is_mail_char (c : ascii) : bool :=
  negb (is_space c || Ascii.eqb c "@").

(** A line feed, as a string. *)
Definition LF : string := String "010" EmptyString.

(** A parsed message whose sender address comes with a line feed. *)
Definition sample_padded_sender : string := "alice@example.com" ++ LF.

(** The scores that [checkAttachment] can give. *)
Definition attachmentRiskScores : list Z := [0; 30; 40; 70; 80; 90; 120; 130].

(** Whether [checkAttachment] calls the attachment dangerous. *)
Definition isDangerousAttachment (att : Attachment.t) : bool :=
  AttachmentResult.dangerous (checkAttachment att).

(** The keys of the stored cache object. *)
Definition cache_keys {A : Type} (storage : option (Cache A)) : list string :=
  map fst (stored A storage).

(** Whether an entry is past its time at [now]: [now > entry.expiresAt]. *)
Definition is_expired {A : Type} (now : Z) (e : string * CacheEntry.t A) : bool :=
  CacheEntry.expiresAt (snd e) <? now.

(** A stored cache with one entry past its time and one still valid
    at time 1000. *)
Definition sample_cache : option (Cache string) :=
  Some [ ("url:https://a.example/",
          {| CacheEntry.data := "old"; CacheEntry.expiresAt := 900;
             CacheEntry.createdAt := 0 |});
         ("domain:b.example",
          {| CacheEntry.data := "fresh"; CacheEntry.expiresAt := 5000;
             CacheEntry.createdAt := 10 |}) ].

(** The delays of an exponential backoff that sleeps [n] times. *)
Definition backoff (delay : Z) (n : nat) : list Z :=
  map (fun i => delay * 2 ^ Z.of_nat i) (seq 0 n).

(** A call that fails twice and then succeeds. *)
Definition sample_flaky (k : nat) : result string :=
  if (k <? 2)%nat then Throw "timeout" else Ok "done".

(* ================================================================== *)
(** * Properties of the engine *)
(* ================================================================== *)

(** ** The aggregator *)

(** Case analysis on the condition of every conditional of the goal. *)
Ltac case_ifs :=
  repeat match goal with
         | |- context [if ?b then _ else _] => destruct b
         end.

Lemma senderScore_range a : 0 <= senderScore a <= 100.
Proof.
  unfold senderScore.
  destruct (SenderResult.spf _ =? "pass")%string,
           (SenderResult.dmarc _ =? "pass")%string,
           (SenderResult.domainInfo _) as [di|];
    try destruct (DomainInfo.suspicious di); simpl; lia.
Qed.

Lemma flooredTotal_range a : 0 <= flooredTotal a <= 100.
Proof. unfold flooredTotal. cbv zeta. lia. Qed.

Lemma level_cases a :
  let r := calculateThreatScore a in
  (61 <= ThreatScore.score r /\ ThreatScore.level r = "DANGEROUS")
  \/ (31 <= ThreatScore.score r <= 60 /\ ThreatScore.level r = "SUSPICIOUS")
  \/ (ThreatScore.score r <= 30 /\ ThreatScore.level r = "SAFE").
Proof.
  unfold calculateThreatScore; cbv zeta.
  destruct (61 <=? flooredTotal a) eqn:H61;
    [| destruct (31 <=? flooredTotal a) eqn:H31 ]; simpl.
  - left. split; [ now apply Z.leb_le | reflexivity ].
  - right; left. apply Z.leb_le in H31. apply Z.leb_gt in H61.
    split; [ lia | reflexivity ].
  - right; right. apply Z.leb_gt in H31. split; [ lia | reflexivity ].
Qed.

(** *** Rounding

    The embedding computes the weighted total on integers.  On every
    value the component scores can take this is what binary64
    arithmetic and [Math.round] give. *)

Lemma rounding_agrees_everywhere :
  forallb (fun s => forallb (fun c => forallb (fun u => forallb (fun a =>
    forallb (fun k => rounding_agrees s c u a k) combinedScores)
    attachmentScores) urlScores) contentScores) senderScores = true.
Proof. vm_compute. reflexivity. Qed.

Lemma senderScore_values a : In (senderScore a) senderScores.
Proof.
  unfold senderScore, senderScores.
  destruct (SenderResult.spf _ =? "pass")%string,
           (SenderResult.dmarc _ =? "pass")%string,
           (SenderResult.domainInfo _) as [di|];
    try destruct (DomainInfo.suspicious di); simpl; tauto.
Qed.

Lemma urlScore_values a : In (urlScore a) urlScores.
Proof. unfold urlScore, urlScores. destruct (0 <? _)%nat; simpl; tauto. Qed.

Lemma attachmentScore_values a : In (attachmentScore a) attachmentScores.
Proof.
  unfold attachmentScore, attachmentScores. destruct (0 <? _)%nat; simpl; tauto.
Qed.

Lemma combinedScore_values a : In (combinedScore a) combinedScores.
Proof.
  unfold combinedScore, combinedScores. cbv zeta.
  case_ifs; simpl; tauto.
Qed.

Lemma contentScore_values c : 0 <= c <= 100 -> In c contentScores.
Proof.
  intros H. unfold contentScores. apply in_map_iff.
  exists (Z.to_nat c). split; [ lia |]. apply in_seq. lia.
Qed.

(** For every clamped content score, [Math.round] of the binary64
    weighted sum is the integer the embedding computes. *)
Theorem weightedTotal_binary64 (a : Analysis.t) :
  0 <= contentScore a <= 100 ->
  Math_round (weightedSum_binary64 (senderScore a) (contentScore a)
                (urlScore a) (attachmentScore a) (combinedScore a))
  = weightedTotal a.
Proof.
  intros Hc. unfold weightedTotal.
  pose proof rounding_agrees_everywhere as H.
  rewrite forallb_forall in H. specialize (H _ (senderScore_values a)).
  rewrite forallb_forall in H. specialize (H _ (contentScore_values _ Hc)).
  rewrite forallb_forall in H. specialize (H _ (urlScore_values a)).
  rewrite forallb_forall in H. specialize (H _ (attachmentScore_values a)).
  rewrite forallb_forall in H. specialize (H _ (combinedScore_values a)).
  unfold rounding_agrees in H. now apply Z.eqb_eq in H.
Qed.

(** C1. Whatever the analyzer outputs and the metadata are, the score
    returned by [calculateThreatScore] lies in 0..100 and the level is
    the band of the score: DANGEROUS exactly from 61 up, SUSPICIOUS
    exactly on 31..60, SAFE exactly up to 30. *)
Theorem calculateThreatScore_score_and_level (a : Analysis.t) :
  let r := calculateThreatScore a in
  0 <= ThreatScore.score r <= 100
  /\ (ThreatScore.level r = "DANGEROUS" <-> 61 <= ThreatScore.score r)
  /\ (ThreatScore.level r = "SUSPICIOUS" <-> 31 <= ThreatScore.score r <= 60)
  /\ (ThreatScore.level r = "SAFE" <-> ThreatScore.score r <= 30).
Proof.
  intro r. split.
  - subst r. unfold calculateThreatScore; cbv zeta.
    destruct (61 <=? flooredTotal a), (31 <=? flooredTotal a); simpl;
      apply flooredTotal_range.
  - destruct (level_cases a) as [[Hs Hl] | [[Hs Hl] | [Hs Hl]]];
      fold r in Hs, Hl; rewrite Hl;
      repeat split; intros; try discriminate; try lia; reflexivity.
Qed.

(** C2. With a dangerous URL and either a short body with links or the
    spam folder, the score is at least 75 and the level is DANGEROUS. *)
Theorem dangerous_url_floor_75 (a : Analysis.t) :
  (0 < UrlAnalysis.dangerousCount (Analysis.urlAnalysis a))%nat ->
  ContentResult.shortBodyWithLinks (Analysis.contentAnalysis a) = true
  \/ isSpamFolder (orEmpty (Analysis.metadata a)) = Some true ->
  75 <= ThreatScore.score (calculateThreatScore a)
  /\ ThreatScore.level (calculateThreatScore a) = "DANGEROUS".
Proof.
  intros Hd Hs.
  assert (H75 : 75 <= flooredTotal a).
  { unfold flooredTotal; cbv zeta.
    apply Nat.ltb_lt in Hd. rewrite Hd.
    assert (Hb : ContentResult.shortBodyWithLinks (Analysis.contentAnalysis a)
                 || JS.truthy (isSpamFolder (orEmpty (Analysis.metadata a)))
                 = true).
    { destruct Hs as [-> | ->]; [ reflexivity | apply orb_true_r ]. }
    rewrite Hb. simpl andb. cbv iota. lia. }
  unfold calculateThreatScore; cbv zeta.
  destruct (61 <=? flooredTotal a) eqn:H61.
  - simpl. split; [ exact H75 | reflexivity ].
  - apply Z.leb_gt in H61. lia.
Qed.

Lemma score_is_flooredTotal a :
  ThreatScore.score (calculateThreatScore a) = flooredTotal a.
Proof.
  unfold calculateThreatScore; cbv zeta.
  destruct (61 <=? flooredTotal a), (31 <=? flooredTotal a); reflexivity.
Qed.

(** The floors and the final clamp as a function of the weighted total
    and of the four signals they test. *)
Lemma flooredTotal_unfold a :
  flooredTotal a =
  let content := Analysis.contentAnalysis a in
  let spam := JS.truthy (isSpamFolder (orEmpty (Analysis.metadata a))) in
  let t := weightedTotal a in
  let t := if (ContentResult.socialEngineering content =? "High")%string
           then Z.max t 45
           else if (ContentResult.socialEngineering content =? "Moderate")%string
           then Z.max t 30 else t in
  let t := if ContentResult.impersonation content then Z.max t 60 else t in
  let t := if spam then Z.max t 40 else t in
  let t := if (0 <? UrlAnalysis.dangerousCount (Analysis.urlAnalysis a))%nat
              && (ContentResult.shortBodyWithLinks content || spam)
           then Z.max t 75 else t in
  Z.min 100 (Z.max 0 t).
Proof. reflexivity. Qed.

Lemma round_tenths_mono x y : x <= y -> JS.round_tenths x <= JS.round_tenths y.
Proof. intros H. unfold JS.round_tenths. apply Z.div_le_mono; lia. Qed.

Lemma combinedScore_spam_mono a :
  combinedScore (set_isSpamFolder (Some false) a)
  <= combinedScore (set_isSpamFolder (Some true) a).
Proof.
  unfold combinedScore. cbv zeta.
  change (senderScore (set_isSpamFolder (Some false) a)) with (senderScore a).
  change (senderScore (set_isSpamFolder (Some true) a)) with (senderScore a).
  cbn [set_isSpamFolder Analysis.contentAnalysis Analysis.urlAnalysis
       Analysis.metadata orEmpty isSpamFolder JS.truthy].
  case_ifs; lia.
Qed.

Lemma weightedTotal_spam_mono a :
  weightedTotal (set_isSpamFolder (Some false) a)
  <= weightedTotal (set_isSpamFolder (Some true) a).
Proof.
  unfold weightedTotal. apply round_tenths_mono.
  pose proof (combinedScore_spam_mono a).
  change (senderScore (set_isSpamFolder (Some false) a)) with (senderScore a).
  change (senderScore (set_isSpamFolder (Some true) a)) with (senderScore a).
  change (contentScore (set_isSpamFolder (Some false) a)) with (contentScore a).
  change (contentScore (set_isSpamFolder (Some true) a)) with (contentScore a).
  change (urlScore (set_isSpamFolder (Some false) a)) with (urlScore a).
  change (urlScore (set_isSpamFolder (Some true) a)) with (urlScore a).
  change (attachmentScore (set_isSpamFolder (Some false) a))
    with (attachmentScore a).
  change (attachmentScore (set_isSpamFolder (Some true) a))
    with (attachmentScore a).
  lia.
Qed.

Lemma spam_flip_monotone a :
  flooredTotal (set_isSpamFolder (Some false) a)
  <= flooredTotal (set_isSpamFolder (Some true) a).
Proof.
  pose proof (weightedTotal_spam_mono a) as Hw.
  rewrite !flooredTotal_unfold. cbv zeta.
  cbn [set_isSpamFolder Analysis.contentAnalysis Analysis.urlAnalysis
       Analysis.metadata orEmpty isSpamFolder JS.truthy].
  set (w0 := weightedTotal (set_isSpamFolder (Some false) a)) in *.
  set (w1 := weightedTotal (set_isSpamFolder (Some true) a)) in *.
  clearbody w0 w1.
  destruct (0 <? UrlAnalysis.dangerousCount (Analysis.urlAnalysis a))%nat,
           (ContentResult.shortBodyWithLinks (Analysis.contentAnalysis a));
    cbn [andb orb]; case_ifs; lia.
Qed.

Lemma combinedScore_url_mono a n :
  combinedScore (set_dangerousUrlCount 0 a)
  <= combinedScore (set_dangerousUrlCount n a).
Proof.
  unfold combinedScore. cbv zeta.
  change (senderScore (set_dangerousUrlCount 0 a)) with (senderScore a).
  change (senderScore (set_dangerousUrlCount n a)) with (senderScore a).
  cbn [set_dangerousUrlCount Analysis.contentAnalysis Analysis.urlAnalysis
       Analysis.metadata UrlAnalysis.dangerousCount].
  change (0 <? 0)%nat with false. cbv iota.
  case_ifs; lia.
Qed.

Lemma weightedTotal_url_mono a n :
  weightedTotal (set_dangerousUrlCount 0 a)
  <= weightedTotal (set_dangerousUrlCount n a).
Proof.
  unfold weightedTotal. apply round_tenths_mono.
  pose proof (combinedScore_url_mono a n).
  change (senderScore (set_dangerousUrlCount 0 a)) with (senderScore a).
  change (senderScore (set_dangerousUrlCount n a)) with (senderScore a).
  change (contentScore (set_dangerousUrlCount 0 a)) with (contentScore a).
  change (contentScore (set_dangerousUrlCount n a)) with (contentScore a).
  change (attachmentScore (set_dangerousUrlCount 0 a))
    with (attachmentScore a).
  change (attachmentScore (set_dangerousUrlCount n a))
    with (attachmentScore a).
  assert (urlScore (set_dangerousUrlCount 0 a)
          <= urlScore (set_dangerousUrlCount n a)).
  { unfold urlScore; simpl. destruct (0 <? n)%nat; lia. }
  lia.
Qed.

Lemma dangerous_url_monotone a n :
  flooredTotal (set_dangerousUrlCount 0 a)
  <= flooredTotal (set_dangerousUrlCount n a).
Proof.
  pose proof (weightedTotal_url_mono a n) as Hw.
  rewrite !flooredTotal_unfold. cbv zeta.
  cbn [set_dangerousUrlCount Analysis.contentAnalysis Analysis.urlAnalysis
       Analysis.metadata UrlAnalysis.dangerousCount].
  set (w0 := weightedTotal (set_dangerousUrlCount 0 a)) in *.
  set (w1 := weightedTotal (set_dangerousUrlCount n a)) in *.
  clearbody w0 w1.
  change (0 <? 0)%nat with false.
  destruct (0 <? n)%nat,
           (ContentResult.shortBodyWithLinks (Analysis.contentAnalysis a)),
           (JS.truthy (isSpamFolder (orEmpty (Analysis.metadata a))));
    cbn [andb orb]; case_ifs; lia.
Qed.

(** C5. With every other input fixed, turning [isSpamFolder] from false
    to true never lowers the score, and neither does going from no
    dangerous URL to a positive number of them. *)
Theorem score_monotone_in_spam_and_dangerous_url (a : Analysis.t) (n : nat) :
  (0 < n)%nat ->
  ThreatScore.score (calculateThreatScore (set_isSpamFolder (Some false) a))
  <= ThreatScore.score (calculateThreatScore (set_isSpamFolder (Some true) a))
  /\ ThreatScore.score (calculateThreatScore (set_dangerousUrlCount 0 a))
     <= ThreatScore.score (calculateThreatScore (set_dangerousUrlCount n a)).
Proof.
  intros Hn. rewrite !score_is_flooredTotal. split.
  - apply spam_flip_monotone.
  - apply dangerous_url_monotone.
Qed.

(** C2 at a short message with one dangerous link. *)
Lemma dangerous_url_floor_75_witness :
  75 <= ThreatScore.score (calculateThreatScore sample_analysis)
  /\ ThreatScore.level (calculateThreatScore sample_analysis) = "DANGEROUS".
Proof.
  apply (dangerous_url_floor_75 sample_analysis).
  - simpl. lia.
  - left. reflexivity.
Defined.

(** C5 at the same message, with three dangerous links. *)
Lemma score_monotone_witness :
  ThreatScore.score
    (calculateThreatScore (set_isSpamFolder (Some false) sample_analysis))
  <= ThreatScore.score
       (calculateThreatScore (set_isSpamFolder (Some true) sample_analysis))
  /\ ThreatScore.score
       (calculateThreatScore (set_dangerousUrlCount 0 sample_analysis))
     <= ThreatScore.score
          (calculateThreatScore (set_dangerousUrlCount 3 sample_analysis)).
Proof.
  apply (score_monotone_in_spam_and_dangerous_url sample_analysis 3). lia.
Defined.

Lemma senderScore_above_20 a :
  (20 <? senderScore a) =
  negb (SenderResult.spf (Analysis.senderAnalysis a) =? "pass")%string
  || negb (SenderResult.dmarc (Analysis.senderAnalysis a) =? "pass")%string.
Proof.
  unfold senderScore.
  destruct (SenderResult.spf _ =? "pass")%string,
           (SenderResult.dmarc _ =? "pass")%string,
           (SenderResult.domainInfo _) as [di|];
    try destruct (DomainInfo.suspicious di); reflexivity.
Qed.

(** Seven conditional pushes on an empty array leave the triggered
    entries of the table, in table order. *)
Lemma seven_pushes (c1 c2 c3 c4 c5 c6 c7 : bool) (x1 x2 x3 x4 x5 x6 x7 : string) :
  push_if c7 x7 (push_if c6 x6 (push_if c5 x5 (push_if c4 x4
    (push_if c3 x3 (push_if c2 x2 (push_if c1 x1 []))))))
  = triggered [(c1, x1); (c2, x2); (c3, x3); (c4, x4); (c5, x5); (c6, x6);
               (c7, x7)].
Proof. destruct c1, c2, c3, c4, c5, c6, c7; reflexivity. Qed.

Lemma collectReasons_table a :
  collectReasons a = triggered (priorityReasons a).
Proof.
  unfold collectReasons, priorityReasons. cbv zeta.
  rewrite seven_pushes, senderScore_above_20.
  unfold contentScore, urlScore, attachmentScore.
  destruct (0 <? UrlAnalysis.dangerousCount (Analysis.urlAnalysis a))%nat,
    (0 <? AttachmentAnalysis.dangerousCount (Analysis.attachmentAnalysis a))%nat;
    reflexivity.
Qed.

Lemma reasons_is_truncation a :
  ThreatScore.reasons (calculateThreatScore a) = firstn 5 (collectReasons a).
Proof.
  unfold calculateThreatScore; cbv zeta.
  destruct (61 <=? flooredTotal a), (31 <=? flooredTotal a); reflexivity.
Qed.

(** C9. The reasons returned are the first five entries of the fixed
    priority sequence (sender-auth failure, phishing patterns, dangerous
    URL count, dangerous attachment count, impersonation,
    short-body-with-links, spam-folder) restricted to the entries whose
    triggering condition holds; in particular there are at most five. *)
Theorem reasons_priority_order_capped (a : Analysis.t) :
  ThreatScore.reasons (calculateThreatScore a)
  = firstn 5 (triggered (priorityReasons a))
  /\ (List.length (ThreatScore.reasons (calculateThreatScore a)) <= 5)%nat.
Proof.
  rewrite reasons_is_truncation, collectReasons_table. split.
  - reflexivity.
  - apply firstn_le_length.
Qed.

(** *** Scenarios of the specification *)

Example scenario_auth_failure_only :
  let r := calculateThreatScore sample_unauthenticated in
  senderScore sample_unauthenticated = 80%Z
  /\ ThreatScore.score r = 16%Z
  /\ ThreatScore.level r = "SAFE"
  /\ ThreatScore.reasons r = ["Sender authentication failed"].
Proof. cbv zeta. repeat split. Qed.

Example scenario_short_body_dangerous_link :
  let r := calculateThreatScore sample_analysis in
  weightedTotal sample_analysis = 64%Z
  /\ ThreatScore.score r = 75%Z
  /\ ThreatScore.level r = "DANGEROUS"
  /\ ThreatScore.reasons r
     = ["Phishing patterns detected"; "1 dangerous URL(s)";
        "Short email body with embedded links"].
Proof. cbv zeta. repeat split. Qed.

(** ** The attachment classifier *)

(** C7. For [invoice.pdf.exe] (extension [exe]) the classifier reports
    dangerous with the unclamped score 130 = 90 + 40; the email-level
    aggregation counts one dangerous attachment and the aggregator's
    attachment score is 90. *)
Theorem invoice_pdf_exe_scenario (size : string) (a : Analysis.t) :
  let att := invoice_pdf_exe size in
  getFileExtension (Attachment.name att) = Attachment.extension att
  /\ JS.mem "exe" dangerousExts = true
  /\ AttachmentResult.dangerous (checkAttachment att) = true
  /\ AttachmentResult.riskScore (checkAttachment att) = 130
  /\ AttachmentResult.flags (checkAttachment att)
     = ["Dangerous file type: .exe"; "Double extension detected"]
  /\ AttachmentAnalysis.dangerousCount (analyzeAttachments [att]) = 1%nat
  /\ attachmentScore (set_attachmentAnalysis (analyzeAttachments [att]) a) = 90.
Proof. cbv zeta. repeat split. Qed.

(** C10. The dangerous flag and the per-attachment score agree: a
    dangerous attachment scores at least 40 and a non-dangerous one at
    most 30. *)
Theorem checkAttachment_flag_score_consistent (att : Attachment.t) :
  (AttachmentResult.dangerous (checkAttachment att) = true ->
   40 <= AttachmentResult.riskScore (checkAttachment att))
  /\ (AttachmentResult.dangerous (checkAttachment att) = false ->
      AttachmentResult.riskScore (checkAttachment att) <= 30).
Proof.
  unfold checkAttachment, att_extension_step, att_macro_step, att_double_step.
  cbv zeta.
  destruct (JS.mem (JS.toLowerCase (Attachment.extension att)) dangerousExts),
    (JS.mem (JS.toLowerCase (Attachment.extension att)) suspiciousExts),
    (JS.mem (JS.toLowerCase (Attachment.extension att)) macroExts),
    (2 <? List.length (JS.split "." (Attachment.name att)))%nat;
    simpl; split; intros; try discriminate; lia.
Qed.

(** C10 at a macro-enabled document and at a plain archive. *)
Lemma checkAttachment_flag_score_witness :
  40 <= AttachmentResult.riskScore
          (checkAttachment
             {| Attachment.name := "report.docm"; Attachment.size := "12 KB";
                Attachment.extension := "docm" |})
  /\ AttachmentResult.riskScore
       (checkAttachment
          {| Attachment.name := "photos.zip"; Attachment.size := "2 MB";
             Attachment.extension := "zip" |}) <= 30.
Proof.
  split.
  - apply (proj1 (checkAttachment_flag_score_consistent _)). reflexivity.
  - apply (proj2 (checkAttachment_flag_score_consistent _)). reflexivity.
Defined.

(** ** The DNS trust resolver *)

Lemma resolve_failed fetch domain type :
  lookup_failed (fetch (doh_url (show_nullable domain) type)) = true ->
  resolve fetch domain type = [].
Proof.
  unfold resolve. destruct (fetch _); simpl; intros H;
    try reflexivity; discriminate.
Qed.

(** C6. [checkSPF] answers [fail] when the lookup fails and when no TXT
    record contains [v=spf1]; on the SPF record it finds it answers
    [pass] exactly when that record contains [~all] or [-all] and
    [neutral] otherwise; a failed lookup never gives [pass] or
    [neutral]. *)
Theorem checkSPF_fail_closed (fetch : string -> DohOutcome)
  (domain : option string) :
  let outcome := fetch (doh_url (show_nullable domain) "TXT") in
  let found := JS.find (has_text "v=spf1") (resolve fetch domain "TXT") in
  let verdict := checkSPF fetch domain in
  (lookup_failed outcome = true ->
   verdict = "fail" /\ verdict <> "pass" /\ verdict <> "neutral")
  /\ (found = None -> verdict = "fail")
  /\ (forall r, found = Some r ->
        JS.includes (record_text r) "v=spf1" = true
        /\ (verdict = "pass" <->
            JS.includes (record_text r) "~all" = true
            \/ JS.includes (record_text r) "-all" = true)
        /\ (verdict = "neutral" <->
            JS.includes (record_text r) "~all" = false
            /\ JS.includes (record_text r) "-all" = false)).
Proof.
  cbv zeta. unfold checkSPF. repeat split.
  - rewrite (resolve_failed _ _ _ H). reflexivity.
  - rewrite (resolve_failed _ _ _ H). simpl. discriminate.
  - rewrite (resolve_failed _ _ _ H). simpl. discriminate.
  - intros ->. reflexivity.
  - apply find_some in H. destruct H as [_ H].
    unfold has_text in H. unfold record_text.
    destruct (DnsRecord.data r); [| discriminate ].
    apply andb_true_iff in H. apply H.
  - rewrite H.
    destruct (JS.includes (record_text r) "~all"),
             (JS.includes (record_text r) "-all"); simpl; intros;
      try discriminate; auto.
  - rewrite H. intros [? | ?];
      destruct (JS.includes (record_text r) "~all"),
               (JS.includes (record_text r) "-all"); simpl;
      try discriminate; reflexivity.
  - rewrite H in H0.
    destruct (JS.includes (record_text r) "~all"); [ discriminate | reflexivity ].
  - rewrite H in H0.
    destruct (JS.includes (record_text r) "~all"),
             (JS.includes (record_text r) "-all"); simpl in *;
      try discriminate; reflexivity.
  - rewrite H. intros [-> ->]. reflexivity.
Qed.

(** C6 at a resolver that is down and at a domain that publishes
    [v=spf1 ... ~all]. *)
Lemma checkSPF_fail_closed_witness :
  checkSPF sample_fetch_down (Some "example.com") = "fail"
  /\ checkSPF sample_fetch_spf (Some "example.com") = "pass".
Proof.
  split.
  - apply (proj1 (checkSPF_fail_closed sample_fetch_down (Some "example.com"))).
    reflexivity.
  - pose proof (proj2 (proj2 (checkSPF_fail_closed sample_fetch_spf
                                (Some "example.com")))) as H.
    cbv zeta in H.
    apply (proj1 (proj2 (H _ eq_refl))). left. reflexivity.
Defined.

(** ** The pattern matcher *)

Lemma append_empty_r (s : string) : s ++ "" = s.
Proof. induction s; simpl; congruence. Qed.

Lemma append_assoc (a b c : string) : (a ++ b) ++ c = a ++ (b ++ c).
Proof. induction a; simpl; congruence. Qed.

Lemma append_is_empty (a b : string) : a ++ b = "" -> a = "" /\ b = "".
Proof. destruct a; simpl; intros H; [ auto | discriminate ]. Qed.

Lemma lang_void s : ~ Regex.lang Regex.Void s.
Proof. intros H. inversion H. Qed.

Lemma nullable_sound r : Regex.nullable r = true -> Regex.lang r "".
Proof.
  induction r; simpl; intros H; try discriminate.
  - constructor.
  - apply andb_true_iff in H. destruct H as [Ha Hb].
    change "" with ("" ++ ""). constructor; auto.
  - apply orb_true_iff in H. destruct H as [Ha | Hb].
    + apply Regex.lang_alt_l; auto.
    + apply Regex.lang_alt_r; auto.
  - constructor.
Qed.

Lemma nullable_complete r s :
  Regex.lang r s -> s = "" -> Regex.nullable r = true.
Proof.
  induction 1; simpl; intros E; try discriminate; auto.
  - apply append_is_empty in E. destruct E. rewrite IHlang1, IHlang2; auto.
  - rewrite IHlang; auto.
  - rewrite IHlang; auto. apply orb_true_r.
Qed.

Lemma alt'_lang a b s :
  Regex.lang (Regex.alt' a b) s <-> Regex.lang (Regex.Alt a b) s.
Proof.
  split.
  - intros H. destruct a, b; simpl in H;
      try (now apply Regex.lang_alt_l); try (now apply Regex.lang_alt_r);
      try exact H.
  - intros H. inversion H; subst.
    + destruct a, b; simpl; try (now apply Regex.lang_alt_l);
        try assumption; try (exfalso; eapply lang_void; eassumption).
    + destruct a, b; simpl; try (now apply Regex.lang_alt_r);
        try assumption; try (exfalso; eapply lang_void; eassumption).
Qed.

Lemma cat'_lang a b s :
  Regex.lang (Regex.cat' a b) s <-> Regex.lang (Regex.Cat a b) s.
Proof.
  split.
  - intros H. destruct a; simpl in H; try exact H.
    + exfalso; eapply lang_void; eassumption.
    + change s with ("" ++ s). constructor; [ constructor | exact H ].
  - intros H. inversion H; subst.
    destruct a; simpl; try exact H.
    + exfalso; eapply lang_void; eassumption.
    + match goal with Hx : Regex.lang Regex.Eps _ |- _ => inversion Hx; subst end.
      simpl. assumption.
Qed.

Lemma deriv_sound c r : forall s,
  Regex.lang (Regex.deriv c r) s -> Regex.lang r (String c s).
Proof.
  induction r; simpl; intros s H.
  - inversion H.
  - inversion H.
  - destruct (p c) eqn:E; inversion H; subst. now constructor.
  - destruct (Regex.nullable r1) eqn:N.
    + apply alt'_lang in H. inversion H; subst.
      * match goal with Hx : Regex.lang (Regex.cat' _ _) _ |- _ =>
          apply cat'_lang in Hx; inversion Hx; subst end.
        change (String c (s1 ++ s2)) with (String c s1 ++ s2).
        constructor; auto.
      * change (String c s) with ("" ++ String c s).
        constructor; [ now apply nullable_sound | auto ].
    + apply cat'_lang in H. inversion H; subst.
      change (String c (s1 ++ s2)) with (String c s1 ++ s2).
      constructor; auto.
  - apply alt'_lang in H. inversion H; subst.
    + apply Regex.lang_alt_l; auto.
    + apply Regex.lang_alt_r; auto.
  - apply cat'_lang in H. inversion H; subst.
    change (String c (s1 ++ s2)) with (String c s1 ++ s2).
    constructor; auto.
Qed.

Lemma deriv_complete r s0 :
  Regex.lang r s0 -> forall c s, s0 = String c s ->
  Regex.lang (Regex.deriv c r) s.
Proof.
  induction 1; intros c0 s0 E; simpl.
  - discriminate.
  - injection E as -> <-. rewrite H. constructor.
  - destruct s1 as [| c1 s1'].
    + simpl in E. subst s2.
      rewrite (nullable_complete _ _ H eq_refl).
      apply alt'_lang. apply Regex.lang_alt_r. now apply IHlang2.
    + simpl in E. injection E as -> <-.
      assert (Hc : Regex.lang (Regex.cat' (Regex.deriv c0 a) b) (s1' ++ s2)).
      { apply cat'_lang. constructor; [ now apply IHlang1 | assumption ]. }
      destruct (Regex.nullable a); [| exact Hc ].
      apply alt'_lang. now apply Regex.lang_alt_l.
  - apply alt'_lang. apply Regex.lang_alt_l. now apply IHlang.
  - apply alt'_lang. apply Regex.lang_alt_r. now apply IHlang.
  - discriminate.
  - destruct s1 as [| c1 s1'].
    + simpl in E. subst s2. now apply IHlang2.
    + simpl in E. injection E as -> <-.
      apply cat'_lang. constructor; [ now apply IHlang1 | assumption ].
Qed.

Theorem matches_lang r s : Regex.matches r s = true <-> Regex.lang r s.
Proof.
  revert r. induction s as [| c s IH]; intros r; simpl.
  - split; [ apply nullable_sound | intros H; now apply (nullable_complete r "") ].
  - rewrite IH. split.
    + apply deriv_sound.
    + intros H. now apply (deriv_complete r (String c s)).
Qed.

Lemma lang_star_any s : Regex.lang (Regex.Star Regex.any) s.
Proof.
  induction s as [| c s IH].
  - constructor.
  - change (String c s) with (String c "" ++ s).
    constructor; [ now constructor | exact IH ].
Qed.

(** [test] succeeds exactly when some substring matches. *)
Theorem test_spec r s :
  Regex.test r s = true <->
  exists p m q, s = p ++ m ++ q /\ Regex.lang r m.
Proof.
  unfold Regex.test. rewrite matches_lang. split.
  - intros H. inversion H; subst.
    match goal with Hx : Regex.lang (Regex.Cat r _) _ |- _ =>
      inversion Hx; subst end.
    eauto.
  - intros (p & m & q & -> & Hm).
    constructor; [ apply lang_star_any |].
    constructor; [ exact Hm | apply lang_star_any ].
Qed.

(** *** Runs of letters *)

Lemma lettersOnlyOf_all_letters s : all_letters (lettersOnlyOf s) = true.
Proof.
  induction s as [| c s IH]; simpl; [ reflexivity |].
  destruct (Regex.is_letter c) eqn:E; simpl; [ rewrite E |]; exact IH.
Qed.

Lemma lang_star_letters s :
  all_letters s = true -> Regex.lang (Regex.Star Regex.letter) s.
Proof.
  induction s as [| c s IH]; simpl; intros H.
  - constructor.
  - apply andb_true_iff in H. destruct H as [Hc Hs].
    change (String c s) with (String c "" ++ s).
    constructor; [ now constructor | auto ].
Qed.

Lemma lang_at_least_letters n : forall s,
  all_letters s = true -> (n <= length s)%nat ->
  Regex.lang (Regex.at_least n Regex.letter) s.
Proof.
  unfold Regex.at_least.
  induction n as [| n IH]; intros s Hs Hn; simpl.
  - change s with ("" ++ s). constructor; [ constructor | now apply lang_star_letters ].
  - destruct s as [| c s]; simpl in *; [ lia |].
    apply andb_true_iff in Hs. destruct Hs as [Hc Hs].
    specialize (IH s Hs ltac:(lia)). inversion IH; subst.
    change (String c (s1 ++ s2)) with (String c s1 ++ s2).
    constructor; [| assumption ].
    change (String c s1) with (String c "" ++ s1).
    constructor; [ now constructor | assumption ].
Qed.

Lemma append_length (a b : string) :
  length (a ++ b) = (length a + length b)%nat.
Proof. induction a; simpl; congruence. Qed.

Lemma lang_power_class_length p n : forall s,
  Regex.lang (Regex.power n (Regex.Class p)) s -> length s = n.
Proof.
  induction n as [| n IH]; simpl; intros s H; inversion H; subst.
  - reflexivity.
  - match goal with Hx : Regex.lang (Regex.Class _) _ |- _ =>
      inversion Hx; subst end.
    simpl. f_equal. auto.
Qed.

Lemma lang_at_least_class_length p n s :
  Regex.lang (Regex.at_least n (Regex.Class p)) s -> (n <= length s)%nat.
Proof.
  unfold Regex.at_least. intros H. inversion H as [| | a b s1 s2 H1 H2 | | | |]; subst.
  apply lang_power_class_length in H1. rewrite append_length. lia.
Qed.

(** On a string of letters, [/[a-zA-Z]{30,}/] tests its length. *)
Lemma letter_run_test s :
  all_letters s = true ->
  Regex.test (Regex.at_least 30 Regex.letter) s = (30 <=? length s)%nat.
Proof.
  intros Hs. destruct (30 <=? length s)%nat eqn:E.
  - apply Nat.leb_le in E. apply test_spec. exists "", s, "".
    simpl. rewrite append_empty_r. split; [ reflexivity |].
    now apply lang_at_least_letters.
  - apply Nat.leb_gt in E. apply not_true_is_false. intros H.
    apply test_spec in H. destruct H as (p & m & q & -> & Hm).
    apply lang_at_least_class_length in Hm.
    rewrite !append_length in E. lia.
Qed.

(** ** The URL risk analyzer *)

Lemma In_flag_if x c r s :
  In x (Structure.reasons (flag_if c r s)) <->
  In x (Structure.reasons s) \/ (c = true /\ x = r).
Proof.
  unfold flag_if. destruct c; simpl.
  - rewrite in_app_iff. simpl. intuition congruence.
  - intuition congruence.
Qed.

Lemma In_flag_if_other x c r s :
  x <> r ->
  (In x (Structure.reasons (flag_if c r s)) <-> In x (Structure.reasons s)).
Proof. intros Hx. rewrite In_flag_if. intuition congruence. Qed.

Lemma long_flag_not_keywords k :
  longRandomPathFlag <> "Suspicious keywords: " ++ k.
Proof. unfold longRandomPathFlag. simpl. discriminate. Qed.

(** The seven other structural tests never push the long-path flag. *)
Lemma other_tests_no_long_flag c1 c2 c3 c4 c5 c6 c7 k :
  ~ In longRandomPathFlag
      (Structure.reasons
         (flag_if c7 "Not using HTTPS"
         (flag_if c6 "URL contains @ symbol"
         (flag_if c5 ("Suspicious keywords: " ++ k)
         (flag_if c4 "Too many subdomains"
         (flag_if c3 "Punycode domain (possible homograph attack)"
         (flag_if c2 "Suspicious TLD"
         (flag_if c1 "URL uses IP address"
            {| Structure.suspicious := false;
               Structure.reasons := [] |})))))))).
Proof.
  rewrite !In_flag_if_other;
    try apply long_flag_not_keywords;
    try (unfold longRandomPathFlag; discriminate).
  simpl. tauto.
Qed.

Lemma long_path_flag_structureOf url urlObj :
  let pq := URL.pathname urlObj ++ URL.search urlObj in
  In longRandomPathFlag (Structure.reasons (structureOf url urlObj)) <->
  (80 < length pq)%nat /\ (40 < length (lettersOnlyOf pq))%nat.
Proof.
  cbv zeta. unfold structureOf. cbv zeta.
  match goal with
  | |- context [flag_if ?c7 "Not using HTTPS"
                  (flag_if ?c6 _ (flag_if ?c5 (_ ++ ?k) (flag_if ?c4 _
                     (flag_if ?c3 _ (flag_if ?c2 _ (flag_if ?c1 _ _))))))] =>
      pose proof (other_tests_no_long_flag c1 c2 c3 c4 c5 c6 c7 k) as Hother
  end.
  destruct (80 <? length (URL.pathname urlObj ++ URL.search urlObj))%nat eqn:E80.
  - apply Nat.ltb_lt in E80.
    rewrite In_flag_if.
    rewrite letter_run_test by apply lettersOnlyOf_all_letters.
    rewrite andb_true_iff, Nat.ltb_lt, Nat.leb_le.
    split.
    + intros [H | [[H _] _]]; [ contradiction | tauto ].
    + intros [_ H]. right. repeat split; lia.
  - apply Nat.ltb_ge in E80. split.
    + intros H. contradiction.
    + intros [H _]. lia.
Qed.

(** C3, as the code has it. The flag [Very long randomized URL path] is
    raised exactly when path and query together are longer than 80
    characters and contain more than 40 letters (the letters-only text
    then always has the run of 30 letters the pattern asks for); a URL
    that does not parse raises no flag. *)
Theorem long_random_path_flag (parseURL : string -> result URL.t)
  (url : string) :
  match parseURL url with
  | Ok urlObj =>
      let pq := URL.pathname urlObj ++ URL.search urlObj in
      (In longRandomPathFlag
          (Structure.reasons (checkUrlStructure parseURL url)) <->
       (80 < length pq)%nat /\ (40 < length (lettersOnlyOf pq))%nat)
      /\ ((40 < length (lettersOnlyOf pq))%nat ->
          Regex.test (Regex.at_least 30 Regex.letter) (lettersOnlyOf pq) = true)
  | Throw _ =>
      ~ In longRandomPathFlag
          (Structure.reasons (checkUrlStructure parseURL url))
  end.
Proof.
  unfold checkUrlStructure. destruct (parseURL url) as [urlObj | message].
  - split.
    + apply long_path_flag_structureOf.
    + intros H. rewrite letter_run_test by apply lettersOnlyOf_all_letters.
      apply Nat.leb_le. lia.
  - simpl. tauto.
Qed.

(** C3 as stated fails: 81 characters of path with a run of 35 letters
    meet the stated condition, and the flag is not raised. *)
Lemma long_random_path_flag_counterexample :
  let pq := URL.pathname sample_long_urlObj ++ URL.search sample_long_urlObj in
  sample_parseURL sample_long_url = Ok sample_long_urlObj
  /\ (80 < length pq)%nat
  /\ length (lettersOnlyOf pq) = 35%nat
  /\ Regex.test (Regex.at_least 30 Regex.letter) (lettersOnlyOf pq) = true
  /\ ~ In longRandomPathFlag
         (Structure.reasons (checkUrlStructure sample_parseURL sample_long_url)).
Proof.
  cbv zeta. split; [ reflexivity |].
  split; [ vm_compute; lia |].
  split; [ reflexivity |].
  split; [ vm_compute; reflexivity |].
  vm_compute. tauto.
Qed.

Section UrlFailures.

Variable parseURL : string -> result URL.t.
Variable fetchHead : string -> option string.

Lemma analyzeUrl_try_throws url message :
  analyzeUrl_try parseURL fetchHead url = Throw message <->
  parseURL (fst (resolveShortLink fetchHead url)) = Throw message.
Proof.
  unfold analyzeUrl_try.
  destruct (resolveShortLink fetchHead url) as [finalUrl redirects]; simpl.
  destruct (parseURL finalUrl); split; intros H; try discriminate;
    injection H as ->; reflexivity.
Qed.

Lemma analyzeUrls_results urls :
  UrlAnalysis.urls (analyzeUrls parseURL fetchHead urls)
  = map (analyzeUrl parseURL fetchHead) (firstn 10 urls).
Proof. destruct urls; reflexivity. Qed.

(** C8. A URL whose analysis throws is reported with score 0, not
    dangerous, and the single flag [Unable to analyze]; and whatever
    else the list holds, every URL among the first ten gets its own
    result at its own position. *)
Theorem analyzeUrl_failure_is_local (urls : list string) (i : nat)
  (url message : string) :
  nth_error urls i = Some url -> (i < 10)%nat ->
  analyzeUrl_try parseURL fetchHead url = Throw message ->
  let r := analyzeUrl parseURL fetchHead url in
  let results := UrlAnalysis.urls (analyzeUrls parseURL fetchHead urls) in
  UrlResult.riskScore r = 0%Z
  /\ UrlResult.dangerous r = false
  /\ UrlResult.flags r = ["Unable to analyze"]
  /\ nth_error results i = Some r
  /\ List.length results = Nat.min 10 (List.length urls)
  /\ (forall j u, nth_error urls j = Some u -> (j < 10)%nat ->
        nth_error results j = Some (analyzeUrl parseURL fetchHead u)).
Proof.
  intros Hi Hlt Hthrow. cbv zeta.
  assert (Hall : forall j u, nth_error urls j = Some u -> (j < 10)%nat ->
            nth_error (UrlAnalysis.urls (analyzeUrls parseURL fetchHead urls)) j
            = Some (analyzeUrl parseURL fetchHead u)).
  { intros j u Hj Hj10. rewrite analyzeUrls_results.
    rewrite nth_error_map, nth_error_firstn.
    apply Nat.ltb_lt in Hj10. rewrite Hj10, Hj. reflexivity. }
  unfold analyzeUrl at 1 2 3. rewrite Hthrow. simpl.
  repeat split; auto.
  rewrite analyzeUrls_results, length_map, length_firstn. reflexivity.
Qed.

End UrlFailures.

(** C8 at a list whose first entry is not a URL. *)
Lemma analyzeUrl_failure_is_local_witness :
  let urls := ["not a url"; sample_long_url] in
  let results :=
    UrlAnalysis.urls (analyzeUrls sample_parseURL sample_fetchHead urls) in
  nth_error results 0 = Some (unableToAnalyze "not a url")
  /\ nth_error results 1
     = Some (analyzeUrl sample_parseURL sample_fetchHead sample_long_url).
Proof.
  cbv zeta.
  pose proof (analyzeUrl_failure_is_local sample_parseURL sample_fetchHead
                ["not a url"; sample_long_url] 0 "not a url" "Invalid URL"
                eq_refl (Nat.lt_0_succ 9) eq_refl) as H.
  cbv zeta in H.
  destruct H as (_ & _ & _ & H0 & _ & Hall).
  split.
  - exact H0.
  - apply Hall; [ reflexivity | apply Nat.ltb_lt; reflexivity ].
Defined.

(** ** The content analyzer *)

Lemma bump_nonneg c points fl acc :
  0 <= points -> 0 <= fst acc -> 0 <= fst (bump c points fl acc).
Proof. unfold bump. destruct c; simpl; lia. Qed.

Lemma contentPatterns_weights :
  Forall (fun p => 0 <= ContentPattern.weight p) contentPatterns.
Proof. unfold contentPatterns. cbv zeta. repeat constructor; simpl; lia. Qed.

Lemma scanPatterns_nonneg text : 0 <= fst (scanPatterns text).
Proof.
  unfold scanPatterns.
  assert (H : forall l acc,
             Forall (fun p => 0 <= ContentPattern.weight p) l ->
             0 <= fst acc ->
             0 <= fst (fold_left
                         (fun acc p =>
                            bump (pattern_test (ContentPattern.regex p) text)
                              (ContentPattern.weight p)
                              [ContentPattern.flag p] acc) l acc)).
  { induction l as [| p l IH]; intros acc Hl Hacc; simpl; [ exact Hacc |].
    inversion Hl; subst. apply IH; [ assumption |].
    now apply bump_nonneg. }
  apply H; [ apply contentPatterns_weights | simpl; lia ].
Qed.

Lemma metadataSignals_nonneg metadata acc :
  0 <= fst acc -> 0 <= fst (metadataSignals metadata acc).
Proof.
  intros H. unfold metadataSignals. cbv zeta.
  repeat (apply bump_nonneg; [ lia |]). exact H.
Qed.

Lemma contentResult_score_range short imp acc :
  0 <= fst acc ->
  0 <= ContentResult.phishingScore (contentResult short imp acc) <= 100.
Proof.
  intros H. unfold contentResult. cbv zeta. cbn [ContentResult.phishingScore].
  destruct (short && (fst acc <? 40)); lia.
Qed.

(** The phishing score that the content analyzer reports is clamped
    into 0..100. *)
Lemma analyzeContent_score_range e c :
  analyzeContent e = Ok c -> 0 <= ContentResult.phishingScore c <= 100.
Proof.
  unfold analyzeContent. cbv zeta.
  destruct (impersonationTest _ _) as [imp | message]; [| discriminate ].
  intros H. injection H as <-.
  apply contentResult_score_range, metadataSignals_nonneg, bump_nonneg;
    [ lia | apply scanPatterns_nonneg ].
Qed.

(** On the normal path of [analyzeEmail] the aggregator's rounding is
    the binary64 one. *)
Lemma analyzeEmail_rounding_binary64 fetch parseURL fetchHead e c :
  analyzeContent e = Ok c ->
  let a := aggregatorInput fetch parseURL fetchHead e c in
  Math_round (weightedSum_binary64 (senderScore a) (contentScore a)
                (urlScore a) (attachmentScore a) (combinedScore a))
  = weightedTotal a.
Proof.
  intros H a. apply weightedTotal_binary64.
  exact (analyzeContent_score_range e c H).
Qed.

(** ** Missing sender domain *)

Lemma test_to_end_spec r s :
  Regex.test_to_end r s = true <-> exists p m, s = p ++ m /\ Regex.lang r m.
Proof.
  unfold Regex.test_to_end. rewrite matches_lang. split.
  - intros H. inversion H; subst. eauto.
  - intros (p & m & -> & Hm). constructor; [ apply lang_star_any | exact Hm ].
Qed.

Lemma lang_star_dot s :
  no_line_terminator s = true -> Regex.lang (Regex.Star Regex.dot) s.
Proof.
  induction s as [| c s IH]; simpl; intros H.
  - constructor.
  - apply andb_true_iff in H. destruct H as [Hc Hs].
    change (String c s) with (String c "" ++ s).
    constructor; [ constructor; exact Hc | auto ].
Qed.

Lemma no_line_terminator_app a b :
  no_line_terminator (a ++ b) = no_line_terminator a && no_line_terminator b.
Proof.
  induction a as [| c a IH]; simpl; [ reflexivity |].
  rewrite IH. apply andb_assoc.
Qed.

Lemma lang_star_dot_inv r s :
  Regex.lang r s -> r = Regex.Star Regex.dot -> no_line_terminator s = true.
Proof.
  induction 1; intros E; try discriminate.
  - reflexivity.
  - injection E as ->. rewrite no_line_terminator_app.
    rewrite IHlang2 by reflexivity.
    inversion H; subst. simpl.
    match goal with Hx : _ = true |- _ => unfold is_line_terminator; rewrite Hx end.
    reflexivity.
Qed.

(** The strings [/@(.+)$/] matches from their first character. *)
Lemma lang_at_rest m :
  Regex.lang (Regex.Cat (Regex.chr "@") (Regex.plus Regex.dot)) m <->
  exists rest, m = String "@" rest /\ rest <> "" /\ no_line_terminator rest = true.
Proof.
  split.
  - intros H. inversion H as [| | a b s1 s2 H1 H2 | | | |]; subst.
    inversion H1 as [| p c Hc | | | | |]; subst.
    apply Ascii.eqb_eq in Hc. subst c.
    exists s2. split; [ reflexivity |].
    unfold Regex.plus in H2.
    inversion H2 as [| | a b t1 t2 Ht1 Ht2 | | | |]; subst.
    inversion Ht1 as [| p c Hc | | | | |]; subst.
    split; [ discriminate |].
    simpl. unfold is_line_terminator. rewrite Hc. simpl.
    now apply (lang_star_dot_inv _ _ Ht2).
  - intros (rest & -> & Hne & Hnl).
    change (String "@" rest) with (String "@" "" ++ rest).
    constructor; [ constructor; apply Ascii.eqb_refl |].
    destruct rest as [| c rest]; [ congruence |].
    simpl in Hnl. apply andb_true_iff in Hnl. destruct Hnl as [Hc Hr].
    unfold Regex.plus. change (String c rest) with (String c "" ++ rest).
    constructor; [ constructor; exact Hc | now apply lang_star_dot ].
Qed.

(** [match_after_at] finds a domain exactly when [/@(.+)$/] matches. *)
Lemma match_after_at_regex s :
  (exists d, match_after_at s = Some d) <->
  Regex.test_to_end (Regex.Cat (Regex.chr "@") (Regex.plus Regex.dot)) s = true.
Proof.
  rewrite test_to_end_spec. split.
  - induction s as [| c s IH]; simpl; intros [d H]; [ discriminate |].
    destruct (Ascii.eqb c "@" && negb (s =? "")%string && no_line_terminator s) eqn:E.
    + apply andb_true_iff in E. destruct E as [E Hnl].
      apply andb_true_iff in E. destruct E as [Hc Hne].
      apply Ascii.eqb_eq in Hc. subst c.
      exists "", (String "@" s). split; [ reflexivity |].
      apply lang_at_rest. exists s. repeat split; auto.
      intros ->. discriminate.
    + destruct (IH (ex_intro _ d H)) as (p & m & -> & Hm).
      exists (String c p), m. split; [ reflexivity | exact Hm ].
  - intros (p & m & -> & Hm). apply lang_at_rest in Hm.
    destruct Hm as (rest & -> & Hne & Hnl).
    induction p as [| c p IH]; simpl.
    + rewrite Hnl. destruct (rest =? "")%string eqn:E.
      * apply String.eqb_eq in E. contradiction.
      * simpl. eauto.
    + destruct (Ascii.eqb c "@" && negb (_ =? "")%string && no_line_terminator _);
        [ eauto | exact IH ].
Qed.

Lemma match_after_at_no_at s :
  JS.includes s "@" = false -> match_after_at s = None.
Proof.
  induction s as [| c s IH]; simpl; intros H; [ reflexivity |].
  apply orb_false_iff in H. destruct H as [Hc Hs].
  destruct (Ascii.eqb c "@") eqn:E.
  - apply Ascii.eqb_eq in E. subst c. simpl in Hc.
    destruct s; discriminate.
  - simpl. auto.
Qed.

(** A sender without [@] has no domain: [extractDomain] answers
    [null]. *)
Lemma extractDomain_no_at s :
  JS.includes s "@" = false -> extractDomain s = None.
Proof.
  intros H. unfold extractDomain.
  destruct (s =? "")%string; [ reflexivity |].
  now rewrite match_after_at_no_at.
Qed.

(** Without a sender domain the content analysis throws as soon as the
    text mentions a brand, and only then. *)
Lemma analyzeContent_without_domain e :
  extractDomain (EmailData.sender e) = None ->
  let text := JS.toLowerCase (EmailData.subject e ++ " " ++ EmailData.body e) in
  match JS.find (fun brand => JS.includes text brand) brands with
  | Some _ => analyzeContent e = Throw nullIncludesMessage
  | None => exists c, analyzeContent e = Ok c
  end.
Proof.
  intros Hd. cbv zeta. unfold analyzeContent. cbv zeta. rewrite Hd.
  destruct (JS.find _ brands); simpl.
  - reflexivity.
  - eexists. reflexivity.
Qed.

Section EntryPoint.

Variable fetch : string -> DohOutcome.
Variable parseURL : string -> result URL.t.
Variable fetchHead : string -> option string.


(** X23. On either path the verdict is well formed: a score in 0..100 with
    the level of its band, and at most five reasons. *)
Lemma analyzeEmail_well_formed e :
  let v := analyzeEmail fetch parseURL fetchHead e in
  0 <= Verdict.threatScore v <= 100
  /\ (Verdict.threatLevel v = "DANGEROUS" <-> 61 <= Verdict.threatScore v)
  /\ (Verdict.threatLevel v = "SUSPICIOUS" <-> 31 <= Verdict.threatScore v <= 60)
  /\ (Verdict.threatLevel v = "SAFE" <-> Verdict.threatScore v <= 30)
  /\ (List.length (Verdict.reasons v) <= 5)%nat.
Proof.
  cbv zeta. unfold analyzeEmail.
  destruct (analyzeContent e) as [c | message].
  - cbv zeta. cbn [Verdict.threatScore Verdict.threatLevel Verdict.reasons].
    set (a := aggregatorInput fetch parseURL fetchHead e c).
    destruct (level_cases a) as [[Hs Hl] | [[Hs Hl] | [Hs Hl]]];
      pose proof (flooredTotal_range a) as Hr;
      rewrite score_is_flooredTotal in *; rewrite Hl;
      rewrite reasons_is_truncation;
      (repeat split; [ lia | lia | ..]);
      try (intros; discriminate); try (intros; lia);
      try reflexivity; try apply firstn_le_length.
  - simpl. repeat split; intros; try discriminate; try lia.
Qed.

End EntryPoint.

(** C4 fails on the code. For a sender without [@] and a subject that
    names a brand, [extractDomain] answers [null], the content analysis
    throws on [senderDomain.includes], and [analyzeEmail] answers
    through its error handler, whatever the network does. *)
Theorem analyzeEmail_missing_domain_error_path
  (fetch : string -> DohOutcome) (parseURL : string -> result URL.t)
  (fetchHead : string -> option string) :
  JS.includes (EmailData.sender sample_no_domain_email) "@" = false
  /\ extractDomain (EmailData.sender sample_no_domain_email) = None
  /\ analyzeContent sample_no_domain_email = Throw nullIncludesMessage
  /\ analyzeEmail fetch parseURL fetchHead sample_no_domain_email
     = analysisFailed nullIncludesMessage
  /\ Verdict.threatScore
       (analyzeEmail fetch parseURL fetchHead sample_no_domain_email) = 50%Z
  /\ Verdict.contentAnalysis
       (analyzeEmail fetch parseURL fetchHead sample_no_domain_email) = None.
Proof.
  assert (Hc : analyzeContent sample_no_domain_email
               = Throw nullIncludesMessage) by (vm_compute; reflexivity).
  assert (He : analyzeEmail fetch parseURL fetchHead sample_no_domain_email
               = analysisFailed nullIncludesMessage).
  { unfold analyzeEmail. cbv zeta. rewrite Hc. reflexivity. }
  rewrite He. repeat split; try reflexivity; exact Hc.
Qed.

(** With the domain present the same message is analysed normally. *)
Example scenario_paypal_impersonation :
  (exists c, analyzeContent (sample_email "service@paypal.com") = Ok c
             /\ ContentResult.impersonation c = false)
  /\ (exists c, analyzeContent (sample_email "service@paypa1-security.info") = Ok c
                /\ ContentResult.impersonation c = true).
Proof. split; eexists; split; vm_compute; reflexivity. Qed.

(* ================================================================== *)
(** * Further properties *)
(* ================================================================== *)

(** ** The aggregator and its callers *)

Section AggregatorInPipeline.

Variable fetch : string -> DohOutcome.
Variable parseURL : string -> result URL.t.
Variable fetchHead : string -> option string.

(** X1. The reputation that [analyzeSender] reports and the sender score
    that the aggregator derives from the same three signals go
    together: Good is a sender score of at most 40, Moderate one of 60
    or 80, Poor one of 100. *)
Theorem reputation_matches_senderScore (e : EmailData.t)
  (c : ContentResult.t) :
  let a := aggregatorInput fetch parseURL fetchHead e c in
  let reputation := SenderResult.reputation (Analysis.senderAnalysis a) in
  (reputation = "Good" <-> senderScore a <= 40)
  /\ (reputation = "Moderate" <-> 60 <= senderScore a <= 80)
  /\ (reputation = "Poor" <-> senderScore a = 100).
Proof.
  cbv zeta. unfold senderScore, aggregatorInput, analyzeSender,
    calculateSenderReputation.
  cbn [Analysis.senderAnalysis SenderResult.reputation SenderResult.spf
       SenderResult.dmarc SenderResult.domainInfo].
  destruct (checkSPF fetch _ =? "pass")%string,
           (checkDMARC fetch _ =? "pass")%string,
           (DomainInfo.suspicious _); simpl;
    repeat split; intros; try discriminate; try lia; reflexivity.
Qed.

End AggregatorInPipeline.

(** X2. The floors of the aggregator: a High social-engineering tier
    gives at least 45, a Moderate one at least 30, impersonation at
    least 60 and the spam folder at least 40; with a High tier,
    impersonation or the spam folder the level is never SAFE. *)
Theorem score_floors (a : Analysis.t) :
  let r := calculateThreatScore a in
  let content := Analysis.contentAnalysis a in
  (ContentResult.socialEngineering content = "High" ->
   45 <= ThreatScore.score r /\ ThreatScore.level r <> "SAFE")
  /\ (ContentResult.socialEngineering content = "Moderate" ->
      30 <= ThreatScore.score r)
  /\ (ContentResult.impersonation content = true ->
      60 <= ThreatScore.score r /\ ThreatScore.level r <> "SAFE")
  /\ (JS.truthy (isSpamFolder (orEmpty (Analysis.metadata a))) = true ->
      40 <= ThreatScore.score r /\ ThreatScore.level r <> "SAFE").
Proof.
  cbv zeta.
  assert (Hlevel : forall n, 31 <= n -> n <= flooredTotal a ->
            ThreatScore.level (calculateThreatScore a) <> "SAFE").
  { intros n Hn Hle.
    destruct (level_cases a) as [[Hs Hl] | [[Hs Hl] | [Hs Hl]]];
      rewrite score_is_flooredTotal in Hs; rewrite Hl;
      try discriminate. lia. }
  rewrite score_is_flooredTotal.
  assert (Hfloor : forall n,
            n <= flooredTotal a ->
            31 <= n ->
            n <= flooredTotal a
            /\ ThreatScore.level (calculateThreatScore a) <> "SAFE").
  { intros n Hle Hn. split; [ exact Hle | now apply (Hlevel n) ]. }
  split; [| split; [| split ]]; intros H.
  - apply Hfloor; [| lia ]. rewrite flooredTotal_unfold. cbv zeta.
    rewrite H. simpl. case_ifs; lia.
  - rewrite flooredTotal_unfold. cbv zeta. rewrite H. simpl. case_ifs; lia.
  - apply Hfloor; [| lia ]. rewrite flooredTotal_unfold. cbv zeta.
    rewrite H. case_ifs; lia.
  - apply Hfloor; [| lia ]. rewrite flooredTotal_unfold. cbv zeta.
    rewrite H. case_ifs; lia.
Qed.

Lemma firstn_incl_S {A : Type} (n : nat) (l : list A) :
  incl (firstn n l) (firstn (S n) l).
Proof.
  revert l. induction n as [| n IH]; intros l x H.
  - destruct H.
  - destruct l as [| y l]; [ destruct H |].
    destruct H as [-> | H]; [ now left | right; now apply IH ].
Qed.

Lemma triggered_firstn n : forall t,
  incl (triggered (firstn n t)) (firstn n (triggered t)).
Proof.
  induction n as [| n IH]; intros t x H; [ destruct H |].
  destruct t as [| [c r] t]; [ destruct H |].
  unfold triggered in *. simpl in *. destruct c; simpl in *.
  - destruct H as [-> | H]; [ now left | right; now apply IH ].
  - apply firstn_incl_S. now apply IH.
Qed.

Lemma kept_reason (a : Analysis.t) (r : string) :
  In (true, r) (firstn 5 (priorityReasons a)) ->
  In r (ThreatScore.reasons (calculateThreatScore a)).
Proof.
  intros Hin.
  rewrite reasons_is_truncation, collectReasons_table.
  apply triggered_firstn. unfold triggered.
  apply in_map_iff. exists (true, r). split; [ reflexivity |].
  apply filter_In. split; [ exact Hin | reflexivity ].
Qed.

(** X3. Truncation to five never drops one of the first five reasons
    of the priority sequence: a failed sender authentication, phishing
    patterns, dangerous URLs, dangerous attachments and impersonation
    are reported whenever their condition holds. *)
Theorem first_five_reasons_kept (a : Analysis.t) (c : bool) (r : string) :
  In (c, r) (firstn 5 (priorityReasons a)) -> c = true ->
  In r (ThreatScore.reasons (calculateThreatScore a)).
Proof. intros Hin ->. now apply kept_reason. Qed.

Lemma first_five_reasons_kept_witness :
  In "1 dangerous URL(s)"
     (ThreatScore.reasons (calculateThreatScore sample_analysis)).
Proof.
  apply (first_five_reasons_kept sample_analysis true "1 dangerous URL(s)").
  - right; right; left. reflexivity.
  - reflexivity.
Defined.

Lemma getThreatLevel_of_score (a : Analysis.t) :
  ThreatLevel.label (getThreatLevel (ThreatScore.score (calculateThreatScore a)))
  = ThreatScore.level (calculateThreatScore a).
Proof.
  pose proof (flooredTotal_range a) as Hr.
  destruct (level_cases a) as [[Hs Hl] | [[Hs Hl] | [Hs Hl]]];
    rewrite Hl; rewrite score_is_flooredTotal in *;
    unfold getThreatLevel, THREAT_LEVELS, JS.find; simpl.
  - replace (flooredTotal a <=? 30) with false by (symmetry; apply Z.leb_gt; lia).
    rewrite andb_false_r.
    replace (flooredTotal a <=? 60) with false by (symmetry; apply Z.leb_gt; lia).
    rewrite andb_false_r.
    replace (61 <=? flooredTotal a) with true by (symmetry; apply Z.leb_le; lia).
    replace (flooredTotal a <=? 100) with true by (symmetry; apply Z.leb_le; lia).
    reflexivity.
  - replace (flooredTotal a <=? 30) with false by (symmetry; apply Z.leb_gt; lia).
    rewrite andb_false_r.
    replace (31 <=? flooredTotal a) with true by (symmetry; apply Z.leb_le; lia).
    replace (flooredTotal a <=? 60) with true by (symmetry; apply Z.leb_le; lia).
    reflexivity.
  - replace (0 <=? flooredTotal a) with true by (symmetry; apply Z.leb_le; lia).
    replace (flooredTotal a <=? 30) with true by (symmetry; apply Z.leb_le; lia).
    reflexivity.
Qed.

(** X5. Outside 0..100 [Helpers.getThreatLevel] falls back to SAFE: a
    score above 100 or below 0 is labelled SAFE. *)
Theorem getThreatLevel_out_of_range (score : Z) :
  score < 0 \/ 100 < score -> getThreatLevel score = LEVEL_SAFE.
Proof.
  intros H. unfold getThreatLevel, THREAT_LEVELS, JS.find. simpl.
  destruct H as [H | H].
  - replace (0 <=? score) with false by (symmetry; apply Z.leb_gt; lia).
    replace (31 <=? score) with false by (symmetry; apply Z.leb_gt; lia).
    replace (61 <=? score) with false by (symmetry; apply Z.leb_gt; lia).
    reflexivity.
  - replace (score <=? 30) with false by (symmetry; apply Z.leb_gt; lia).
    replace (score <=? 60) with false by (symmetry; apply Z.leb_gt; lia).
    replace (score <=? 100) with false by (symmetry; apply Z.leb_gt; lia).
    rewrite !andb_false_r. reflexivity.
Qed.

Lemma getThreatLevel_out_of_range_witness :
  getThreatLevel 130 = LEVEL_SAFE.
Proof. apply getThreatLevel_out_of_range. right. lia. Defined.

(** X4. [Helpers.getThreatLevel], which the banner and the history
    use, gives the score of every verdict of [analyzeEmail] the level
    that the verdict itself carries, on the normal path and on the
    error path. *)
Theorem getThreatLevel_agrees_with_verdict
  (fetch : string -> DohOutcome) (parseURL : string -> result URL.t)
  (fetchHead : string -> option string) (e : EmailData.t) :
  let v := analyzeEmail fetch parseURL fetchHead e in
  ThreatLevel.label (getThreatLevel (Verdict.threatScore v))
  = Verdict.threatLevel v.
Proof.
  cbv zeta. unfold analyzeEmail.
  destruct (analyzeContent e) as [c | message].
  - cbv zeta. cbn [Verdict.threatScore Verdict.threatLevel].
    apply getThreatLevel_of_score.
  - reflexivity.
Qed.


(** ** The content analyzer *)





Lemma contentResult_tier short imp acc :
  let c := contentResult short imp acc in
  (ContentResult.socialEngineering c = "High"
   <-> 40 <= ContentResult.phishingScore c)
  /\ (ContentResult.socialEngineering c = "Moderate"
      <-> 20 <= ContentResult.phishingScore c < 40)
  /\ (ContentResult.socialEngineering c = "Low"
      <-> ContentResult.phishingScore c < 20).
Proof.
  cbv zeta. unfold contentResult. cbv zeta.
  cbn [ContentResult.socialEngineering ContentResult.phishingScore].
  set (raw := if short && (fst acc <? 40) then 40 else fst acc).
  destruct (40 <=? raw) eqn:E40; [| destruct (20 <=? raw) eqn:E20 ];
    try apply Z.leb_le in E40; try apply Z.leb_gt in E40;
    try apply Z.leb_le in E20; try apply Z.leb_gt in E20;
    repeat split; intros; try discriminate; try lia; reflexivity.
Qed.

(** X7. The content analyzer reports a phishing score in 0..100, and
    the tier it reports beside it, although computed before the clamp,
    is the tier of the reported score: High from 40, Moderate on
    20..39, Low below 20. *)
Theorem analyzeContent_tier_matches_score (e : EmailData.t)
  (c : ContentResult.t) :
  analyzeContent e = Ok c ->
  0 <= ContentResult.phishingScore c <= 100
  /\ (ContentResult.socialEngineering c = "High"
      <-> 40 <= ContentResult.phishingScore c)
  /\ (ContentResult.socialEngineering c = "Moderate"
      <-> 20 <= ContentResult.phishingScore c < 40)
  /\ (ContentResult.socialEngineering c = "Low"
      <-> ContentResult.phishingScore c < 20).
Proof.
  unfold analyzeContent. cbv zeta.
  destruct (impersonationTest _ _) as [imp | message]; [| discriminate ].
  intros H. injection H as <-. split.
  - apply contentResult_score_range, metadataSignals_nonneg, bump_nonneg;
      [ lia | apply scanPatterns_nonneg ].
  - apply contentResult_tier.
Qed.

Lemma analyzeContent_tier_matches_score_witness :
  exists c, analyzeContent (sample_email "service@paypa1-security.info") = Ok c
            /\ ContentResult.socialEngineering c = "Moderate"
            /\ 20 <= ContentResult.phishingScore c < 40.
Proof.
  eexists. split; [ vm_compute; reflexivity |]. split; [ reflexivity |].
  apply (proj1 (proj2 (proj2
           (analyzeContent_tier_matches_score
              (sample_email "service@paypa1-security.info") _ eq_refl)))).
  reflexivity.
Defined.






(** ** The entry point, end to end *)

Section EndToEnd.

Variable fetch : string -> DohOutcome.
Variable parseURL : string -> result URL.t.
Variable fetchHead : string -> option string.

Local Abbreviation analyze := (analyzeEmail fetch parseURL fetchHead).

Lemma verdict_of_content e c :
  analyzeContent e = Ok c ->
  let a := aggregatorInput fetch parseURL fetchHead e c in
  Verdict.threatScore (analyze e) = flooredTotal a
  /\ Verdict.threatLevel (analyze e) = ThreatScore.level (calculateThreatScore a)
  /\ Verdict.reasons (analyze e) = ThreatScore.reasons (calculateThreatScore a)
  /\ Verdict.contentAnalysis (analyze e) = Some c.
Proof.
  intros H. cbv zeta. unfold analyzeEmail. rewrite H. cbv zeta.
  cbn [Verdict.threatScore Verdict.threatLevel Verdict.reasons
       Verdict.contentAnalysis].
  rewrite score_is_flooredTotal. repeat split.
Qed.

Lemma level_not_safe a n :
  31 <= n -> n <= flooredTotal a ->
  ThreatScore.level (calculateThreatScore a) <> "SAFE".
Proof.
  intros Hn Hle.
  destruct (level_cases a) as [[Hs Hl] | [[Hs Hl] | [Hs Hl]]];
    rewrite score_is_flooredTotal in Hs; rewrite Hl; try discriminate. lia.
Qed.


(** X10. When the text mentions a brand and the sender's domain does
    not contain the first brand of the table that it mentions, the
    verdict has a score of at least 60, is not SAFE, and lists
    [Impersonation attempt detected] among its reasons. *)
Theorem impersonation_never_safe (e : EmailData.t) (brand d : string) :
  let text := JS.toLowerCase (EmailData.subject e ++ " " ++ EmailData.body e) in
  JS.find (fun b => JS.includes text b) brands = Some brand ->
  extractDomain (EmailData.sender e) = Some d ->
  JS.includes d brand = false ->
  60 <= Verdict.threatScore (analyze e)
  /\ Verdict.threatLevel (analyze e) <> "SAFE"
  /\ In "Impersonation attempt detected" (Verdict.reasons (analyze e)).
Proof.
  cbv zeta. intros Hfind Hd Hinc.
  assert (Hc : exists c, analyzeContent e = Ok c
                         /\ ContentResult.impersonation c = true).
  { unfold analyzeContent. cbv zeta. rewrite Hfind, Hd. simpl.
    rewrite Hinc. eexists. split; reflexivity. }
  destruct Hc as (c & Hc & Himp).
  destruct (verdict_of_content e c Hc) as (Hs & Hl & Hr & _).
  rewrite Hs, Hl, Hr.
  assert (H60 : 60 <= flooredTotal (aggregatorInput fetch parseURL fetchHead e c)).
  { rewrite flooredTotal_unfold. cbv zeta.
    cbn [aggregatorInput Analysis.contentAnalysis]. rewrite Himp.
    case_ifs; lia. }
  split; [ exact H60 |]. split; [ now apply (level_not_safe _ 60) |].
  apply kept_reason. unfold priorityReasons. cbv zeta.
  cbn [aggregatorInput Analysis.contentAnalysis]. rewrite Himp.
  simpl. tauto.
Qed.

(** X11. When no DNS-over-HTTPS request succeeds, the sender analysis
    reports SPF and DMARC as failed and no MX record, never a Good
    reputation, and every verdict reached by normal analysis has a score
    of at least 16 and [Sender authentication failed] as its first
    reason. *)
Theorem dns_down_fails_closed (e : EmailData.t) :
  (forall u, lookup_failed (fetch u) = true) ->
  let s := analyzeSender fetch e in
  SenderResult.spf s = "fail"
  /\ SenderResult.dmarc s = "fail"
  /\ SenderResult.mxRecords s = Some []
  /\ SenderResult.reputation s <> "Good"
  /\ (Verdict.error (analyze e) = None ->
      16 <= Verdict.threatScore (analyze e)
      /\ hd_error (Verdict.reasons (analyze e))
         = Some "Sender authentication failed").
Proof.
  intros Hdown. cbv zeta.
  assert (Hspf : checkSPF fetch (extractDomain (EmailData.sender e)) = "fail").
  { unfold checkSPF. rewrite resolve_failed by apply Hdown. reflexivity. }
  assert (Hdmarc : checkDMARC fetch (extractDomain (EmailData.sender e)) = "fail").
  { unfold checkDMARC. rewrite resolve_failed by apply Hdown. reflexivity. }
  assert (Hmx : getMXRecords fetch (extractDomain (EmailData.sender e)) = []).
  { unfold getMXRecords. rewrite resolve_failed by apply Hdown. reflexivity. }
  unfold analyzeSender. cbv zeta.
  cbn [SenderResult.spf SenderResult.dmarc SenderResult.mxRecords
       SenderResult.reputation].
  rewrite Hspf, Hdmarc, Hmx.
  split; [ reflexivity |]. split; [ reflexivity |]. split; [ reflexivity |].
  split.
  { unfold calculateSenderReputation. simpl.
    destruct (DomainInfo.suspicious _); simpl; discriminate. }
  destruct (analyzeContent e) as [c | message] eqn:Hc.
  - intros _. destruct (verdict_of_content e c Hc) as (Hs & _ & Hr & _).
    rewrite Hs, Hr.
    set (a := aggregatorInput fetch parseURL fetchHead e c).
    assert (H80 : 80 <= senderScore a).
    { unfold senderScore, a, aggregatorInput, analyzeSender. cbv zeta.
      cbn [Analysis.senderAnalysis SenderResult.spf SenderResult.dmarc
           SenderResult.domainInfo].
      rewrite Hspf, Hdmarc. simpl.
      destruct (DomainInfo.suspicious _); lia. }
    split.
    + pose proof (analyzeContent_score_range e c Hc) as Hrange.
      assert (Hw : 16 <= weightedTotal a).
      { unfold weightedTotal, JS.round_tenths.
        change (contentScore a) with (ContentResult.phishingScore c).
        assert (0 <= urlScore a) by (unfold urlScore; case_ifs; lia).
        assert (0 <= attachmentScore a)
          by (unfold attachmentScore; case_ifs; lia).
        assert (0 <= combinedScore a)
          by (unfold combinedScore; cbv zeta; case_ifs; lia).
        apply Z.div_le_lower_bound; lia. }
      rewrite flooredTotal_unfold. cbv zeta. case_ifs; lia.
    + rewrite reasons_is_truncation, collectReasons_table.
      unfold priorityReasons. cbv zeta.
      assert (H20 : negb (SenderResult.spf (Analysis.senderAnalysis a) =? "pass")%string
                    || negb (SenderResult.dmarc (Analysis.senderAnalysis a) =? "pass")%string
                    = true).
      { rewrite <- senderScore_above_20. apply Z.ltb_lt. lia. }
      rewrite H20. reflexivity.
  - unfold analyzeEmail. rewrite Hc. simpl. discriminate.
Qed.

End EndToEnd.

(** ** The URL risk analyzer, continued *)

(** X12. The domain reputation check raises [suspicious] exactly when it
    gives a reason, and it gives at most four. *)
Theorem checkDomain_suspicious_iff_reasons (domain : string) :
  (DomainCheck.suspicious (checkDomain domain) = true
   <-> DomainCheck.reasons (checkDomain domain) <> [])
  /\ (List.length (DomainCheck.reasons (checkDomain domain)) <= 4)%nat.
Proof.
  unfold checkDomain. cbv zeta.
  cbn [DomainCheck.suspicious DomainCheck.reasons].
  destruct (existsb (JS.endsWith domain) suspiciousTLDs),
           (length domain <? 5)%nat,
           (4 <? List.length (JS.split "." domain))%nat,
           (existsb (JS.includes (JS.toLowerCase domain)) _);
    unfold labelled; simpl; (split; [ split; intros; congruence | lia ]).
Qed.

Lemma checkDomain_reasons_nonempty domain :
  DomainCheck.suspicious (checkDomain domain) = true ->
  DomainCheck.reasons (checkDomain domain) <> [].
Proof.
  unfold checkDomain. cbv zeta.
  cbn [DomainCheck.suspicious DomainCheck.reasons].
  destruct (existsb (JS.endsWith domain) suspiciousTLDs),
           (length domain <? 5)%nat,
           (4 <? List.length (JS.split "." domain))%nat,
           (existsb (JS.includes (JS.toLowerCase domain)) _);
    unfold labelled; simpl; intros; congruence.
Qed.

Lemma flag_if_consistent c r s :
  flag_consistent s -> flag_consistent (flag_if c r s).
Proof.
  unfold flag_consistent, flag_if. destruct c; simpl; [| tauto ].
  intros _. split; [| reflexivity ].
  intros _ H. apply app_eq_nil in H. destruct H; discriminate.
Qed.

Lemma structureOf_consistent url urlObj :
  flag_consistent (structureOf url urlObj).
Proof.
  unfold structureOf. cbv zeta.
  destruct (80 <? _)%nat;
    repeat apply flag_if_consistent;
    unfold flag_consistent; simpl; split; congruence.
Qed.

(** X13. The structural check raises [suspicious] exactly when it gives
    a reason, also for a URL that does not parse (no flag, no
    reason). *)
Theorem checkUrlStructure_suspicious_iff_reasons
  (parseURL : string -> result URL.t) (url : string) :
  Structure.suspicious (checkUrlStructure parseURL url) = true
  <-> Structure.reasons (checkUrlStructure parseURL url) <> [].
Proof.
  unfold checkUrlStructure. destruct (parseURL url) as [urlObj | message].
  - apply structureOf_consistent.
  - simpl. split; congruence.
Qed.

Section UrlScores.

Variable parseURL : string -> result URL.t.
Variable fetchHead : string -> option string.

(** What [analyzeUrl] returns for a URL whose resolved form parses. *)
Lemma analyzeUrl_parsed url urlObj :
  parseURL (fst (resolveShortLink fetchHead url)) = Ok urlObj ->
  let finalUrl := fst (resolveShortLink fetchHead url) in
  let r := analyzeUrl parseURL fetchHead url in
  UrlResult.riskScore r
  = (if homoglyphHit urlObj then 40 else 0)
    + (if structureHit finalUrl urlObj then 30 else 0)
    + (if patternHit finalUrl then 50 else 0)
    + (if reputationHit urlObj then 20 else 0)
  /\ UrlResult.dangerous r = (50 <=? UrlResult.riskScore r)
  /\ UrlResult.resolvedUrl r = Some finalUrl
  /\ UrlResult.url r = url
  /\ (0 < UrlResult.riskScore r -> UrlResult.flags r <> []).
Proof.
  intros Hp. cbv zeta. unfold analyzeUrl, analyzeUrl_try.
  destruct (resolveShortLink fetchHead url) as [finalUrl redirects].
  cbn [fst] in *. rewrite Hp.
  unfold checkHomoglyphs, checkUrlStructure. rewrite Hp.
  unfold homoglyphHit, structureHit, patternHit, reputationHit.
  pose proof (structureOf_consistent finalUrl urlObj) as Hst.
  pose proof (checkDomain_reasons_nonempty (URL.hostname urlObj)) as Hdm.
  unfold flag_consistent in Hst.
  set (st := structureOf finalUrl urlObj) in *.
  set (dm := checkDomain (URL.hostname urlObj)) in *.
  set (th := checkURL finalUrl) in *.
  clearbody st dm th.
  destruct (pattern_test (Anywhere Regex.non_ascii) (URL.hostname urlObj)),
           (Structure.suspicious st), (ThreatCheck.safe th),
           (DomainCheck.suspicious dm);
    cbn [bump fst snd negb UrlResult.riskScore UrlResult.dangerous
         UrlResult.resolvedUrl UrlResult.url UrlResult.flags app];
    repeat split;
    intros Hpos; try lia;
    intros Hnil;
    repeat match goal with
           | H : (_ ++ _)%list = [] |- _ =>
               apply app_eq_nil in H; destruct H
           end;
    try discriminate;
    try (apply (proj1 Hst); [ reflexivity | assumption ]);
    try (apply Hdm; [ reflexivity | assumption ]).
Qed.

(** X14. Every result of [analyzeUrl] has a score that is a multiple of
    ten between 0 and 140, is dangerous exactly from 50 up, and carries
    at least one flag whenever its score is positive. *)
Theorem analyzeUrl_score_bounds_and_flags (url : string) :
  let r := analyzeUrl parseURL fetchHead url in
  0 <= UrlResult.riskScore r <= 140
  /\ UrlResult.riskScore r mod 10 = 0
  /\ (UrlResult.dangerous r = true <-> 50 <= UrlResult.riskScore r)
  /\ (0 < UrlResult.riskScore r -> UrlResult.flags r <> []).
Proof.
  cbv zeta.
  destruct (parseURL (fst (resolveShortLink fetchHead url)))
    as [urlObj | message] eqn:Hp.
  - destruct (analyzeUrl_parsed url urlObj Hp) as (Hs & Hd & _ & _ & Hf).
    rewrite Hd, Z.leb_le. rewrite Hs in *.
    repeat split; try (intros; assumption); try exact Hf;
      destruct (homoglyphHit urlObj), (structureHit _ urlObj),
               (patternHit _), (reputationHit urlObj);
      try reflexivity; lia.
  - apply analyzeUrl_try_throws in Hp. unfold analyzeUrl. rewrite Hp. simpl.
    repeat split; intros; try discriminate; lia.
Qed.

(** X15. For a URL whose resolved form parses, the danger flag is a
    vote: the URL is dangerous exactly when the static pattern list
    matches, or when at least two of the homoglyph check, the structural
    check and the domain reputation check fire. *)
Theorem analyzeUrl_dangerous_iff (url : string) (urlObj : URL.t) :
  parseURL (fst (resolveShortLink fetchHead url)) = Ok urlObj ->
  let finalUrl := fst (resolveShortLink fetchHead url) in
  UrlResult.dangerous (analyzeUrl parseURL fetchHead url)
  = patternHit finalUrl
    || (homoglyphHit urlObj && structureHit finalUrl urlObj)
    || (homoglyphHit urlObj && reputationHit urlObj)
    || (structureHit finalUrl urlObj && reputationHit urlObj).
Proof.
  intros Hp. cbv zeta.
  destruct (analyzeUrl_parsed url urlObj Hp) as (Hs & Hd & _).
  rewrite Hd, Hs.
  destruct (homoglyphHit urlObj), (structureHit _ urlObj),
           (patternHit _), (reputationHit urlObj); reflexivity.
Qed.

Lemma flag_if_sets c r s :
  c = true -> Structure.suspicious (flag_if c r s) = true.
Proof. intros ->. reflexivity. Qed.

Lemma flag_if_keeps c r s :
  Structure.suspicious s = true -> Structure.suspicious (flag_if c r s) = true.
Proof. unfold flag_if. destruct c; auto. Qed.

Lemma structureOf_risky_host finalUrl urlObj :
  existsb (JS.endsWith (URL.hostname urlObj)) suspiciousTLDs = true
  \/ (4 < List.length (JS.split "." (URL.hostname urlObj)))%nat ->
  structureHit finalUrl urlObj = true.
Proof.
  intros H. unfold structureHit, structureOf. cbv zeta.
  assert (Hchain : forall s,
            Structure.suspicious s = true ->
            Structure.suspicious
              (if (80 <? length (URL.pathname urlObj ++ URL.search urlObj))%nat
               then flag_if
                      ((40 <? length (lettersOnlyOf
                                        (URL.pathname urlObj ++ URL.search urlObj)))%nat
                       && Regex.test (Regex.at_least 30 Regex.letter)
                            (lettersOnlyOf
                               (URL.pathname urlObj ++ URL.search urlObj)))
                      longRandomPathFlag s
               else s) = true).
  { intros s Hs. destruct (80 <? _)%nat; [ now apply flag_if_keeps | exact Hs ]. }
  apply Hchain.
  do 3 apply flag_if_keeps.
  destruct H as [H | H].
  - do 2 apply flag_if_keeps. now apply flag_if_sets.
  - apply flag_if_sets. now apply Nat.ltb_lt.
Qed.

Lemma checkDomain_risky_host host :
  existsb (JS.endsWith host) suspiciousTLDs = true
  \/ (4 < List.length (JS.split "." host))%nat ->
  DomainCheck.suspicious (checkDomain host) = true.
Proof.
  intros H. unfold checkDomain. cbv zeta. cbn [DomainCheck.suspicious].
  destruct H as [-> | H]; [ reflexivity |].
  apply Nat.ltb_lt in H. rewrite H. rewrite !orb_true_r. reflexivity.
Qed.

(** X16. A host on one of the free top-level domains, or with more than
    four labels, is counted twice, by the structural check and by the
    domain reputation check: every URL that resolves to such a host is
    dangerous. *)
Theorem risky_host_is_dangerous (url : string) (urlObj : URL.t) :
  parseURL (fst (resolveShortLink fetchHead url)) = Ok urlObj ->
  existsb (JS.endsWith (URL.hostname urlObj)) suspiciousTLDs = true
  \/ (4 < List.length (JS.split "." (URL.hostname urlObj)))%nat ->
  UrlResult.dangerous (analyzeUrl parseURL fetchHead url) = true
  /\ 50 <= UrlResult.riskScore (analyzeUrl parseURL fetchHead url).
Proof.
  intros Hp Hhost.
  destruct (analyzeUrl_parsed url urlObj Hp) as (Hs & Hd & _).
  rewrite Hd, Hs.
  rewrite (structureOf_risky_host _ urlObj Hhost).
  unfold reputationHit. rewrite (checkDomain_risky_host _ Hhost).
  destruct (homoglyphHit urlObj), (patternHit _); split; try reflexivity; lia.
Qed.

(** X17. Only the first ten URLs of a message count: the batch result
    is that of the first ten, the dangerous URLs are among them, and
    their count is the length of the list reported and at most ten. *)
Theorem analyzeUrls_first_ten_only (urls : list string) :
  let r := analyzeUrls parseURL fetchHead urls in
  r = analyzeUrls parseURL fetchHead (firstn 10 urls)
  /\ UrlAnalysis.dangerousCount r = List.length (UrlAnalysis.dangerousUrls r)
  /\ (UrlAnalysis.dangerousCount r <= 10)%nat
  /\ incl (UrlAnalysis.dangerousUrls r) (firstn 10 urls)
  /\ ((0 < UrlAnalysis.dangerousCount r)%nat <->
      exists u, In u (firstn 10 urls)
                /\ UrlResult.dangerous (analyzeUrl parseURL fetchHead u) = true).
Proof.
  cbv zeta.
  assert (Hurl : forall u, UrlResult.url (analyzeUrl parseURL fetchHead u) = u).
  { intros u. unfold analyzeUrl, analyzeUrl_try.
    destruct (resolveShortLink fetchHead u) as [f rd].
    destruct (parseURL f); reflexivity. }
  assert (Hd : UrlAnalysis.dangerousUrls (analyzeUrls parseURL fetchHead urls)
               = filter (fun u => UrlResult.dangerous
                                    (analyzeUrl parseURL fetchHead u))
                   (firstn 10 urls)).
  { destruct urls as [| u0 rest]; [ reflexivity |].
    unfold analyzeUrls. cbv zeta. cbn [UrlAnalysis.dangerousUrls].
    generalize (firstn 10 (u0 :: rest)) as l.
    induction l as [| u l IH]; [ reflexivity |].
    cbn [map filter].
    destruct (UrlResult.dangerous (analyzeUrl parseURL fetchHead u)) eqn:E.
    - cbn [map]. rewrite Hurl, IH. reflexivity.
    - exact IH. }
  assert (Hc : UrlAnalysis.dangerousCount (analyzeUrls parseURL fetchHead urls)
               = List.length
                   (UrlAnalysis.dangerousUrls
                      (analyzeUrls parseURL fetchHead urls)))
    by (destruct urls; reflexivity).
  split; [| split; [ exact Hc | rewrite Hc, Hd; repeat split ] ].
  - destruct urls as [| u0 rest]; [ reflexivity |].
    assert (E : firstn 10 (u0 :: firstn 9 rest) = u0 :: firstn 9 rest)
      by (change (firstn 10 (u0 :: firstn 9 rest))
            with (u0 :: firstn 9 (firstn 9 rest));
          rewrite firstn_firstn; reflexivity).
    change (firstn 10 (u0 :: rest)) with (u0 :: firstn 9 rest).
    unfold analyzeUrls. cbv zeta.
    change (firstn 10 (u0 :: rest)) with (u0 :: firstn 9 rest).
    rewrite E. reflexivity.
  - etransitivity; [ apply filter_length_le |].
    rewrite length_firstn. apply Nat.le_min_l.
  - intros u Hu. apply filter_In in Hu. apply Hu.
  - intros Hpos.
    destruct (filter _ (firstn 10 urls)) as [| u l] eqn:E; [ simpl in Hpos; lia |].
    assert (Hin : In u (filter (fun u => UrlResult.dangerous
                                            (analyzeUrl parseURL fetchHead u))
                           (firstn 10 urls))) by (rewrite E; now left).
    apply filter_In in Hin. exists u. exact Hin.
  - intros (u & Hin & Hdu).
    assert (Hin' : In u (filter (fun u => UrlResult.dangerous
                                             (analyzeUrl parseURL fetchHead u))
                            (firstn 10 urls)))
      by (apply filter_In; split; assumption).
    destruct (filter _ (firstn 10 urls)); [ destruct Hin' | simpl; lia ].
Qed.

End UrlScores.

(** *** Literal patterns *)

Lemma prefix_split w : forall s,
  prefix w s = true <-> exists q, s = w ++ q.
Proof.
  induction w as [| c w IH]; intros s.
  - split; [ intros _; now exists s | intros _; destruct s; reflexivity ].
  - destruct s as [| d s]; simpl.
    + split; [ discriminate | intros [q Hq]; discriminate ].
    + destruct (ascii_dec c d) as [-> | Hne].
      * rewrite IH. split; intros [q Hq]; exists q; congruence.
      * split; [ discriminate | intros [q Hq]; congruence ].
Qed.

Lemma includes_split s w :
  JS.includes s w = true <-> exists p q, s = p ++ w ++ q.
Proof.
  induction s as [| c s IH]; cbn [JS.includes].
  - rewrite orb_false_r, prefix_split. split.
    + intros [q Hq]. now exists "", q.
    + intros (p & q & H). destruct p; simpl in H.
      * now exists q.
      * discriminate.
  - rewrite orb_true_iff, prefix_split, IH. split.
    + intros [[q Hq] | (p & q & Hpq)].
      * now exists "", q.
      * exists (String c p), q. simpl. congruence.
    + intros (p & q & H). destruct p as [| d p]; simpl in H.
      * left. now exists q.
      * right. injection H as -> ->. now exists p, q.
Qed.

Lemma toLowerCase_app a b :
  JS.toLowerCase (a ++ b) = JS.toLowerCase a ++ JS.toLowerCase b.
Proof. induction a; simpl; congruence. Qed.







Section MoreUrlScores.

Variable parseURL : string -> result URL.t.
Variable fetchHead : string -> option string.


End MoreUrlScores.


(** X19. The basic URL analysis gives a score between 0 and 75 and calls
    a URL dangerous exactly when its host holds an IP address together
    with one other signal, or when a free top-level domain, plain HTTP
    and a keyword come together; a URL that does not parse gets the
    zero-score [Unable to analyze] result. *)
Theorem analyzeUrlBasic_verdict (parseURL : string -> result URL.t)
  (url : string) :
  match parseURL url with
  | Throw _ => analyzeUrlBasic parseURL url = unableToAnalyze url
  | Ok urlObj =>
      let r := analyzeUrlBasic parseURL url in
      0 <= UrlResult.riskScore r <= 75
      /\ UrlResult.dangerous r
         = (basicIp urlObj
            && (basicTld urlObj || basicHttp urlObj || basicKeyword urlObj))
           || (basicTld urlObj && basicHttp urlObj && basicKeyword urlObj)
  end.
Proof.
  unfold analyzeUrlBasic. destruct (parseURL url) as [urlObj | message];
    [| reflexivity ].
  cbv zeta. unfold basicIp, basicTld, basicHttp, basicKeyword.
  destruct (existsb (JS.endsWith (URL.hostname urlObj)) suspiciousTLDs),
           (pattern_test ipPattern (URL.hostname urlObj)),
           (URL.protocol urlObj =? "http:")%string,
           (0 <? List.length _)%nat;
    cbn [bump fst snd UrlResult.riskScore UrlResult.dangerous];
    (split; [ lia | reflexivity ]).
Qed.

(** *** Witnesses *)


Lemma impersonation_never_safe_witness :
  60 <= Verdict.threatScore
          (analyzeEmail sample_fetch_down sample_parseURL sample_fetchHead
             (sample_email "service@paypa1-security.info")).
Proof.
  assert (Hf : JS.find
                 (fun b =>
                    JS.includes
                      (JS.toLowerCase
                         (EmailData.subject
                            (sample_email "service@paypa1-security.info")
                          ++ " "
                          ++ EmailData.body
                               (sample_email "service@paypa1-security.info")))
                      b) brands = Some "paypal")
    by (vm_compute; reflexivity).
  assert (Hd : extractDomain
                 (EmailData.sender (sample_email "service@paypa1-security.info"))
               = Some "paypa1-security.info") by (vm_compute; reflexivity).
  assert (Hi : JS.includes "paypa1-security.info" "paypal" = false)
    by (vm_compute; reflexivity).
  exact (proj1 (impersonation_never_safe sample_fetch_down sample_parseURL
                  sample_fetchHead _ _ _ Hf Hd Hi)).
Defined.

Lemma dns_down_fails_closed_witness :
  SenderResult.spf
    (analyzeSender sample_fetch_down (sample_email "service@paypal.com"))
  = "fail".
Proof.
  exact (proj1 (dns_down_fails_closed sample_fetch_down sample_parseURL
                  sample_fetchHead (sample_email "service@paypal.com")
                  (fun _ => eq_refl))).
Defined.

Lemma analyzeUrl_dangerous_iff_witness :
  UrlResult.dangerous
    (analyzeUrl sample_parseURL_tk sample_fetchHead sample_tk_url) = true.
Proof.
  assert (Hp : sample_parseURL_tk
                 (fst (resolveShortLink sample_fetchHead sample_tk_url))
               = Ok {| URL.protocol := "https:";
                       URL.hostname := "prize.example.tk";
                       URL.pathname := "/claim"; URL.search := EmptyString |})
    by (vm_compute; reflexivity).
  rewrite (analyzeUrl_dangerous_iff sample_parseURL_tk sample_fetchHead
             sample_tk_url _ Hp).
  vm_compute. reflexivity.
Defined.

Lemma risky_host_is_dangerous_witness :
  50 <= UrlResult.riskScore
          (analyzeUrl sample_parseURL_tk sample_fetchHead sample_tk_url).
Proof.
  assert (Hp : sample_parseURL_tk
                 (fst (resolveShortLink sample_fetchHead sample_tk_url))
               = Ok {| URL.protocol := "https:";
                       URL.hostname := "prize.example.tk";
                       URL.pathname := "/claim"; URL.search := EmptyString |})
    by (vm_compute; reflexivity).
  refine (proj2 (risky_host_is_dangerous sample_parseURL_tk sample_fetchHead
                   sample_tk_url _ Hp _)).
  left. vm_compute. reflexivity.
Defined.

(** ** The DNS trust resolver, continued *)

Lemma take_until_semicolon_prefix s :
  exists rest, s = take_until_semicolon s ++ rest.
Proof.
  induction s as [| c s [rest IH]]; simpl.
  - now exists "".
  - destruct (Ascii.eqb c ";").
    + now exists (String c s).
    + exists rest. simpl. congruence.
Qed.

Lemma match_policy_includes s : forall p,
  match_policy s = Some p -> JS.includes s ("p=" ++ p) = true.
Proof.
  induction s as [| c s IH]; intros p H; [ discriminate |].
  assert (Hrec : match_policy s = Some p ->
                 JS.includes (String c s) ("p=" ++ p) = true).
  { intros Hs. cbn [JS.includes]. rewrite (IH p Hs). apply orb_true_r. }
  cbn [match_policy] in H.
  destruct (prefix "p=" (String c s)) eqn:Hp; [| now apply Hrec ].
  destruct (take_until_semicolon (substring 2 (length (String c s) - 2) (String c s)))
    as [| x t] eqn:Ht; [ now apply Hrec |].
  injection H as <-.
  apply prefix_split in Hp. destruct Hp as [q Hq].
  apply includes_split. exists "".
  rewrite Hq in Ht |- *.
  assert (Hsub : substring 2 (length ("p=" ++ q) - 2) ("p=" ++ q) = q).
  { simpl. rewrite Nat.sub_0_r. clear.
    induction q as [| d q IHq]; simpl; [ reflexivity | now rewrite IHq ]. }
  rewrite Hsub in Ht.
  destruct (take_until_semicolon_prefix q) as [rest Hrest].
  rewrite Ht in Hrest. exists rest. simpl. rewrite Hrest at 1.
  reflexivity.
Qed.

Section MoreDNS.

Variable fetch : string -> DohOutcome.

(** X20. [checkDMARC] looks at [_dmarc.<domain>] and fails closed: a
    failed lookup or no record with [v=DMARC1] gives [fail]; with such
    a record the answer is [pass] or [neutral], and [pass] only if the
    record contains [p=reject] or [p=quarantine]. *)
Theorem checkDMARC_fail_closed (domain : option string) :
  let name := "_dmarc." ++ show_nullable domain in
  let found := JS.find (has_text "v=DMARC1") (resolve fetch (Some name) "TXT") in
  let verdict := checkDMARC fetch domain in
  (lookup_failed (fetch (doh_url name "TXT")) = true -> verdict = "fail")
  /\ (found = None -> verdict = "fail")
  /\ (forall r, found = Some r ->
        (verdict = "pass" \/ verdict = "neutral")
        /\ (verdict = "pass" ->
            JS.includes (record_text r) "p=reject" = true
            \/ JS.includes (record_text r) "p=quarantine" = true)).
Proof.
  cbv zeta. unfold checkDMARC. cbv zeta. split; [| split ].
  - intros H.
    rewrite (resolve_failed fetch (Some ("_dmarc." ++ show_nullable domain))
               "TXT" H).
    reflexivity.
  - intros ->. reflexivity.
  - intros r ->.
    destruct (match_policy (record_text r)) as [p |] eqn:Hm.
    + destruct (p =? "reject")%string eqn:Er;
        [| destruct (p =? "quarantine")%string eqn:Eq ]; simpl.
      * apply String.eqb_eq in Er. subst p.
        split; [ now left |]. intros _. left.
        now apply (match_policy_includes _ "reject").
      * apply String.eqb_eq in Eq. subst p.
        split; [ now left |]. intros _. right.
        now apply (match_policy_includes _ "quarantine").
      * split; [ now right | discriminate ].
    + simpl. split; [ now right | discriminate ].
Qed.

Lemma insert_by_priority_perm x l :
  Permutation (insert_by_priority x l) (x :: l).
Proof.
  induction l as [| y l IH]; simpl; [ reflexivity |].
  destruct (MX.priority y <=? MX.priority x).
  - rewrite IH. apply perm_swap.
  - reflexivity.
Qed.

Lemma insert_by_priority_hd x l d :
  priority_le d x -> HdRel priority_le d l ->
  HdRel priority_le d (insert_by_priority x l).
Proof.
  intros Hx Hl. destruct l as [| y l]; simpl.
  - now constructor.
  - inversion Hl; subst. destruct (MX.priority y <=? MX.priority x);
      now constructor.
Qed.

Lemma insert_by_priority_sorted x l :
  Sorted priority_le l -> Sorted priority_le (insert_by_priority x l).
Proof.
  induction 1 as [| y l Hs IH Hhd]; simpl.
  - repeat constructor.
  - destruct (MX.priority y <=? MX.priority x) eqn:E.
    + constructor; [ exact IH |].
      apply insert_by_priority_hd; [| exact Hhd ].
      unfold priority_le. now apply Z.leb_le.
    + apply Z.leb_gt in E.
      constructor; [ now constructor |].
      constructor. unfold priority_le. lia.
Qed.

(** An equal-priority record is inserted after those already there. *)
Lemma insert_by_priority_stable p x l :
  Sorted priority_le l ->
  filter (has_priority p) (insert_by_priority x l)
  = (filter (has_priority p) l ++ filter (has_priority p) [x])%list.
Proof.
  induction 1 as [| y l Hs IH Hhd]; [ reflexivity |].
  cbn [insert_by_priority].
  destruct (MX.priority y <=? MX.priority x) eqn:E.
  - cbn [filter]. rewrite IH.
    destruct (has_priority p y); reflexivity.
  - apply Z.leb_gt in E.
    assert (Hall : Forall (priority_le y) l).
    { apply Sorted_extends; [| now constructor ].
      intros a b c Hab Hbc. unfold priority_le in *. lia. }
    change (filter (has_priority p) (x :: y :: l))
      with (if has_priority p x
            then x :: filter (has_priority p) (y :: l)
            else filter (has_priority p) (y :: l)).
    change (filter (has_priority p) [x])
      with (if has_priority p x then [x] else []).
    destruct (has_priority p x) eqn:Ex; [| now rewrite app_nil_r ].
    apply Z.eqb_eq in Ex.
    assert (Hnone : filter (has_priority p) (y :: l) = []).
    { cbn [filter].
      replace (has_priority p y) with false
        by (unfold has_priority; symmetry; apply Z.eqb_neq; lia).
      clear - Hall E Ex.
      induction Hall as [| z l Hz _ IHl]; [ reflexivity |].
      cbn [filter].
      replace (has_priority p z) with false; [ exact IHl |].
      unfold has_priority, priority_le in *.
      symmetry. apply Z.eqb_neq. lia. }
    rewrite Hnone. reflexivity.
Qed.

Lemma sort_from_sorted l : forall acc,
  Sorted priority_le acc ->
  Sorted priority_le (fold_left (fun a x => insert_by_priority x a) l acc).
Proof.
  induction l as [| x l IH]; intros acc H; simpl; [ exact H |].
  apply IH. now apply insert_by_priority_sorted.
Qed.

Lemma sort_from_perm l : forall acc,
  Permutation (fold_left (fun a x => insert_by_priority x a) l acc)
              (acc ++ l)%list.
Proof.
  induction l as [| x l IH]; intros acc; simpl.
  - now rewrite app_nil_r.
  - rewrite IH, insert_by_priority_perm.
    change (x :: acc)%list with ([x] ++ acc)%list.
    change (x :: l)%list with ([x] ++ l)%list.
    rewrite !app_assoc. apply Permutation_app_tail.
    apply Permutation_app_comm.
Qed.

Lemma sort_from_stable p l : forall acc,
  Sorted priority_le acc ->
  filter (has_priority p)
         (fold_left (fun a x => insert_by_priority x a) l acc)
  = (filter (has_priority p) acc ++ filter (has_priority p) l)%list.
Proof.
  induction l as [| x l IH]; intros acc H; simpl fold_left.
  - now rewrite app_nil_r.
  - rewrite IH by now apply insert_by_priority_sorted.
    rewrite insert_by_priority_stable by exact H.
    rewrite <- app_assoc. f_equal.
    cbn [filter]. destruct (has_priority p x); reflexivity.
Qed.

(** X21. [getMXRecords] returns the answers of the MX lookup, each
    once, in ascending priority; records of equal priority keep the
    order of the answer; a failed lookup gives the empty list. *)
Theorem getMXRecords_sorted_stable (domain : option string) :
  let answers := List.map mxOf (resolve fetch domain "MX") in
  let mx := getMXRecords fetch domain in
  Sorted priority_le mx
  /\ Permutation mx answers
  /\ (forall p, filter (has_priority p) mx = filter (has_priority p) answers)
  /\ (lookup_failed (fetch (doh_url (show_nullable domain) "MX")) = true ->
      mx = []).
Proof.
  cbv zeta. unfold getMXRecords, sort_by_priority.
  change (fun r : DnsRecord.t => _) with mxOf.
  split; [| split; [| split ]].
  - apply sort_from_sorted. constructor.
  - apply (sort_from_perm _ []).
  - intros p. apply (sort_from_stable p _ []). constructor.
  - intros H. rewrite (resolve_failed fetch domain "MX" H). reflexivity.
Qed.

End MoreDNS.

Lemma lang_policy m :
  Regex.lang policyPattern m ->
  exists x rest, m = String "p" (String "=" (String x rest))
                 /\ Ascii.eqb x ";" = false.
Proof.
  unfold policyPattern, Regex.plus. simpl Regex.lit. intros H.
  inversion H as [| | a b s1 s2 H1 H2 | | | |]; subst.
  inversion H1 as [| | a b u1 u2 Hu1 Hu2 | | | |]; subst.
  inversion Hu1 as [| p c Hc | | | | |]; subst.
  apply Ascii.eqb_eq in Hc. subst c.
  inversion Hu2 as [| | a b v1 v2 Hv1 Hv2 | | | |]; subst.
  inversion Hv1 as [| p c Hc | | | | |]; subst.
  apply Ascii.eqb_eq in Hc. subst c.
  inversion Hv2; subst.
  inversion H2 as [| | a b t1 t2 Ht1 Ht2 | | | |]; subst.
  inversion Ht1 as [| p c Hc | | | | |]; subst.
  exists c, t2. split; [ reflexivity |].
  now apply negb_true_iff in Hc.
Qed.

Lemma lang_policy_shortest x :
  Ascii.eqb x ";" = false ->
  Regex.lang policyPattern (String "p" (String "=" (String x ""))).
Proof.
  intros Hx. unfold policyPattern, Regex.plus. simpl Regex.lit.
  change (String "p" (String "=" (String x "")))
    with ((String "p" "" ++ (String "=" "" ++ "")) ++ (String x "" ++ "")).
  repeat constructor; try apply Ascii.eqb_refl.
  now apply negb_true_iff.
Qed.

Lemma match_policy_step c s :
  (exists p, match_policy s = Some p) ->
  exists p, match_policy (String c s) = Some p.
Proof.
  intros [p Hp]. cbn [match_policy].
  destruct (prefix "p=" (String c s)); [| eauto ].
  destruct (take_until_semicolon _); eauto.
Qed.

(** [match_policy] finds a policy exactly when [/p=([^;]+)/] matches. *)
Lemma match_policy_regex s :
  (exists p, match_policy s = Some p) <-> Regex.test policyPattern s = true.
Proof.
  rewrite test_spec. split.
  - induction s as [| c s IH]; intros [p H]; [ discriminate |].
    assert (Hrec : match_policy s = Some p ->
                   exists p0 m q, String c s = p0 ++ m ++ q
                                  /\ Regex.lang policyPattern m).
    { intros Hs. destruct (IH (ex_intro _ p Hs)) as (p0 & m & q & -> & Hm).
      exists (String c p0), m, q. split; [ reflexivity | exact Hm ]. }
    cbn [match_policy] in H.
    destruct (prefix "p=" (String c s)) eqn:Hp; [| now apply Hrec ].
    destruct (take_until_semicolon
                (substring 2 (length (String c s) - 2) (String c s)))
      as [| x t] eqn:Ht; [ now apply Hrec |].
    apply prefix_split in Hp. destruct Hp as [q Hq]. rewrite Hq in Ht |- *.
    simpl in Ht. rewrite Nat.sub_0_r in Ht.
    assert (Hsub : substring 0 (length q) q = q).
    { clear. induction q as [| d q IHq]; simpl;
        [ reflexivity | now rewrite IHq ]. }
    rewrite Hsub in Ht.
    destruct q as [| y q]; [ discriminate |].
    simpl in Ht. destruct (Ascii.eqb y ";") eqn:Ey; [ discriminate |].
    exists "", (String "p" (String "=" (String y ""))), q.
    split; [ reflexivity | now apply lang_policy_shortest ].
  - intros (p & m & q & -> & Hm).
    apply lang_policy in Hm. destruct Hm as (x & rest & -> & Hx).
    induction p as [| c p IH].
    + simpl. rewrite Hx. eauto.
    + apply (match_policy_step c). exact IH.
Qed.

(** A sub-domain policy that comes first is read as the policy. *)
Example checkDMARC_reads_subdomain_policy :
  checkDMARC sample_fetch_dmarc (Some "example.com") = "pass".
Proof. reflexivity. Qed.


(** ** Validation and the domain of the sender *)

Lemma every_char_app p a b :
  every_char p (a ++ b) = every_char p a && every_char p b.
Proof.
  induction a as [| c a IH]; simpl; [ reflexivity |].
  rewrite IH. apply andb_assoc.
Qed.

Lemma lang_star_class p r s :
  Regex.lang r s -> r = Regex.Star (Regex.Class p) -> every_char p s = true.
Proof.
  induction 1 as [| q c Hc | | | | | a s1 s2 H1 IH1 H2 IH2];
    intros E; try discriminate.
  - reflexivity.
  - injection E as ->. rewrite every_char_app, IH2 by reflexivity.
    inversion H1; subst. simpl.
    match goal with Hx : p _ = true |- _ => rewrite Hx end.
    reflexivity.
Qed.

Lemma lang_plus_class p m :
  Regex.lang (Regex.plus (Regex.Class p)) m ->
  exists c t, m = String c t /\ p c = true /\ every_char p t = true.
Proof.
  unfold Regex.plus. intros H.
  inversion H as [| | a b s1 s2 H1 H2 | | | |]; subst.
  inversion H1 as [| q c Hc | | | | |]; subst.
  exists c, s2. repeat split; [ exact Hc |].
  now apply (lang_star_class p _ _ H2).
Qed.

(** The strings that [simpleEmailPattern] accepts. *)
Lemma simpleEmailPattern_shape t :
  Regex.matches simpleEmailPattern t = true ->
  exists l d1 d2,
    t = l ++ String "@" (d1 ++ String "." d2)
    /\ every_char is_mail_char l = true
    /\ d1 <> "" /\ every_char is_mail_char d1 = true
    /\ d2 <> "" /\ every_char is_mail_char d2 = true.
Proof.
  intros H. apply matches_lang in H. unfold simpleEmailPattern in H.
  inversion H as [| | a b l r Hl Hr | | | |]; subst.
  inversion Hr as [| | a b at_ r2 Hat Hr2 | | | |]; subst.
  inversion Hat as [| q c Hc | | | | |]; subst.
  apply Ascii.eqb_eq in Hc. subst c.
  inversion Hr2 as [| | a b d1 r3 Hd1 Hr3 | | | |]; subst.
  inversion Hr3 as [| | a b dot_ d2 Hdot Hd2 | | | |]; subst.
  inversion Hdot as [| q c Hc | | | | |]; subst.
  apply Ascii.eqb_eq in Hc. subst c.
  apply lang_plus_class in Hl, Hd1, Hd2.
  destruct Hl as (c0 & l0 & -> & Hc0 & Hl0).
  destruct Hd1 as (c1 & t1 & -> & Hc1 & Ht1).
  destruct Hd2 as (c2 & t2 & -> & Hc2 & Ht2).
  exists (String c0 l0), (String c1 t1), (String c2 t2).
  unfold is_mail_char. simpl. rewrite Hc0, Hc1, Hc2, Hl0, Ht1, Ht2.
  repeat split; discriminate.
Qed.

Lemma line_terminator_is_space c :
  is_line_terminator c = true -> is_space c = true.
Proof.
  unfold is_line_terminator. intros H. apply orb_true_iff in H.
  destruct H as [H | H]; apply Ascii.eqb_eq in H; subst c; reflexivity.
Qed.

Lemma mail_chars_one_line s :
  every_char is_mail_char s = true -> no_line_terminator s = true.
Proof.
  induction s as [| c s IH]; simpl; [ reflexivity |].
  intros H. apply andb_true_iff in H. destruct H as [Hc Hs].
  rewrite (IH Hs), andb_true_r.
  destruct (is_line_terminator c) eqn:E; [| reflexivity ].
  apply line_terminator_is_space in E.
  unfold is_mail_char in Hc. rewrite E in Hc. discriminate.
Qed.

Lemma match_after_at_first l d :
  every_char is_mail_char l = true -> d <> "" ->
  no_line_terminator d = true ->
  match_after_at (l ++ String "@" d) = Some d.
Proof.
  intros Hl Hd Hnl. induction l as [| c l IH]; simpl.
  - rewrite Hnl. destruct d; [ congruence | reflexivity ].
  - simpl in Hl. apply andb_true_iff in Hl. destruct Hl as [Hc Hl].
    unfold is_mail_char in Hc. apply negb_true_iff in Hc.
    apply orb_false_iff in Hc. destruct Hc as [_ Hc].
    rewrite Hc. simpl. auto.
Qed.

Lemma trimEnd_app_space t c :
  is_space c = true -> trimEnd (t ++ String c "") = trimEnd t.
Proof.
  intros Hc. induction t as [| a t IH]; simpl.
  - now rewrite Hc.
  - now rewrite IH.
Qed.

Lemma trim_app_space s c :
  is_space c = true -> trim (s ++ String c "") = trim s.
Proof.
  intros Hc. unfold trim. induction s as [| a s IH].
  - simpl. now rewrite Hc.
  - cbn [append trimStart]. destruct (is_space a); [ exact IH |].
    apply (trimEnd_app_space (String a s) c Hc).
Qed.

Lemma match_after_at_line_feed s : match_after_at (s ++ LF) = None.
Proof.
  induction s as [| c s IH]; [ reflexivity |].
  cbn [append match_after_at].
  rewrite no_line_terminator_app. cbn [LF no_line_terminator].
  replace (negb (is_line_terminator "010")) with false by reflexivity.
  rewrite !andb_false_r. exact IH.
Qed.

Lemma isValidEmail_domain s :
  isValidEmail s = true ->
  exists d, extractDomain (trim s) = Some d /\ JS.includes d "." = true.
Proof.
  unfold isValidEmail. destruct (s =? "")%string; [ discriminate |].
  intros H. apply simpleEmailPattern_shape in H.
  destruct H as (l & d1 & d2 & Ht & Hl & Hn1 & Hd1 & Hn2 & Hd2).
  rewrite Ht. unfold extractDomain.
  replace ((l ++ String "@" (d1 ++ String "." d2)) =? "")%string with false
    by (destruct l; reflexivity).
  rewrite match_after_at_first.
  - eexists. split; [ reflexivity |].
    apply includes_split.
    exists (JS.toLowerCase d1), (JS.toLowerCase d2).
    rewrite toLowerCase_app. reflexivity.
  - exact Hl.
  - destruct d1; [ congruence | discriminate ].
  - rewrite no_line_terminator_app. cbn [no_line_terminator].
    rewrite (mail_chars_one_line _ Hd1), (mail_chars_one_line _ Hd2).
    reflexivity.
Qed.

(** X24. [Helpers.isValidEmail] looks at the trimmed address,
    [Helpers.extractDomain] at the address as it is.  An accepted
    address has, once trimmed, a domain, and that domain holds a dot;
    the same address followed by a line feed is accepted as well, but
    has no domain. *)
Theorem isValidEmail_trims_extractDomain_does_not (s : string) :
  isValidEmail s = true ->
  (exists d, extractDomain (trim s) = Some d /\ JS.includes d "." = true)
  /\ isValidEmail (s ++ LF) = true
  /\ extractDomain (s ++ LF) = None.
Proof.
  intros H. split; [ now apply isValidEmail_domain |]. split.
  - unfold isValidEmail in *.
    replace ((s ++ LF) =? "")%string with false by (destruct s; reflexivity).
    destruct (s =? "")%string; [ discriminate |].
    unfold LF. now rewrite trim_app_space.
  - unfold extractDomain. rewrite match_after_at_line_feed.
    destruct (_ =? _)%string; reflexivity.
Qed.

Lemma isValidEmail_trims_extractDomain_does_not_witness :
  (exists d, extractDomain (trim "alice@example.com") = Some d
             /\ JS.includes d "." = true)
  /\ isValidEmail sample_padded_sender = true
  /\ extractDomain sample_padded_sender = None.
Proof.
  apply (isValidEmail_trims_extractDomain_does_not "alice@example.com").
  vm_compute. reflexivity.
Defined.

Section ValidatedInput.

Variable fetch : string -> DohOutcome.
Variable parseURL : string -> result URL.t.
Variable fetchHead : string -> option string.


End ValidatedInput.


(** ** Attachments *)

Lemma split_aux_no_separator s : forall cur,
  JS.includes s "." = false -> JS.split_aux "." cur s = [cur ++ s].
Proof.
  induction s as [| c s IH]; intros cur H.
  - simpl. now rewrite append_empty_r.
  - cbn [JS.includes] in H. apply orb_false_iff in H. destruct H as [Hp Hs].
    cbn [JS.split_aux]. destruct (Ascii.eqb c ".") eqn:E.
    + apply Ascii.eqb_eq in E. subst c.
      assert (Ht : prefix "." (String "." s) = true)
        by (apply prefix_split; now exists s).
      congruence.
    + rewrite (IH _ Hs), append_assoc. reflexivity.
Qed.

(** X26. [checkAttachment] on any attachment: the score is one of 0,
    30, 40, 70, 80, 90, 120 and 130, and there is a flag exactly when
    the score is positive; a name with more than one dot is always
    dangerous and flagged as a double extension, whatever the
    extension; an attachment without a dot in its name, with the
    extension that the parser gives it, is clean. *)
Theorem checkAttachment_scores_and_names (att : Attachment.t) :
  let r := checkAttachment att in
  In (AttachmentResult.riskScore r) attachmentRiskScores
  /\ (AttachmentResult.flags r <> [] <-> 0 < AttachmentResult.riskScore r)
  /\ ((2 < List.length (JS.split "." (Attachment.name att)))%nat ->
      AttachmentResult.dangerous r = true
      /\ In "Double extension detected" (AttachmentResult.flags r))
  /\ (JS.includes (Attachment.name att) "." = false ->
      Attachment.extension att = getFileExtension (Attachment.name att) ->
      AttachmentResult.dangerous r = false
      /\ AttachmentResult.riskScore r = 0
      /\ AttachmentResult.flags r = []).
Proof.
  cbv zeta. split; [| split; [| split ]].
  - unfold checkAttachment, att_extension_step, att_macro_step,
      att_double_step. cbv zeta.
    destruct (JS.mem (JS.toLowerCase (Attachment.extension att)) dangerousExts),
      (JS.mem (JS.toLowerCase (Attachment.extension att)) suspiciousExts),
      (JS.mem (JS.toLowerCase (Attachment.extension att)) macroExts),
      (2 <? List.length (JS.split "." (Attachment.name att)))%nat;
      simpl; tauto.
  - unfold checkAttachment, att_extension_step, att_macro_step,
      att_double_step. cbv zeta.
    destruct (JS.mem (JS.toLowerCase (Attachment.extension att)) dangerousExts),
      (JS.mem (JS.toLowerCase (Attachment.extension att)) suspiciousExts),
      (JS.mem (JS.toLowerCase (Attachment.extension att)) macroExts),
      (2 <? List.length (JS.split "." (Attachment.name att)))%nat;
      simpl; split; intros; try discriminate; try lia; congruence.
  - intros H. apply Nat.ltb_lt in H.
    unfold checkAttachment. cbv zeta.
    cbn [AttachmentResult.dangerous AttachmentResult.flags].
    unfold att_double_step. rewrite H.
    cbn [st_dangerous st_flags]. split; [ reflexivity |].
    apply in_or_app. right. now left.
  - intros Hdot Hext.
    assert (Hs : JS.split "." (Attachment.name att) = [Attachment.name att])
      by (apply (split_aux_no_separator _ "" Hdot)).
    unfold getFileExtension in Hext. rewrite Hs in Hext. simpl in Hext.
    unfold checkAttachment, att_double_step. cbv zeta.
    rewrite Hs, Hext. repeat split.
Qed.

Lemma filter_length_positive {A} (p : A -> bool) (l : list A) :
  (0 < List.length (filter p l))%nat <-> exists x, In x l /\ p x = true.
Proof.
  induction l as [| a l IH]; simpl.
  - split; [ lia | intros (x & [] & _) ].
  - destruct (p a) eqn:E; simpl.
    + split; [ intros _; exists a; auto | lia ].
    + rewrite IH. split.
      * intros (x & Hin & Hx). exists x. auto.
      * intros (x & [-> | Hin] & Hx); [ congruence | exists x; auto ].
Qed.

Lemma filter_none {A} (p : A -> bool) (l : list A) :
  existsb p l = false -> filter p l = [].
Proof.
  induction l as [| x l IH]; simpl; [ reflexivity |].
  intros E. apply orb_false_iff in E. destruct E as [Ex El].
  rewrite Ex. now apply IH.
Qed.

(** X27. [analyzeAttachments] gives one result per attachment, in
    order; its count of dangerous attachments is at most their number
    and is positive exactly when [checkAttachment] calls one of them
    dangerous; the aggregator's attachment score is then 90 and is 0
    otherwise, however many are dangerous. *)
Theorem analyzeAttachments_counts (atts : list Attachment.t)
  (a : Analysis.t) :
  let r := analyzeAttachments atts in
  AttachmentAnalysis.attachments r = map checkAttachment atts
  /\ (AttachmentAnalysis.dangerousCount r <= List.length atts)%nat
  /\ ((0 < AttachmentAnalysis.dangerousCount r)%nat <->
      exists att, In att atts /\ isDangerousAttachment att = true)
  /\ attachmentScore (set_attachmentAnalysis r a)
     = if existsb isDangerousAttachment atts then 90 else 0.
Proof.
  cbv zeta.
  assert (Hr : analyzeAttachments atts
               = {| AttachmentAnalysis.attachments := map checkAttachment atts;
                    AttachmentAnalysis.dangerousCount :=
                      List.length (filter AttachmentResult.dangerous
                                     (map checkAttachment atts)) |})
    by (destruct atts; reflexivity).
  rewrite Hr. clear Hr.
  unfold attachmentScore, set_attachmentAnalysis.
  cbn [AttachmentAnalysis.attachments AttachmentAnalysis.dangerousCount
       Analysis.attachmentAnalysis].
  assert (Hf : List.length (filter AttachmentResult.dangerous
                              (map checkAttachment atts))
               = List.length (filter isDangerousAttachment atts)).
  { induction atts as [| x l IH]; [ reflexivity |].
    cbn [map filter]. unfold isDangerousAttachment at 1.
    destruct (AttachmentResult.dangerous (checkAttachment x));
      simpl; now rewrite IH. }
  rewrite Hf. split; [ reflexivity |]. split; [ apply filter_length_le |].
  split; [ apply filter_length_positive |].
  destruct (existsb isDangerousAttachment atts) eqn:E.
  - apply existsb_exists in E. apply filter_length_positive in E.
    apply Nat.ltb_lt in E. now rewrite E.
  - rewrite (filter_none _ _ E). reflexivity.
Qed.

(** ** The cache manager *)

Lemma obj_get_set_same {V} key (v : V) o :
  obj_get key (obj_set key v o) = Some v.
Proof.
  induction o as [| [k w] o IH]; simpl.
  - now rewrite String.eqb_refl.
  - destruct (k =? key)%string eqn:E; simpl; rewrite E; [ reflexivity | exact IH ].
Qed.

Lemma obj_get_set_other {V} key key' (v : V) o :
  key' <> key -> obj_get key' (obj_set key v o) = obj_get key' o.
Proof.
  intros Hne. induction o as [| [k w] o IH]; simpl.
  - destruct (key =? key')%string eqn:E; [| reflexivity ].
    apply String.eqb_eq in E. congruence.
  - destruct (k =? key)%string eqn:E; simpl.
    + apply String.eqb_eq in E. subst k.
      replace (key =? key')%string with false; [ reflexivity |].
      symmetry. apply String.eqb_neq. congruence.
    + now rewrite IH.
Qed.

Lemma obj_get_delete_same {V} key (o : list (string * V)) :
  obj_get key (obj_delete key o) = None.
Proof.
  induction o as [| [k w] o IH]; simpl; [ reflexivity |].
  destruct (k =? key)%string eqn:E; simpl; [ exact IH |].
  now rewrite E.
Qed.

Lemma generateKey_injective type : forall type' identifier identifier',
  JS.includes type ":" = false -> JS.includes type' ":" = false ->
  generateKey type identifier = generateKey type' identifier' ->
  type = type' /\ identifier = identifier'.
Proof.
  unfold generateKey.
  induction type as [| c t IH]; intros [| c' t'] i i' H H' E; simpl in E.
  - injection E as E. now split.
  - injection E as Ec E. subst c'.
    cbn [JS.includes] in H'.
    assert (Hp : prefix ":" (String ":" t') = true)
      by (apply prefix_split; now exists t').
    rewrite Hp in H'. discriminate.
  - injection E as Ec E. subst c.
    cbn [JS.includes] in H.
    assert (Hp : prefix ":" (String ":" t) = true)
      by (apply prefix_split; now exists t).
    rewrite Hp in H. discriminate.
  - injection E as Ec E. subst c'.
    cbn [JS.includes] in H, H'.
    apply orb_false_iff in H, H'.
    destruct (IH t' i i' (proj2 H) (proj2 H') E) as [-> ->]. now split.
Qed.

Section CacheProperties.

Variable A : Type.

(** X28. An entry set with an explicit time to live is returned by
    [get] under the same type and identifier until that time has
    passed, and not after; as long as type names hold no colon, a
    [set] leaves what [get] returns for any other type or identifier
    unchanged; after [clear] the entry is gone. *)
Theorem cache_set_then_get (now now' t ttl : Z) (storage : option (Cache A))
  (type identifier type' identifier' : string) (data : A) :
  ttl <> 0 ->
  let after := cache_set A now now' storage type identifier data (Some ttl) in
  cache_get A t after type identifier
  = (if now + ttl <? t then None else Some data)
  /\ (JS.includes type ":" = false -> JS.includes type' ":" = false ->
      (type', identifier') <> (type, identifier) ->
      cache_get A t after type' identifier'
      = cache_get A t storage type' identifier')
  /\ cache_get A t (cache_clear A after type identifier) type identifier
     = None.
Proof.
  intros Httl. cbv zeta. unfold cache_get, cache_set, cache_clear.
  cbn [stored]. split; [| split ].
  - rewrite obj_get_set_same. cbn [CacheEntry.expiresAt CacheEntry.data].
    unfold ttlOf. apply Z.eqb_neq in Httl. rewrite Httl. reflexivity.
  - intros H H' Hne. rewrite obj_get_set_other; [ reflexivity |].
    intros E. apply generateKey_injective in E; [| assumption | assumption ].
    destruct E as [-> ->]. now apply Hne.
  - now rewrite obj_get_delete_same.
Qed.

Lemma obj_set_keys {V} key (v : V) o :
  In key (map fst o) -> map fst (obj_set key v o) = map fst o.
Proof.
  induction o as [| [k w] o IH]; simpl; [ tauto |].
  intros Hin. destruct (k =? key)%string eqn:E; simpl; [ reflexivity |].
  f_equal. apply IH. destruct Hin as [-> | Hin]; [| exact Hin ].
  rewrite String.eqb_refl in E. discriminate.
Qed.

Lemma obj_set_keys_new {V} key (v : V) o :
  ~ In key (map fst o) -> map fst (obj_set key v o) = (map fst o ++ [key])%list.
Proof.
  induction o as [| [k w] o IH]; simpl; [ reflexivity |].
  intros Hin. destruct (k =? key)%string eqn:E; simpl.
  - apply String.eqb_eq in E. tauto.
  - f_equal. apply IH. tauto.
Qed.

Lemma obj_set_NoDup {V} key (v : V) o :
  NoDup (map fst o) -> NoDup (map fst (obj_set key v o)).
Proof.
  intros H. destruct (in_dec string_dec key (map fst o)) as [Hin | Hin].
  - now rewrite obj_set_keys.
  - rewrite obj_set_keys_new by exact Hin.
    apply NoDup_app; [ exact H | repeat constructor; simpl; tauto |].
    intros x Hx [<- | []]. contradiction.
Qed.

Lemma filter_keys_NoDup {V} (p : string * V -> bool) o :
  NoDup (map fst o) -> NoDup (map fst (filter p o)).
Proof.
  induction o as [| [k w] o IH]; simpl; intros H; [ constructor |].
  inversion H as [| x l Hnot Hrest]; subst.
  destruct (p (k, w)); simpl; [| now apply IH ].
  constructor; [| now apply IH ].
  intros Hin. apply Hnot. apply in_map_iff in Hin.
  destruct Hin as (e & He & Hin). apply filter_In in Hin.
  apply in_map_iff. exists e. tauto.
Qed.

Lemma obj_get_filter {V} (p : string * V -> bool) key o :
  NoDup (map fst o) ->
  obj_get key (filter p o)
  = match obj_get key o with
    | Some v => if p (key, v) then Some v else None
    | None => None
    end.
Proof.
  induction o as [| [k w] o IH]; simpl; intros H; [ reflexivity |].
  inversion H as [| x l Hnot Hrest]; subst.
  destruct (k =? key)%string eqn:E.
  - apply String.eqb_eq in E. subst k.
    destruct (p (key, w)) eqn:Ep; simpl.
    + now rewrite String.eqb_refl.
    + rewrite (IH Hrest).
      destruct (obj_get key o) as [v |] eqn:Hg; [| reflexivity ].
      exfalso. apply Hnot. clear - Hg.
      induction o as [| [k' w'] o IHo]; simpl in *; [ discriminate |].
      destruct (k' =? key)%string eqn:E'.
      * left. now apply String.eqb_eq.
      * right. now apply IHo.
  - destruct (p (k, w)); simpl; [ rewrite E |]; now apply IH.
Qed.

Lemma getStats_from (now : Z) (cache : Cache A) : forall acc,
  fold_left
    (fun stats e =>
       let stats := {| total := total stats + 1; active := active stats;
                       expired := expired stats |} in
       if CacheEntry.expiresAt (snd e) <? now
       then {| total := total stats; active := active stats;
               expired := expired stats + 1 |}
       else {| total := total stats; active := active stats + 1;
               expired := expired stats |})
    cache acc
  = {| total := total acc + Z.of_nat (List.length cache);
       active := active acc
                 + Z.of_nat (List.length
                               (filter (fun e => negb (is_expired now e)) cache));
       expired := expired acc
                  + Z.of_nat (List.length (filter (is_expired now) cache)) |}.
Proof.
  induction cache as [| e cache IH]; intros acc.
  - simpl. destruct acc. simpl. f_equal; lia.
  - cbn [fold_left filter]. rewrite IH. unfold is_expired.
    destruct (CacheEntry.expiresAt (snd e) <? now);
      cbn [negb total active expired List.length];
      rewrite ?Nat2Z.inj_succ; f_equal; lia.
Qed.

(** X29. On a stored cache, whose keys are distinct, [cleanup] removes
    the entries past their time and reports how many, which is the
    [expired] counter of [getStats]; afterwards that counter is 0; at
    the time of the cleanup and at any later time [get] returns what
    it returned before; [getStats] counts every entry once, as active
    or as expired; and [set], [clear] and [cleanup] keep the keys
    distinct. *)
Theorem cache_cleanup_keeps_answers (now t : Z) (storage : option (Cache A))
  (type identifier : string) (data : A) (ttl : option Z) :
  NoDup (cache_keys storage) ->
  now <= t ->
  let cleaned := cache_cleanup A now storage in
  let stats := cache_getStats A now storage in
  cache_get A t (fst cleaned) type identifier
  = cache_get A t storage type identifier
  /\ Z.of_nat (snd cleaned) = expired stats
  /\ expired (cache_getStats A now (fst cleaned)) = 0
  /\ total stats = active stats + expired stats
  /\ total stats = Z.of_nat (List.length (cache_keys storage))
  /\ NoDup (cache_keys (fst cleaned))
  /\ NoDup (cache_keys (cache_set A now t storage type identifier data ttl))
  /\ NoDup (cache_keys (cache_clear A storage type identifier)).
Proof.
  unfold cache_keys. intros Hnd Hle. cbv zeta.
  unfold cache_getStats. rewrite !getStats_from.
  cbn [total active expired]. rewrite !Z.add_0_l.
  set (cache := stored A storage) in *.
  assert (Hsplit : (List.length cache
                    = List.length (filter (is_expired now) cache)
                      + List.length (filter (fun e => negb (is_expired now e))
                                       cache))%nat)
    by (symmetry; apply filter_length).
  assert (Hkept : fst (cache_cleanup A now storage) = storage
                  \/ fst (cache_cleanup A now storage)
                     = Some (filter (fun e => negb (is_expired now e)) cache)).
  { unfold cache_cleanup. cbv zeta. fold cache.
    destruct (0 <? _)%nat; [ right | left ]; reflexivity. }
  assert (Hstored : stored A (fst (cache_cleanup A now storage))
                    = filter (fun e => negb (is_expired now e)) cache).
  { unfold cache_cleanup. cbv zeta. fold cache.
    change (fun e : string * CacheEntry.t A =>
              negb (CacheEntry.expiresAt (snd e) <? now))
      with (fun e : string * CacheEntry.t A => negb (is_expired now e)).
    destruct (0 <? _)%nat eqn:E; [ reflexivity |].
    apply Nat.ltb_ge in E. cbn [fst]. fold cache.
    assert (Hnone : filter (is_expired now) cache = []).
    { destruct (filter (is_expired now) cache) eqn:Ef; [ reflexivity |].
      simpl in Hsplit. lia. }
    clear - Hnone. induction cache as [| e c IH]; [ reflexivity |].
    cbn [filter] in *. destruct (is_expired now e); [ discriminate |].
    simpl. f_equal. now apply IH. }
  repeat match goal with |- _ /\ _ => split end.
  - unfold cache_get. rewrite Hstored. fold cache.
    rewrite (obj_get_filter _ _ _ Hnd).
    destruct (obj_get (generateKey type identifier) cache) as [v |];
      [| reflexivity ].
    unfold is_expired. cbn [snd].
    destruct (CacheEntry.expiresAt v <? now) eqn:E; cbn [negb].
    + apply Z.ltb_lt in E.
      replace (CacheEntry.expiresAt v <? t) with true
        by (symmetry; apply Z.ltb_lt; lia).
      reflexivity.
    + reflexivity.
  - unfold cache_cleanup. cbv zeta. fold cache.
    change (fun e : string * CacheEntry.t A =>
              negb (CacheEntry.expiresAt (snd e) <? now))
      with (fun e : string * CacheEntry.t A => negb (is_expired now e)).
    destruct (0 <? _)%nat eqn:E; cbn [snd]; [ lia |].
    apply Nat.ltb_ge in E. lia.
  - rewrite Hstored.
    replace (filter (is_expired now)
               (filter (fun e => negb (is_expired now e)) cache))
      with (@nil (string * CacheEntry.t A)); [ reflexivity |].
    symmetry. clear. induction cache as [| e c IH]; [ reflexivity |].
    cbn [filter]. destruct (is_expired now e) eqn:E; cbn [negb filter];
      [ exact IH | rewrite E; exact IH ].
  - lia.
  - now rewrite length_map.
  - rewrite Hstored. now apply filter_keys_NoDup.
  - unfold cache_set. cbn [stored]. now apply obj_set_NoDup.
  - unfold cache_clear. cbn [stored]. fold cache.
    clear - Hnd. induction cache as [| [k w] c IH]; simpl; [ constructor |].
    inversion Hnd as [| x l Hnot Hrest]; subst.
    destruct (k =? _)%string; [ now apply IH |].
    simpl. constructor; [| now apply IH ].
    intros Hin. apply Hnot. clear - Hin.
    induction c as [| [k' w'] c IHc]; simpl in *; [ tauto |].
    destruct (k' =? _)%string; simpl in *; tauto.
Qed.

(** After [clearAll] no entry is left. *)
Lemma cache_clearAll_empties (t : Z) (type identifier : string) :
  cache_get A t (cache_clearAll A) type identifier = None.
Proof. reflexivity. Qed.

End CacheProperties.

Lemma cache_set_then_get_witness :
  cache_get string 2000
    (cache_set string 1000 1000 sample_cache "url" "https://c.example/"
       "verdict" (Some 1500))
    "url" "https://c.example/" = Some "verdict".
Proof.
  apply (cache_set_then_get string 1000 1000 2000 1500 sample_cache
           "url" "https://c.example/" "url" "https://c.example/" "verdict").
  lia.
Defined.

Lemma cache_cleanup_keeps_answers_witness :
  cache_get string 1000 (fst (cache_cleanup string 1000 sample_cache))
    "domain" "b.example"
  = cache_get string 1000 sample_cache "domain" "b.example".
Proof.
  apply (cache_cleanup_keeps_answers string 1000 1000 sample_cache
           "domain" "b.example" "x" None).
  - unfold cache_keys. simpl. repeat constructor; simpl; intuition discriminate.
  - lia.
Defined.

(** ** Retrying with backoff *)

Lemma backoff_S delay n :
  backoff delay (S n) = delay :: backoff (delay * 2) n.
Proof.
  unfold backoff. cbn [seq map]. f_equal; [ simpl; lia |].
  rewrite <- seq_shift, map_map. apply map_ext. intros i.
  rewrite Nat2Z.inj_succ, Z.pow_succ_r by lia. lia.
Qed.

Lemma retry_from_spec {A} (fn : nat -> result A) : forall j retries k delay,
  (j <= retries)%nat ->
  (forall i, (i < j)%nat -> exists message, fn (k + i)%nat = Throw message) ->
  (exists a, fn (k + j)%nat = Ok a) \/ j = retries ->
  retry_from retries fn k delay = (fn (k + j)%nat, backoff delay j).
Proof.
  induction j as [| j IH]; intros retries k delay Hle Hthrows Hlast.
  - rewrite Nat.add_0_r in *. destruct retries; simpl.
    + destruct (fn k); reflexivity.
    + destruct (fn k) eqn:E; [ reflexivity |].
      destruct Hlast as [[a Ha] | Hr]; [ congruence | discriminate ].
  - destruct retries as [| retries]; [ lia |].
    destruct (Hthrows 0%nat ltac:(lia)) as [message Hm].
    rewrite Nat.add_0_r in Hm. cbn [retry_from]. rewrite Hm.
    rewrite (IH retries (S k) (delay * 2)).
    + rewrite backoff_S. now rewrite Nat.add_succ_r.
    + lia.
    + intros i Hi. destruct (Hthrows (S i) ltac:(lia)) as [m' Hm'].
      exists m'. now rewrite Nat.add_succ_r in Hm'.
    + rewrite Nat.add_succ_r in Hlast.
      destruct Hlast as [Ha | Hr]; [ now left | right; lia ].
Qed.

(** X30. [Helpers.retry] stops at the first call that succeeds, or at
    call number [max(1, attempts)] when none does; it returns the
    outcome of that call (the value, or the last error), and between
    the calls it sleeps [delay], [2 * delay], [4 * delay], ... *)
Theorem retry_stops_with_backoff {A : Type} (fn : nat -> result A)
  (attempts delay : Z) (j : nat) :
  Z.of_nat j < Z.max 1 attempts ->
  (forall i, (i < j)%nat -> exists message, fn i = Throw message) ->
  (exists a, fn j = Ok a) \/ Z.of_nat j = Z.max 1 attempts - 1 ->
  retry fn attempts delay = (fn j, backoff delay j).
Proof.
  intros Hj Hthrows Hlast. unfold retry.
  apply (retry_from_spec fn j (Z.to_nat (attempts - 1)) 0%nat delay).
  - lia.
  - exact Hthrows.
  - destruct Hlast as [Ha | Hl]; [ now left | right; lia ].
Qed.

Lemma retry_stops_with_backoff_witness :
  retry sample_flaky 3 1000 = (Ok "done", [1000; 2000]).
Proof.
  apply (retry_stops_with_backoff sample_flaky 3 1000 2).
  - lia.
  - intros i Hi. exists "timeout". unfold sample_flaky.
    destruct i as [| [| i]]; [ reflexivity | reflexivity | lia ].
  - left. now exists "done".
Defined.

(** ** Smaller helpers *)

Lemma substring_0_length n : forall s,
  length (substring 0 n s) = Nat.min n (length s).
Proof.
  induction n as [| n IH]; intros [| c s]; simpl; try reflexivity.
  now rewrite IH.
Qed.

(** A text longer than [maxLength] comes back three characters longer
    than [maxLength]: the cut text and the dots. *)
Lemma truncate_length (text : string) (maxLength : Z) :
  0 <= maxLength < Z.of_nat (length text) ->
  length (truncate text maxLength) = (Z.to_nat maxLength + 3)%nat.
Proof.
  intros H. unfold truncate.
  replace (text =? "")%string with false
    by (destruct text; [ simpl in H; lia | reflexivity ]).
  replace (Z.of_nat (length text) <=? maxLength) with false
    by (symmetry; apply Z.leb_gt; lia).
  cbn [orb]. rewrite append_length, substring_0_length. simpl. lia.
Qed.

(** A text within the limit comes back as it is. *)
Lemma truncate_short (text : string) (maxLength : Z) :
  Z.of_nat (length text) <= maxLength -> truncate text maxLength = text.
Proof.
  intros H. unfold truncate. apply Z.leb_le in H. rewrite H.
  now rewrite orb_true_r.
Qed.

Lemma reverseDNS_failed fetch ip :
  lookup_failed
    (fetch (doh_url (reversedIP ip ++ ".in-addr.arpa") "PTR")) = true ->
  reverseDNS fetch ip = None.
Proof.
  intros H. unfold reverseDNS.
  now rewrite (resolve_failed fetch (Some (reversedIP ip ++ ".in-addr.arpa"))
                 "PTR" H).
Qed.

Lemma split_aux_nonempty sep s : forall cur, JS.split_aux sep cur s <> [].
Proof.
  induction s as [| c s IH]; intros cur; simpl; [ discriminate |].
  destruct (Ascii.eqb c sep); [ discriminate | apply IH ].
Qed.

Lemma join_cons sep x l :
  l <> [] -> JS.join sep (x :: l) = x ++ sep ++ JS.join sep l.
Proof. destruct l; [ congruence | reflexivity ]. Qed.

Lemma join_split_aux s : forall cur,
  JS.join "." (JS.split_aux "." cur s) = cur ++ s.
Proof.
  induction s as [| c s IH]; intros cur;
    [ simpl; now rewrite append_empty_r |].
  cbn [JS.split_aux]. destruct (Ascii.eqb c ".") eqn:E.
  - apply Ascii.eqb_eq in E. subst c.
    rewrite join_cons by apply split_aux_nonempty.
    now rewrite IH.
  - rewrite IH, append_assoc. reflexivity.
Qed.

(** Joining the pieces of a split gives the string back. *)
Lemma join_split s : JS.join "." (JS.split "." s) = s.
Proof. apply (join_split_aux s ""). Qed.

Lemma includes_dot_app a b :
  JS.includes (a ++ b) "." = JS.includes a "." || JS.includes b ".".
Proof.
  apply eq_true_iff_eq. rewrite orb_true_iff, !includes_split. split.
  - intros (p & q & H). revert p H.
    induction a as [| c a IH]; intros p H.
    + right. now exists p, q.
    + destruct p as [| d p]; simpl in H; injection H as Hc H.
      * left. subst c. now exists "", a.
      * destruct (IH p H) as [(p' & q' & ->) | Hb]; [| now right ].
        left. now exists (String c p'), q'.
  - intros [(p & q & ->) | (p & q & ->)].
    + exists p, (q ++ b). now rewrite !append_assoc.
    + exists (a ++ p), q. now rewrite !append_assoc.
Qed.

Lemma split_aux_join l : forall cur,
  Forall (fun x => JS.includes x "." = false) l ->
  JS.includes cur "." = false ->
  l <> [] ->
  JS.split_aux "." cur (JS.join "." l)
  = (cur ++ hd "" l) :: tl l.
Proof.
  induction l as [| x l IH]; intros cur Hall Hcur Hne; [ congruence |].
  inversion Hall as [| y l' Hx Hl]; subst.
  destruct l as [| y l].
  - simpl. now apply split_aux_no_separator.
  - rewrite join_cons by discriminate.
    assert (Hstep : forall t c,
              JS.includes x "." = false ->
              JS.split_aux "." c (x ++ "." ++ t)
              = (c ++ x) :: JS.split_aux "." "" t).
    { clear. intros t. induction x as [| a x IHx]; intros c Hx.
      - simpl. now rewrite append_empty_r.
      - cbn [JS.includes] in Hx. apply orb_false_iff in Hx.
        destruct Hx as [Hp Hx]. cbn [append JS.split_aux].
        destruct (Ascii.eqb a ".") eqn:E.
        + apply Ascii.eqb_eq in E. subst a.
          assert (Ht : prefix "." (String "." x) = true)
            by (apply prefix_split; now exists x).
          congruence.
        + rewrite (IHx _ Hx), append_assoc. reflexivity. }
    rewrite (Hstep _ _ Hx). cbn [hd tl]. f_equal.
    rewrite (IH "" Hl eq_refl ltac:(discriminate)). reflexivity.
Qed.

Lemma split_aux_pieces s : forall cur,
  JS.includes cur "." = false ->
  Forall (fun x => JS.includes x "." = false) (JS.split_aux "." cur s).
Proof.
  induction s as [| c s IH]; intros cur Hcur; cbn [JS.split_aux].
  - now repeat constructor.
  - destruct (Ascii.eqb c ".") eqn:E.
    + constructor; [ exact Hcur | now apply IH ].
    + apply IH. rewrite includes_dot_app, Hcur. cbn [orb JS.includes].
      replace (prefix "." (String c "")) with false; [ reflexivity |].
      symmetry. destruct (prefix "." (String c "")) eqn:Hp; [| reflexivity ].
      apply prefix_split in Hp. destruct Hp as [q Hq]. injection Hq as -> _.
      rewrite Ascii.eqb_refl in E. discriminate.
Qed.

(** Reversing the labels twice gives the address back. *)
Lemma reversedIP_involutive ip : reversedIP (reversedIP ip) = ip.
Proof.
  unfold reversedIP, JS.split.
  rewrite (split_aux_join (rev (JS.split_aux "." "" ip)) "").
  - change (hd "" ?l :: tl ?l) with (hd "" l :: tl l).
    assert (Hne : rev (JS.split_aux "." "" ip) <> []).
    { intros E. apply (f_equal (@rev string)) in E.
      rewrite rev_involutive in E. now apply split_aux_nonempty in E. }
    destruct (rev (JS.split_aux "." "" ip)) as [| x l] eqn:E; [ congruence |].
    cbn [hd tl append]. rewrite <- E, rev_involutive.
    apply join_split.
  - apply Forall_rev. now apply split_aux_pieces.
  - reflexivity.
  - intros E. apply (f_equal (@rev string)) in E.
    rewrite rev_involutive in E. now apply split_aux_nonempty in E.
Qed.

(** For the large mail providers any display name matches; without a
    domain in the address none does. *)
Lemma doesNameMatchDomain_edges (name email : string) :
  (JS.includes email "@" = false -> doesNameMatchDomain name email = false)
  /\ (name <> "" -> email <> "" ->
      (exists d, match_after_at email = Some d
                 /\ In (JS.toLowerCase d)
                       ["gmail.com"; "outlook.com"; "yahoo.com"; "hotmail.com"]) ->
      doesNameMatchDomain name email = true).
Proof.
  unfold doesNameMatchDomain. split.
  - intros H. rewrite (match_after_at_no_at _ H).
    destruct (_ || _); reflexivity.
  - intros Hn He (d & Hd & Hin).
    apply String.eqb_neq in Hn, He. rewrite Hn, He, Hd. cbn [orb].
    cbv zeta. simpl in Hin.
    destruct Hin as [<- | [<- | [<- | [<- | []]]]]; simpl;
      rewrite ?orb_true_r; reflexivity.
Qed.
